(** * The placeholder timetable generator of [app.py]

    A shallow embedding of [generate_schedule_from_components] and of the
    helpers it calls, followed by the properties of the schedule it returns;
    then the forms that edit the catalog in the session state, the button
    that calls the generator, and the tables in which the routine is shown.

    Conventions of the embedding:
    - Python [int] is [Z]; [str] is [string]; a [dict] keyed by day label is
      a [gmap string _]; a Python list is a [list]; [class_type], which the
      form sets to ["Theory"] or ["Lab"], is an enumeration.
    - A Python exception ([IndexError], [KeyError], [ZeroDivisionError]) is
      [None] in the [option] monad; every indexing, dictionary lookup and
      [%] of the source goes through a partial operation, and the theorems
      show that the generator always returns.
    - The calls [st.warning], [st.error] and [st.info] are recorded, in order,
      in a list of messages returned next to the data frame; a message keeps
      the values its text is formatted from.
    - [random.shuffle] is a parameter [shuffle] of the generator: any function
      that returns a permutation of its argument.
    - A call is an execution of the function body; the cache that the
      decorator [st.cache_data] puts in front of it is not part of the model.
    - The rows of the data frame are the sorted [schedule_entries]; the
      sorting of [pandas] on several columns is an insertion sort by the
      lexicographic order of the columns.
    - The builtins [int] and [str.strip] are parameters of the functions
      that call them; what a theorem needs of them is a hypothesis.
    - A run of the script with a form submitted is a function from the
      session state and the values of the widgets to the new state and the
      messages shown; what the widgets guarantee of their values is the
      predicate [possible]. *)

From Stdlib Require Import ZArith List Sorted Permutation Ascii.
From stdpp Require Import gmap strings list fin_maps pretty.

Local Open Scope Z_scope.

(** ** Python primitives *)

(** [len(l)] *)
Definition len {A} (l : list A) : Z := Z.of_nat (length l).

(** [l[i]] on a list: negative indices count from the end, an index out of
    range raises [IndexError]. *)
Definition list_getitem {A} (l : list A) (i : Z) : option A :=
  if bool_decide (0 ≤ i) then l !! Z.to_nat i
  else if bool_decide (0 ≤ i + len l) then l !! Z.to_nat (i + len l)
  else None.

(** [a % b]: the sign follows the divisor, as [Z.modulo] does; [b = 0] raises
    [ZeroDivisionError]. *)
Definition py_mod (a b : Z) : option Z :=
  if bool_decide (b = 0) then None else Some (a `mod` b).

(** Truth value of a string, and of a value that is a string or [None]. *)
Definition truthy (s : string) : bool := negb (String.eqb s "").

Definition truthy_opt (o : option string) : bool :=
  match o with Some s => truthy s | None => false end.

(** Truth value of a list: [if l] holds when [l] is not empty. *)
Definition list_truthy {A} (l : list A) : bool :=
  match l with [] => false | _ :: _ => true end.

(** [{k: v for k, v in kvs}]: a later binding of a key replaces an earlier
    one. *)
Definition dict_of_list {V} (kvs : list (string * V)) : gmap string V :=
  foldl (λ m kv, <[kv.1 := kv.2]> m) ∅ kvs.

(** [enumerate(l)] *)
Definition enumerate {A} (l : list A) : list (Z * A) :=
  imap (λ i x, (Z.of_nat i, x)) l.

(** ** Data *)

Inductive ClassType := Theory | Lab.

#[global] Instance ClassType_eq_dec : EqDecision ClassType.
Proof. solve_decision. Defined.

(** [datetime.time], as far as the generator reads it. *)
Record Time := { hour : Z; minute : Z }.

Module Component.
Record t := {
  id : string;
  course_code : string;
  component_title : string;
  semester : string;
  sections : list string;
  class_type : ClassType;
  sessions_per_week : Z;
  duration_minutes : Z;
  assigned_room : option string
}.
End Component.

Module Task.
Record t := {
  course_code : string;
  component_title : string;
  semester : string;
  section : string;
  class_type : ClassType;
  duration_minutes : Z;
  assigned_room : option string;
  task_id : string
}.
End Task.

(** One entry of [schedule_entries], a row of the returned data frame. The
    columns ['Time Slot'], ['Section'], ['Course Code'], ['Component Title'],
    ['Room/Lab'] and ['Type'] are [Time_Slot], [Section_], [Course_Code],
    [Component_Title], [Room_Lab] and [Type_]. *)
Record Row := {
  Day : string;
  Time_Slot : string;
  Start_Minute : Z;
  End_Minute : Z;
  Semester : string;
  Section_ : string;
  Course_Code : string;
  Component_Title : string;
  Room_Lab : string;
  Type_ : ClassType;
  Component_ID : string
}.

#[global] Instance Row_eq_dec : EqDecision Row.
Proof. solve_decision. Defined.

(** The calls to [st.warning], [st.error] and [st.info]. *)
Inductive Msg :=
| PlaceholderWarning
| ErrMissingInput
| ErrNoClassrooms
| ErrNoLabs
| WarnCouldNotPlace (component_title course_code section : string)
| InfoNoEntries.

#[global] Instance Msg_eq_dec : EqDecision Msg.
Proof. solve_decision. Defined.

Definition is_error (m : Msg) : bool :=
  match m with
  | ErrMissingInput | ErrNoClassrooms | ErrNoLabs => true
  | _ => false
  end.

Definition is_unplaced (m : Msg) : bool :=
  match m with WarnCouldNotPlace _ _ _ => true | _ => false end.

(** What a call returns: the data frame (its rows, in order) and the
    messages shown on the way. *)
Record Output := { messages : list Msg; schedule : list Row }.

(** ** Helper functions *)

Definition time_to_minutes (time_obj : option Time) : Z :=
  match time_obj with
  | None => 0
  | Some t => hour t * 60 + minute t
  end.

(** The format [{n:02d}]. *)
Definition fmt_02d (n : Z) : string :=
  let s := pretty n in
  if bool_decide (String.length s < 2)%nat then "0" +:+ s else s.

Definition format_time_slot (start_minute duration_minute : Z) : string :=
  let end_minute := start_minute + duration_minute in
  let start_h := start_minute `div` 60 in
  let start_m := start_minute `mod` 60 in
  let end_h := end_minute `div` 60 in
  let end_m := end_minute `mod` 60 in
  fmt_02d start_h +:+ ":" +:+ fmt_02d start_m +:+ "-" +:+
  fmt_02d end_h +:+ ":" +:+ fmt_02d end_m.

(** ** Task expansion *)

Definition make_task (comp : Component.t) (section : string) (session_num : nat)
  : Task.t :=
  {| Task.course_code := Component.course_code comp;
     Task.component_title := Component.component_title comp;
     Task.semester := Component.semester comp;
     Task.section := section;
     Task.class_type := Component.class_type comp;
     Task.duration_minutes := Component.duration_minutes comp;
     Task.assigned_room := Component.assigned_room comp;
     Task.task_id :=
       Component.id comp +:+ "_" +:+ section +:+ "_" +:+ pretty session_num |}.

(** The three nested loops that fill [tasks_to_schedule]. *)
Definition expand_component (comp : Component.t) : list Task.t :=
  section ← Component.sections comp;
  session_num ← seq 0 (Z.to_nat (Component.sessions_per_week comp));
  [make_task comp section session_num].

Definition expand_tasks (class_components : list Component.t) : list Task.t :=
  comp ← class_components; expand_component comp.

(** ** The placement loop *)

Record State := {
  schedule_entries : list Row;
  current_slot_time_per_day : gmap string Z;
  day_index_counter : gmap string Z;
  shown : list Msg
}.

Definition any_available_lab : string := "Any Available Lab".

(** [assigned_room and assigned_room != "Any Available Lab"]: the request
    names one room. *)
Definition names_specific_room (assigned_room : option string) : bool :=
  truthy_opt assigned_room
  && negb (bool_decide (assigned_room = Some any_available_lab)).

(** A call to [st.warning], [st.error] or [st.info]. *)
Definition show (m : Msg) (st : State) : State :=
  {| schedule_entries := schedule_entries st;
     current_slot_time_per_day := current_slot_time_per_day st;
     day_index_counter := day_index_counter st;
     shown := shown st ++ [m] |}.

Section placement.
Variables classrooms labs working_days : list string.
Variables start_minutes_val end_minutes_val : Z.

(** The room chosen for [task] on [current_day]; the inner [option] is
    Python's [None]. *)
Definition choose_room (task : Task.t) (counter : gmap string Z)
    (current_day : string) : option (option string) :=
  match Task.class_type task with
  | Theory =>
      if list_truthy classrooms then
        c ← counter !! current_day;
        i ← py_mod c (len classrooms);
        r ← list_getitem classrooms i;
        Some (Some r)
      else Some None
  | Lab =>
      if names_specific_room (Task.assigned_room task)
      then Some (Task.assigned_room task)
      else if list_truthy labs then
        c ← counter !! current_day;
        i ← py_mod c (len labs);
        r ← list_getitem labs i;
        Some (Some r)
      else Some None
  end.

Definition make_row (task : Task.t) (current_day : string)
    (slot_start slot_end : Z) (room_to_use : string) : Row :=
  {| Day := current_day;
     Time_Slot := format_time_slot slot_start (Task.duration_minutes task);
     Start_Minute := slot_start;
     End_Minute := slot_end;
     Semester := Task.semester task;
     Section_ := Task.section task;
     Course_Code := Task.course_code task;
     Component_Title := Task.component_title task;
     Room_Lab := room_to_use;
     Type_ := Task.class_type task;
     Component_ID := Task.task_id task |}.

(** The closing [if slot_end > end_minutes_val] of the loop body. *)
Definition reset_if_overflow (slot_end : Z) (current_day : string)
    (st : State) : State :=
  if bool_decide (slot_end > end_minutes_val) then
    {| schedule_entries := schedule_entries st;
       current_slot_time_per_day :=
         <[current_day := start_minutes_val]> (current_slot_time_per_day st);
       day_index_counter := day_index_counter st;
       shown := shown st |}
  else st.

(** The head of the loop body: the day tried next (taken round robin with
    the counter kept under the first working day), the counters once that
    one is incremented, and the day's cursor. *)
Definition next_slot (st : State) : option (string * gmap string Z * Z) :=
  first_day ← list_getitem working_days 0;
  c0 ← day_index_counter st !! first_day;
  day_idx ← py_mod c0 (len working_days);
  current_day ← list_getitem working_days day_idx;
  let counter := <[first_day := c0 + 1]> (day_index_counter st) in
  slot_start ← current_slot_time_per_day st !! current_day;
  Some (current_day, counter, slot_start).

(** One pass through the body of the loop over [range(len(working_days))].
    The boolean says whether the body ended in [break]. *)
Definition attempt (task : Task.t) (st : State) : option (State * bool) :=
  '(current_day, counter, slot_start) ← next_slot st;
  let slot_end := slot_start + Task.duration_minutes task in
  let st1 :=
    {| schedule_entries := schedule_entries st;
       current_slot_time_per_day := current_slot_time_per_day st;
       day_index_counter := counter;
       shown := shown st |} in
  if bool_decide (slot_end ≤ end_minutes_val) then
    room_to_use ← choose_room task counter current_day;
    match room_to_use with
    | Some room =>
        if truthy room then
          Some ({| schedule_entries :=
                     schedule_entries st ++
                     [make_row task current_day slot_start slot_end room];
                   current_slot_time_per_day :=
                     <[current_day := slot_end + 5]>
                       (current_slot_time_per_day st);
                   day_index_counter := counter;
                   shown := shown st |}, true)
        else Some (reset_if_overflow slot_end current_day st1, false)
    | None => Some (reset_if_overflow slot_end current_day st1, false)
    end
  else Some (reset_if_overflow slot_end current_day st1, false).

(** The loop [for _ in range(len(working_days))]; the boolean is
    [assigned]. *)
Fixpoint try_days (n : nat) (task : Task.t) (st : State)
  : option (State * bool) :=
  match n with
  | O => Some (st, false)
  | S n' =>
      '(st', broke) ← attempt task st;
      if broke : bool then Some (st', true) else try_days n' task st'
  end.

Definition place_task (task : Task.t) (st : State) : option State :=
  '(st', assigned) ← try_days (length working_days) task st;
  if assigned : bool then Some st'
  else Some (show (WarnCouldNotPlace (Task.component_title task)
                     (Task.course_code task) (Task.section task)) st').

(** The loop [for task in tasks_to_schedule]. *)
Fixpoint place_tasks (tasks : list Task.t) (st : State) : option State :=
  match tasks with
  | [] => Some st
  | task :: rest => st' ← place_task task st; place_tasks rest st'
  end.

(** *** Runs that never overflow the window

    The closing [if] of the loop body resets the cursor of a day when the
    slot tried there ends after the window. The three functions below follow
    the loops and say whether every slot tried ends within the window, that
    is, whether the run goes by without such a reset. *)

Definition fits (task : Task.t) (st : State) : bool :=
  match next_slot st with
  | Some (_, _, slot_start) =>
      bool_decide (slot_start + Task.duration_minutes task ≤ end_minutes_val)
  | None => true
  end.

Fixpoint try_days_fit (n : nat) (task : Task.t) (st : State) : bool :=
  match n with
  | O => true
  | S n' =>
      fits task st &&
      match attempt task st with
      | Some (st', false) => try_days_fit n' task st'
      | _ => true
      end
  end.

Fixpoint all_fit (tasks : list Task.t) (st : State) : bool :=
  match tasks with
  | [] => true
  | task :: rest =>
      try_days_fit (length working_days) task st &&
      match place_task task st with
      | Some st' => all_fit rest st'
      | None => true
      end
  end.

Definition initial_state : State :=
  {| schedule_entries := [];
     current_slot_time_per_day :=
       dict_of_list ((λ day, (day, start_minutes_val)) <$> working_days);
     day_index_counter := dict_of_list ((λ day, (day, 0)) <$> working_days);
     shown := [PlaceholderWarning] |}.
End placement.

(** ** Sorting the data frame *)

(** Lexicographic combination of two comparisons. *)
Definition lex (c1 c2 : comparison) : comparison :=
  match c1 with Eq => c2 | _ => c1 end.

(** [{day: i for i, day in enumerate(working_days)}] *)
Definition day_order_map (working_days : list string) : gmap string Z :=
  dict_of_list ((λ p, (p.2, p.1)) <$> enumerate working_days).

(** The helper column [Day_Order]: [map(day_order_map)], then
    [fillna(len(day_order_map))]. *)
Definition Day_Order (working_days : list string) (r : Row) : Z :=
  default (Z.of_nat (size (day_order_map working_days)))
          (day_order_map working_days !! Day r).

(** The columns of [sort_values(by=[...])], in order. *)
Definition sort_key (working_days : list string) (r : Row)
  : string * Z * Z * string * string :=
  (Semester r, Day_Order working_days r, Start_Minute r, Section_ r,
   Course_Code r).

(** Comparison of pairs, the first component first. *)
Definition prod_compare {A B} (cmpA : A → A → comparison)
    (cmpB : B → B → comparison) (p q : A * B) : comparison :=
  lex (cmpA p.1 q.1) (cmpB p.2 q.2).

(** Keys are compared column by column, in the order of [by]. *)
Definition key_compare
  : string * Z * Z * string * string → string * Z * Z * string * string
    → comparison :=
  prod_compare
    (prod_compare
       (prod_compare (prod_compare String.compare Z.compare) Z.compare)
       String.compare)
    String.compare.

Definition key_leb (k1 k2 : string * Z * Z * string * string) : bool :=
  match key_compare k1 k2 with Gt => false | _ => true end.

(** [sort_values] on several columns, ascending: pandas orders the rows
    lexicographically by the columns (strings by code point, which is the
    byte order of their UTF-8 encoding) and keeps rows with equal keys in the
    order they had. Modelled as a stable insertion sort. *)
Fixpoint insert_row (working_days : list string) (r : Row) (rows : list Row)
  : list Row :=
  match rows with
  | [] => [r]
  | r' :: rest =>
      if key_leb (sort_key working_days r) (sort_key working_days r')
      then r :: r' :: rest
      else r' :: insert_row working_days r rest
  end.

Definition sort_values (working_days : list string) (rows : list Row)
  : list Row :=
  foldr (insert_row working_days) [] rows.

(** ** The generator *)

Definition needs_theory_room (class_components : list Component.t) : bool :=
  existsb (λ c, bool_decide (Component.class_type c = Theory)) class_components.

Definition needs_lab_room_any (class_components : list Component.t) : bool :=
  existsb (λ c, bool_decide (Component.class_type c = Lab)
                && bool_decide (Component.assigned_room c = Some any_available_lab))
          class_components.

Definition error_output (e : Msg) : Output :=
  {| messages := [PlaceholderWarning; e]; schedule := [] |}.

Definition generate_schedule_from_components
    (shuffle : list Task.t → list Task.t)
    (class_components : list Component.t)
    (classrooms labs working_days : list string)
    (start_time_obj end_time_obj : option Time) : option Output :=
  if negb (list_truthy class_components) || negb (list_truthy working_days)
  then Some (error_output ErrMissingInput)
  else if needs_theory_room class_components && negb (list_truthy classrooms)
  then Some (error_output ErrNoClassrooms)
  else if needs_lab_room_any class_components && negb (list_truthy labs)
  then Some (error_output ErrNoLabs)
  else
    let start_minutes_val := time_to_minutes start_time_obj in
    let end_minutes_val := time_to_minutes end_time_obj in
    let tasks_to_schedule := shuffle (expand_tasks class_components) in
    st ← place_tasks classrooms labs working_days
           start_minutes_val end_minutes_val tasks_to_schedule
           (initial_state working_days start_minutes_val);
    if list_truthy (schedule_entries st)
    then Some {| messages := shown st;
                 schedule := sort_values working_days (schedule_entries st) |}
    else Some {| messages := shown st ++ [InfoNoEntries]; schedule := [] |}.

(** [random.shuffle] rearranges the list in place: whatever it does, the
    result is a permutation of the argument. *)
Definition is_shuffle (shuffle : list Task.t → list Task.t) : Prop :=
  ∀ tasks, shuffle tasks ≡ₚ tasks.

(** [returns x P]: the call [x] raises nothing, and its value satisfies [P]. *)
Definition returns {A} (x : option A) (P : A → Prop) : Prop :=
  ∃ a, x = Some a ∧ P a.

(** ** Vocabulary of the properties *)

(** The row [r] was written for the task [t]: it carries the task's
    identifier and descriptive fields, and lasts the task's duration. *)
Definition row_of_task (t : Task.t) (r : Row) : Prop :=
  Component_ID r = Task.task_id t ∧
  Type_ r = Task.class_type t ∧
  Semester r = Task.semester t ∧
  Section_ r = Task.section t ∧
  Course_Code r = Task.course_code t ∧
  Component_Title r = Task.component_title t ∧
  End_Minute r = Start_Minute r + Task.duration_minutes t.

(** The room fits the task's requirement: a classroom for a Theory task, the
    named room (a member of the lab pool) for a Lab task that names one, any
    member of the lab pool for another Lab task. *)
Definition eligible (classrooms labs : list string) (t : Task.t)
    (room : string) : Prop :=
  match Task.class_type t with
  | Theory => room ∈ classrooms
  | Lab =>
      if names_specific_room (Task.assigned_room t)
      then Task.assigned_room t = Some room ∧ room ∈ labs
      else room ∈ labs
  end.

(** Two rows overlap when their half-open intervals
    [[Start_Minute, End_Minute)] meet. *)
Definition overlap (r1 r2 : Row) : Prop :=
  Start_Minute r1 < End_Minute r2 ∧ Start_Minute r2 < End_Minute r1.

(** [R] holds of any two elements at different positions. *)
Definition pairwise {A} (R : A → A → Prop) (l : list A) : Prop :=
  ∀ i j x y, i ≠ j → l !! i = Some x → l !! j = Some y → R x y.

(** No two rows of one room on one day overlap. *)
Definition room_exclusive (rows : list Row) : Prop :=
  pairwise (λ r1 r2, Room_Lab r1 = Room_Lab r2 → Day r1 = Day r2 →
                     ¬ overlap r1 r2) rows.

(** No two rows of one day overlap, whatever their rooms. *)
Definition day_exclusive (rows : list Row) : Prop :=
  pairwise (λ r1 r2, Day r1 = Day r2 → ¬ overlap r1 r2) rows.

(** *** Properties of the loop state *)

Section loop_properties.
Variables classrooms labs working_days : list string.
Variables start_minutes_val end_minutes_val : Z.

(** The three ways the loop body can end. *)
Inductive attempt_result (task : Task.t) (st : State) : State → bool → Prop :=
| attempt_placed first_day c0 day_idx current_day slot_start room :
    list_getitem working_days 0 = Some first_day →
    day_index_counter st !! first_day = Some c0 →
    py_mod c0 (len working_days) = Some day_idx →
    list_getitem working_days day_idx = Some current_day →
    current_slot_time_per_day st !! current_day = Some slot_start →
    slot_start + Task.duration_minutes task ≤ end_minutes_val →
    choose_room classrooms labs task
      (<[first_day := c0 + 1]> (day_index_counter st)) current_day
    = Some (Some room) →
    truthy room = true →
    attempt_result task st
      {| schedule_entries :=
           schedule_entries st ++
           [make_row task current_day slot_start
              (slot_start + Task.duration_minutes task) room];
         current_slot_time_per_day :=
           <[current_day := slot_start + Task.duration_minutes task + 5]>
             (current_slot_time_per_day st);
         day_index_counter := <[first_day := c0 + 1]> (day_index_counter st);
         shown := shown st |} true
| attempt_no_room first_day c0 day_idx current_day slot_start room :
    list_getitem working_days 0 = Some first_day →
    day_index_counter st !! first_day = Some c0 →
    py_mod c0 (len working_days) = Some day_idx →
    list_getitem working_days day_idx = Some current_day →
    current_slot_time_per_day st !! current_day = Some slot_start →
    slot_start + Task.duration_minutes task ≤ end_minutes_val →
    choose_room classrooms labs task
      (<[first_day := c0 + 1]> (day_index_counter st)) current_day
    = Some room →
    truthy_opt room = false →
    attempt_result task st
      {| schedule_entries := schedule_entries st;
         current_slot_time_per_day := current_slot_time_per_day st;
         day_index_counter := <[first_day := c0 + 1]> (day_index_counter st);
         shown := shown st |} false
| attempt_overflow first_day c0 day_idx current_day slot_start :
    list_getitem working_days 0 = Some first_day →
    day_index_counter st !! first_day = Some c0 →
    py_mod c0 (len working_days) = Some day_idx →
    list_getitem working_days day_idx = Some current_day →
    current_slot_time_per_day st !! current_day = Some slot_start →
    slot_start + Task.duration_minutes task > end_minutes_val →
    attempt_result task st
      {| schedule_entries := schedule_entries st;
         current_slot_time_per_day :=
           <[current_day := start_minutes_val]> (current_slot_time_per_day st);
         day_index_counter := <[first_day := c0 + 1]> (day_index_counter st);
         shown := shown st |} false.

(** Every working day has its entry in both dictionaries. *)
Definition wf (st : State) : Prop :=
  ∀ d, d ∈ working_days →
    is_Some (current_slot_time_per_day st !! d) ∧
    is_Some (day_index_counter st !! d).

(** Every row was written for one of the tasks, on a working day, ends
    within the window, and is in the room [choose_room] gave. *)
Definition rows_justified (tasks : list Task.t) (st : State) : Prop :=
  ∀ r, r ∈ schedule_entries st →
    ∃ t counter,
      t ∈ tasks ∧ row_of_task t r ∧ Day r ∈ working_days ∧
      End_Minute r ≤ end_minutes_val ∧
      choose_room classrooms labs t counter (Day r) = Some (Some (Room_Lab r)).

(** With durations that are not negative, no cursor and no row starts
    before the window opens. *)
Definition starts_in_window (st : State) : Prop :=
  (∀ d v, current_slot_time_per_day st !! d = Some v → start_minutes_val ≤ v) ∧
  (∀ r, r ∈ schedule_entries st → start_minutes_val ≤ Start_Minute r).

(** A cursor, and the start of a row, is the opening of the window or five
    minutes past the end of a row of the same day. *)
Definition after_buffer (rows : list Row) (day : string) (minute : Z) : Prop :=
  minute = start_minutes_val ∨
  ∃ r', r' ∈ rows ∧ Day r' = day ∧ minute = End_Minute r' + 5.

Definition buffered (st : State) : Prop :=
  (∀ d v, current_slot_time_per_day st !! d = Some v →
          after_buffer (schedule_entries st) d v) ∧
  (∀ r, r ∈ schedule_entries st →
        after_buffer (schedule_entries st) (Day r) (Start_Minute r)).

End loop_properties.

(** On every day the rows lie one after another: any two of them are
    disjoint, and each ends five minutes before the day's cursor or
    earlier. *)
Definition day_packed (st : State) : Prop :=
  (∀ d v r, current_slot_time_per_day st !! d = Some v →
            r ∈ schedule_entries st → Day r = d → End_Minute r + 5 ≤ v) ∧
  ForallOrdPairs (λ r1 r2, Day r1 = Day r2 → ¬ overlap r1 r2)
    (schedule_entries st).

(** The number of rows that carry the task identifier [tid], and the number
    of tasks with that identifier. *)
Definition rows_of_id (tid : string) (rows : list Row) : nat :=
  length (filter (λ r, Component_ID r = tid) rows).

Definition tasks_of_id (tid : string) (tasks : list Task.t) : nat :=
  length (filter (λ t, Task.task_id t = tid) tasks).

(** *** The order of the rows *)

(** The laws of a comparison function that decides a total order. *)
Class Comparison {A} (cmp : A → A → comparison) := {
  cmp_eq x y : cmp x y = Eq → x = y;
  cmp_antisym x y : cmp y x = CompOpp (cmp x y);
  cmp_lt_trans x y z : cmp x y = Lt → cmp y z = Lt → cmp x z = Lt
}.

(** The order on rows given by their keys. *)
Definition key_le (working_days : list string) (r1 r2 : Row) : Prop :=
  key_leb (sort_key working_days r1) (sort_key working_days r2) = true.

(** The rows in the order the loop wrote them, before they are sorted. *)
Definition placement_order (shuffle : list Task.t → list Task.t)
    (class_components : list Component.t)
    (classrooms labs working_days : list string)
    (start_time_obj end_time_obj : option Time) : list Row :=
  match place_tasks classrooms labs working_days
          (time_to_minutes start_time_obj) (time_to_minutes end_time_obj)
          (shuffle (expand_tasks class_components))
          (initial_state working_days (time_to_minutes start_time_obj)) with
  | Some st => schedule_entries st
  | None => []
  end.

(** The rows are in the order of their keys, and rows with the same key in
    the order of their task identifiers. *)
Definition ties_broken_by_task_id (working_days : list string)
    (rows : list Row) : Prop :=
  ∀ i j r1 r2, (i < j)%nat → rows !! i = Some r1 → rows !! j = Some r2 →
    sort_key working_days r1 = sort_key working_days r2 →
    String.compare (Component_ID r1) (Component_ID r2) ≠ Gt.

(** *** Rooms *)

(** A room can be found for a component: the classroom pool has a member
    for a Theory component; a Lab component names a room or the lab pool
    has a member. No pool holds the empty name. *)
Definition room_available (classrooms labs : list string)
    (class_type : ClassType) (assigned_room : option string) : Prop :=
  match class_type with
  | Theory => classrooms ≠ [] ∧ "" ∉ classrooms
  | Lab => names_specific_room assigned_room = true ∨
           (labs ≠ [] ∧ "" ∉ labs)
  end.

(** ** Example data *)

Definition at_8_00 : option Time := Some {| hour := 8; minute := 0 |}.
Definition at_9_00 : option Time := Some {| hour := 9; minute := 0 |}.
Definition at_17_00 : option Time := Some {| hour := 17; minute := 0 |}.

Definition lecture (id course_code : string) (sections : list string)
    (sessions_per_week duration_minutes : Z) : Component.t :=
  {| Component.id := id;
     Component.course_code := course_code;
     Component.component_title := "Lecture";
     Component.semester := "Spring";
     Component.sections := sections;
     Component.class_type := Theory;
     Component.sessions_per_week := sessions_per_week;
     Component.duration_minutes := duration_minutes;
     Component.assigned_room := None |}.

Definition lab_session (id course_code : string) (sections : list string)
    (sessions_per_week duration_minutes : Z) (assigned_room : string)
  : Component.t :=
  {| Component.id := id;
     Component.course_code := course_code;
     Component.component_title := "Lab session";
     Component.semester := "Spring";
     Component.sections := sections;
     Component.class_type := Lab;
     Component.sessions_per_week := sessions_per_week;
     Component.duration_minutes := duration_minutes;
     Component.assigned_room := Some assigned_room |}.

(** Two outcomes of the shuffle: the list as it was, and the list
    reversed. *)
Definition in_order (tasks : list Task.t) : list Task.t := tasks.
Definition reversed (tasks : list Task.t) : list Task.t := rev tasks.

Definition two_lectures : list Component.t :=
  [lecture "c1" "CSE101" ["A"] 1 50; lecture "c2" "CSE102" ["B"] 1 30].

(** Two lectures of 50 minutes for the same section. *)
Definition lectures_of_section_A : list Component.t :=
  [lecture "c1" "CSE101" ["A"] 1 50; lecture "c2" "CSE102" ["A"] 1 50].


(** ** The other helper functions *)

(** [datetime.time(hour, minute)] raises [ValueError] unless the hour is
    in 0..23 and the minute in 0..59. *)
Definition datetime_time (hour minute : Z) : option Time :=
  if bool_decide (0 ≤ hour ≤ 23 ∧ 0 ≤ minute ≤ 59)
  then Some {| hour := hour; minute := minute |}
  else None.

Definition minutes_to_time (total_minutes : Z) : option Time :=
  let hours := total_minutes `div` 60 in
  let minutes := total_minutes `mod` 60 in
  let hours := Z.max 0 (Z.min 23 hours) in
  let minutes := Z.max 0 (Z.min 59 minutes) in
  datetime_time hours minutes.

(** A time of day that [datetime.time] can hold. *)
Definition valid_time (t : Time) : Prop :=
  0 ≤ hour t ≤ 23 ∧ 0 ≤ minute t ≤ 59.

(** [s.split(sep)] for a separator of one character. *)
Fixpoint str_split (sep : Ascii.ascii) (s : string) : list string :=
  match s with
  | EmptyString => [EmptyString]
  | String c rest =>
      if Ascii.eqb c sep then EmptyString :: str_split sep rest
      else match str_split sep rest with
           | token :: tokens => String c token :: tokens
           | [] => [String c EmptyString]
           end
  end.

Section parse_time_slot.
(** The builtin [int] on a string; [None] is its [ValueError]. *)
Variable py_int : string → option Z.

(** [h, m = map(int, s.split(':'))]: anything but two fields that [int]
    reads raises. *)
Definition parse_hh_mm (s : string) : option (Z * Z) :=
  match str_split ":"%char s with
  | [h; m] => h ← py_int h; m ← py_int m; Some (h, m)
  | _ => None
  end.

(** [None] stands for the pair [(None, None)] that the [except] branch
    returns. *)
Definition parse_time_slot (time_slot_str : string) : option (Z * Z) :=
  match str_split "-"%char time_slot_str with
  | [start_str; end_str] =>
      '(start_h, start_m) ← parse_hh_mm start_str;
      '(end_h, end_m) ← parse_hh_mm end_str;
      let start_minute := start_h * 60 + start_m in
      let end_minute := end_h * 60 + end_m in
      Some (start_minute, end_minute)
  | _ => None
  end.
End parse_time_slot.

(** [int] on a string of ASCII decimal digits. *)
Definition digit_value (c : Ascii.ascii) : option Z :=
  let n := Z.of_N (Ascii.N_of_ascii c) in
  if bool_decide (48 ≤ n ≤ 57) then Some (n - 48) else None.

Fixpoint read_digits (acc : Z) (s : string) : option Z :=
  match s with
  | EmptyString => Some acc
  | String c rest => d ← digit_value c; read_digits (acc * 10 + d) rest
  end.

Definition read_decimal (s : string) : option Z :=
  match s with
  | EmptyString => None
  | String _ _ => read_digits 0 s
  end.

(** The number of occurrences of a character, and strings of decimal
    digits. *)
Fixpoint count_char (c : Ascii.ascii) (s : string) : nat :=
  match s with
  | EmptyString => 0%nat
  | String c' rest =>
      if Ascii.eqb c' c then S (count_char c rest) else count_char c rest
  end.

Fixpoint digits_only (s : string) : bool :=
  match s with
  | EmptyString => true
  | String c rest => bool_decide (is_Some (digit_value c)) && digits_only rest
  end.

(** [int] reads back what the format [{n:02d}] wrote for a number that is
    not negative. *)
Definition reads_decimal (py_int : string → option Z) : Prop :=
  ∀ n, 0 ≤ n → py_int (fmt_02d n) = Some n.

(** ** The checks before generation (tab 3) *)

(** The entries of [warning_messages_for_generation]. *)
Inductive GenerationWarning :=
| NoComponentsAdded
| NoWorkingDaysSelected
| TheoryNeedsClassrooms
| LabNeedsLabs.

(** The flag [ready_to_generate], which enables the button that calls the
    generator, and the warnings listed under it. *)
Definition pre_generation_checks (class_components : list Component.t)
    (working_days_config classrooms labs : list string)
  : bool * list GenerationWarning :=
  let ready_to_generate := true in
  let warnings := [] in
  let '(ready_to_generate, warnings) :=
    if negb (list_truthy class_components)
    then (false, warnings ++ [NoComponentsAdded])
    else (ready_to_generate, warnings) in
  let '(ready_to_generate, warnings) :=
    if negb (list_truthy working_days_config)
    then (false, warnings ++ [NoWorkingDaysSelected])
    else (ready_to_generate, warnings) in
  let '(ready_to_generate, warnings) :=
    if needs_theory_room class_components && negb (list_truthy classrooms)
    then (false, warnings ++ [TheoryNeedsClassrooms])
    else (ready_to_generate, warnings) in
  let '(ready_to_generate, warnings) :=
    if needs_lab_room_any class_components && negb (list_truthy labs)
    then (false, warnings ++ [LabNeedsLabs])
    else (ready_to_generate, warnings) in
  (ready_to_generate, warnings).

(** ** Sorting for display and download *)

(** The columns of the second [sort_values], before the grid is built and
    before the file is written: the key of the generator without the course
    code. *)
Definition display_key (working_days_config : list string) (r : Row)
  : string * Z * Z * string :=
  (Semester r, Day_Order working_days_config r, Start_Minute r, Section_ r).

Definition display_key_compare
  : string * Z * Z * string → string * Z * Z * string → comparison :=
  prod_compare (prod_compare (prod_compare String.compare Z.compare) Z.compare)
    String.compare.

Definition display_key_leb (k1 k2 : string * Z * Z * string) : bool :=
  match display_key_compare k1 k2 with Gt => false | _ => true end.

Fixpoint insert_for_display (working_days_config : list string) (r : Row)
    (rows : list Row) : list Row :=
  match rows with
  | [] => [r]
  | r' :: rest =>
      if display_key_leb (display_key working_days_config r)
           (display_key working_days_config r')
      then r :: r' :: rest
      else r' :: insert_for_display working_days_config r rest
  end.

Definition sort_for_display (working_days_config : list string)
    (rows : list Row) : list Row :=
  foldr (insert_for_display working_days_config) [] rows.

(** ** More vocabulary *)

(** No two rows of one section of one semester on one day overlap. *)
Definition section_exclusive (rows : list Row) : Prop :=
  pairwise (λ r1 r2, Semester r1 = Semester r2 → Section_ r1 = Section_ r2 →
                     Day r1 = Day r2 → ¬ overlap r1 r2) rows.

(** The minutes all tasks take when they follow one another with the
    buffer of five minutes after each. *)
Definition total_demand (tasks : list Task.t) : Z :=
  foldr (λ t total, Task.duration_minutes t + 5 + total) 0 tasks.

(** The number of warnings about unplaced tasks among the messages. *)
Definition unplaced_count (msgs : list Msg) : nat :=
  length (filter (λ m, is_unplaced m = true) msgs).

(** The text of the column ['Time Slot'] is the one [format_time_slot]
    writes for the row's start and length. *)
Definition time_slots_formatted (st : State) : Prop :=
  ∀ r, r ∈ schedule_entries st →
    Time_Slot r
    = format_time_slot (Start_Minute r) (End_Minute r - Start_Minute r).

(** Only the counter of the first working day moves: on any other day the
    counter is 0 and the room is the first of its pool. *)
Definition first_room (classrooms labs : list string) (t : Task.t)
    (room : string) : Prop :=
  match Task.class_type t with
  | Theory => classrooms !! 0%nat = Some room
  | Lab => names_specific_room (Task.assigned_room t) = false →
           labs !! 0%nat = Some room
  end.

Definition other_days_first_room (classrooms labs : list string)
    (first_day : string) (tasks : list Task.t) (st : State) : Prop :=
  (∀ d c, d ≠ first_day → day_index_counter st !! d = Some c → c = 0) ∧
  (∀ r, r ∈ schedule_entries st → Day r ≠ first_day →
     ∃ t, t ∈ tasks ∧ row_of_task t r ∧
          first_room classrooms labs t (Room_Lab r)).

(** Every cursor is at [bound] or earlier. *)
Definition cursors_below (bound : Z) (st : State) : Prop :=
  ∀ d v, current_slot_time_per_day st !! d = Some v → v ≤ bound.

(** The cursor of every working day is at the opening of the window. *)
Definition all_reset (working_days : list string) (start_minutes_val : Z)
    (st : State) : Prop :=
  ∀ d, d ∈ working_days →
    current_slot_time_per_day st !! d = Some start_minutes_val.

(** A room is available for every component. *)
Definition rooms_available (classrooms labs : list string)
    (class_components : list Component.t) : Prop :=
  ∀ c, c ∈ class_components →
    room_available classrooms labs (Component.class_type c)
      (Component.assigned_room c).

(** ** The catalog kept in the session state

    The forms of the sidebar and of the first two tabs change the catalog;
    each is a function from the session state and the values of its widgets
    to the new state and the messages shown on submission. [None] is a
    Python exception. A form that is not shown cannot be submitted: its
    handler then leaves the state as it is. [str.strip] is a parameter
    [strip] of the handlers that call it. *)

Module Session.
Record t := {
  semesters : list string;
  sections : gmap string (list string);
  class_components : list Component.t;
  classrooms : list string;
  labs : list string;
  schedule_df : option (list Row);
  working_days_config : list string;
  start_time_config : option Time;
  end_time_config : option Time
}.

(** The state a new session starts in. *)
Definition initial : t :=
  {| semesters := [];
     sections := ∅;
     class_components := [];
     classrooms := [];
     labs := [];
     schedule_df := None;
     working_days_config :=
       ["Sunday"; "Monday"; "Tuesday"; "Wednesday"; "Thursday"];
     start_time_config := Some {| hour := 8; minute := 0 |};
     end_time_config := Some {| hour := 17; minute := 0 |} |}.

Definition set_semesters (v : list string) (s : t) : t :=
  {| semesters := v; sections := sections s;
     class_components := class_components s; classrooms := classrooms s;
     labs := labs s; schedule_df := schedule_df s;
     working_days_config := working_days_config s;
     start_time_config := start_time_config s;
     end_time_config := end_time_config s |}.

Definition set_sections (v : gmap string (list string)) (s : t) : t :=
  {| semesters := semesters s; sections := v;
     class_components := class_components s; classrooms := classrooms s;
     labs := labs s; schedule_df := schedule_df s;
     working_days_config := working_days_config s;
     start_time_config := start_time_config s;
     end_time_config := end_time_config s |}.

Definition set_class_components (v : list Component.t) (s : t) : t :=
  {| semesters := semesters s; sections := sections s;
     class_components := v; classrooms := classrooms s;
     labs := labs s; schedule_df := schedule_df s;
     working_days_config := working_days_config s;
     start_time_config := start_time_config s;
     end_time_config := end_time_config s |}.

Definition set_classrooms (v : list string) (s : t) : t :=
  {| semesters := semesters s; sections := sections s;
     class_components := class_components s; classrooms := v;
     labs := labs s; schedule_df := schedule_df s;
     working_days_config := working_days_config s;
     start_time_config := start_time_config s;
     end_time_config := end_time_config s |}.

Definition set_labs (v : list string) (s : t) : t :=
  {| semesters := semesters s; sections := sections s;
     class_components := class_components s; classrooms := classrooms s;
     labs := v; schedule_df := schedule_df s;
     working_days_config := working_days_config s;
     start_time_config := start_time_config s;
     end_time_config := end_time_config s |}.

Definition set_schedule_df (v : option (list Row)) (s : t) : t :=
  {| semesters := semesters s; sections := sections s;
     class_components := class_components s; classrooms := classrooms s;
     labs := labs s; schedule_df := v;
     working_days_config := working_days_config s;
     start_time_config := start_time_config s;
     end_time_config := end_time_config s |}.

Definition set_config (days : list string) (start_time end_time : option Time)
    (s : t) : t :=
  {| semesters := semesters s; sections := sections s;
     class_components := class_components s; classrooms := classrooms s;
     labs := labs s; schedule_df := schedule_df s;
     working_days_config := days;
     start_time_config := start_time;
     end_time_config := end_time |}.
End Session.

(** The messages of the forms, with the values their texts show. *)
Inductive Feedback :=
| AddedRooms (added_count : nat)
| NoNewUniqueRooms
| EnterRoomNames
| RemovedRoom (room : string)
| SelectRoomToRemove
| AllDataCleared
| AddedSemester (semester : string)
| EnterSemesterName
| SemesterAlreadyAdded (semester : string)
| RemovedSectionsOfSemester (semester : string) (sections : list string)
| NoSectionsOfSemester (semester : string)
| RemovedComponentsOfSemester (removed_comp_count : nat) (semester : string)
| RemovedSemester (semester : string)
| SelectSemesterToRemove
| AddedSections (added_count : nat) (semester : string)
| NoNewUniqueSections (semester : string)
| EnterSectionNames
| RemovedComponentWithoutSections (comp : Component.t) (semester : string)
| RemovedSections (removed_count : nat) (semester : string)
| AlsoRemovedComponents (removed_comp_count : nat) (semester : string)
| NoSelectedSectionsFound
| SelectSectionsToRemove
| CourseCodeRequired
| ComponentTitleRequired
| SemesterRequired
| SelectAtLeastOneSection
| AnyLabButNoLabs
| AddedComponent (comp : Component.t)
| ComponentRemoved
| FromGenerator (m : Msg)
| RoutineGenerated.

(** The placeholder entry of the select boxes. *)
Definition select_placeholder : string := "Select...".

(** [l.remove(x)]: the first occurrence goes; [ValueError] when there is
    none. *)
Fixpoint list_remove (x : string) (l : list string) : option (list string) :=
  match l with
  | [] => None
  | y :: rest =>
      if bool_decide (y = x) then Some rest
      else rest' ← list_remove x rest; Some (y :: rest')
  end.

(** [l.sort()] on strings, as an insertion sort by the order of code
    points. *)
Fixpoint insert_string (x : string) (l : list string) : list string :=
  match l with
  | [] => [x]
  | y :: rest =>
      if String.leb x y then x :: y :: rest else y :: insert_string x rest
  end.

Definition sort_strings (l : list string) : list string :=
  foldr insert_string [] l.

Section handlers.
Variable strip : string → string.

(** [[r.strip() for r in s.split(',') if r.strip()]] *)
Definition stripped_names (s : string) : list string :=
  r ← str_split "," s; if truthy (strip r) then [strip r] else [].

(** The loop that appends the names that are not empty and not in the pool
    yet, and counts them. *)
Definition add_unique_step (acc : list string * nat) (r : string)
  : list string * nat :=
  let '(pool, added_count) := acc in
  if truthy r && negb (bool_decide (r ∈ pool))
  then (pool ++ [r], S added_count)
  else (pool, added_count).

Definition add_unique (pool : list string) (names : list string)
  : list string * nat :=
  foldl add_unique_step (pool, 0%nat) names.

(** The forms "Add Classrooms" and "Add Labs". *)
Definition add_classrooms (new_classrooms_str : string) (s : Session.t)
  : Session.t * list Feedback :=
  if truthy new_classrooms_str then
    let '(pool, added_count) :=
      add_unique (Session.classrooms s) (stripped_names new_classrooms_str) in
    (Session.set_schedule_df None (Session.set_classrooms pool s),
     [if bool_decide (added_count ≠ 0%nat) then AddedRooms added_count
      else NoNewUniqueRooms])
  else (s, [EnterRoomNames]).

Definition add_labs (new_labs_str : string) (s : Session.t)
  : Session.t * list Feedback :=
  if truthy new_labs_str then
    let '(pool, added_count) :=
      add_unique (Session.labs s) (stripped_names new_labs_str) in
    (Session.set_schedule_df None (Session.set_labs pool s),
     [if bool_decide (added_count ≠ 0%nat) then AddedRooms added_count
      else NoNewUniqueRooms])
  else (s, [EnterRoomNames]).

(** The loop of the form "Add Section", on the dictionary of sections. *)
Definition add_sections_step (sel_sem_for_sec : string)
    (acc : gmap string (list string) * nat) (sec : string)
  : gmap string (list string) * nat :=
  let '(sections, added_count) := acc in
  let current := default [] (sections !! sel_sem_for_sec) in
  if truthy sec && negb (bool_decide (sec ∈ current))
  then (<[sel_sem_for_sec := current ++ [sec]]> sections, S added_count)
  else (sections, added_count).

(** The form "Add Section": the new names go to the list of the semester,
    which is then sorted. *)
Definition add_sections (sel_sem_for_sec new_sec_name : string)
    (s : Session.t) : option (Session.t * list Feedback) :=
  if negb (list_truthy (Session.semesters s)) then Some (s, [])
  else if truthy sel_sem_for_sec && truthy new_sec_name then
    let sections_to_add := stripped_names new_sec_name in
    if list_truthy sections_to_add then
      let '(sections, added_count) :=
        foldl (add_sections_step sel_sem_for_sec)
          (Session.sections s, 0%nat) sections_to_add in
      if bool_decide (0 < added_count)%nat then
        current ← sections !! sel_sem_for_sec;
        Some (Session.set_schedule_df None
                (Session.set_sections
                   (<[sel_sem_for_sec := sort_strings current]> sections) s),
              [AddedSections added_count sel_sem_for_sec])
      else
        Some (Session.set_sections sections s,
              [NoNewUniqueSections sel_sem_for_sec])
    else Some (s, [EnterSectionNames])
  else if negb (truthy new_sec_name) then Some (s, [EnterSectionNames])
  else Some (s, []).
End handlers.

(** The forms "Remove Classroom" and "Remove Lab", shown while the pool is
    not empty. *)
Definition remove_classroom (room_to_remove : string) (s : Session.t)
  : option (Session.t * list Feedback) :=
  if negb (list_truthy (Session.classrooms s)) then Some (s, [])
  else if negb (String.eqb room_to_remove select_placeholder) then
    pool ← list_remove room_to_remove (Session.classrooms s);
    Some (Session.set_schedule_df None (Session.set_classrooms pool s),
          [RemovedRoom room_to_remove])
  else Some (s, [SelectRoomToRemove]).

Definition remove_lab (lab_to_remove : string) (s : Session.t)
  : option (Session.t * list Feedback) :=
  if negb (list_truthy (Session.labs s)) then Some (s, [])
  else if negb (String.eqb lab_to_remove select_placeholder) then
    pool ← list_remove lab_to_remove (Session.labs s);
    Some (Session.set_schedule_df None (Session.set_labs pool s),
          [RemovedRoom lab_to_remove])
  else Some (s, [SelectRoomToRemove]).

(** The button "Clear All Input Data". *)
Definition clear_all (s : Session.t) : Session.t * list Feedback :=
  (Session.set_schedule_df None
     (Session.set_labs []
        (Session.set_classrooms []
           (Session.set_class_components []
              (Session.set_sections ∅ (Session.set_semesters [] s))))),
   [AllDataCleared]).

(** The form "Add Semester". *)
Definition add_semester (new_semester : string) (s : Session.t)
  : Session.t * list Feedback :=
  if truthy new_semester
     && negb (bool_decide (new_semester ∈ Session.semesters s))
  then
    (Session.set_schedule_df None
       (Session.set_sections (<[new_semester := []]> (Session.sections s))
          (Session.set_semesters (Session.semesters s ++ [new_semester]) s)),
     [AddedSemester new_semester])
  else if negb (truthy new_semester) then (s, [EnterSemesterName])
  else (s, [SemesterAlreadyAdded new_semester]).

(** The form "Remove Selected Semester", shown while there are semesters:
    the semester goes, with its sections and its components. *)
Definition remove_semester (sem_to_remove : string) (s : Session.t)
  : option (Session.t * list Feedback) :=
  if negb (list_truthy (Session.semesters s)) then Some (s, [])
  else if negb (String.eqb sem_to_remove select_placeholder) then
    semesters ← list_remove sem_to_remove (Session.semesters s);
    let removed_sections :=
      default [] (Session.sections s !! sem_to_remove) in
    let sections := delete sem_to_remove (Session.sections s) in
    let initial_comp_count := length (Session.class_components s) in
    let class_components :=
      filter (λ comp, Component.semester comp ≠ sem_to_remove)
        (Session.class_components s) in
    let removed_comp_count :=
      (initial_comp_count - length class_components)%nat in
    Some (Session.set_schedule_df None
            (Session.set_class_components class_components
               (Session.set_sections sections
                  (Session.set_semesters semesters s))),
          [if list_truthy removed_sections
           then RemovedSectionsOfSemester sem_to_remove removed_sections
           else NoSectionsOfSemester sem_to_remove] ++
          (if bool_decide (0 < removed_comp_count)%nat
           then [RemovedComponentsOfSemester removed_comp_count sem_to_remove]
           else []) ++
          [RemovedSemester sem_to_remove])
  else Some (s, [SelectSemesterToRemove]).

(** A component with other sections. *)
Definition with_sections (sections : list string) (comp : Component.t)
  : Component.t :=
  {| Component.id := Component.id comp;
     Component.course_code := Component.course_code comp;
     Component.component_title := Component.component_title comp;
     Component.semester := Component.semester comp;
     Component.sections := sections;
     Component.class_type := Component.class_type comp;
     Component.sessions_per_week := Component.sessions_per_week comp;
     Component.duration_minutes := Component.duration_minutes comp;
     Component.assigned_room := Component.assigned_room comp |}.

(** The loop over the sections to remove, on the dictionary of
    sections. *)
Definition remove_sections_step (sem_for_sec_remove : string)
    (acc : option (gmap string (list string) * nat)) (sec_to_remove : string)
  : option (gmap string (list string) * nat) :=
  '(sections, removed_count) ← acc;
  current ← sections !! sem_for_sec_remove;
  if bool_decide (sec_to_remove ∈ current) then
    current' ← list_remove sec_to_remove current;
    Some (<[sem_for_sec_remove := current']> sections, S removed_count)
  else Some (sections, removed_count).

(** The loop over the components after sections were removed: a component
    of the semester loses the removed sections, and goes when none is
    left. The second list holds the warnings, the number is
    [removed_comp_count]. *)
Definition process_components_step (sem_for_sec_remove : string)
    (secs_to_remove : list string)
    (acc : list Component.t * list Feedback * nat) (comp : Component.t)
  : list Component.t * list Feedback * nat :=
  let '(processed_components, warnings, removed_comp_count) := acc in
  if bool_decide (Component.semester comp = sem_for_sec_remove) then
    let updated_sections :=
      filter (λ sec, sec ∉ secs_to_remove) (Component.sections comp) in
    if list_truthy updated_sections
    then (processed_components ++ [with_sections updated_sections comp],
          warnings, removed_comp_count)
    else (processed_components,
          warnings ++
          [RemovedComponentWithoutSections comp sem_for_sec_remove],
          S removed_comp_count)
  else (processed_components ++ [comp], warnings, removed_comp_count).

Definition process_components (sem_for_sec_remove : string)
    (secs_to_remove : list string) (class_components : list Component.t)
  : list Component.t * list Feedback * nat :=
  foldl (process_components_step sem_for_sec_remove secs_to_remove)
    ([], [], 0%nat) class_components.

(** The form "Remove Selected Section(s)", shown for a semester that has
    sections. *)
Definition remove_sections (sem_for_sec_remove : string)
    (secs_to_remove : list string) (s : Session.t)
  : option (Session.t * list Feedback) :=
  if negb (existsb list_truthy (map_to_list (Session.sections s)).*2)
  then Some (s, [])
  else if negb (String.eqb sem_for_sec_remove select_placeholder)
          && list_truthy
               (default [] (Session.sections s !! sem_for_sec_remove))
  then
    if list_truthy secs_to_remove then
      '(sections, removed_count) ←
        foldl (remove_sections_step sem_for_sec_remove)
          (Some (Session.sections s, 0%nat)) secs_to_remove;
      let '(processed_components, warnings, removed_comp_count) :=
        process_components sem_for_sec_remove secs_to_remove
          (Session.class_components s) in
      let s' :=
        Session.set_class_components processed_components
          (Session.set_sections sections s) in
      if bool_decide (0 < removed_count)%nat then
        Some (Session.set_schedule_df None s',
              warnings ++
              [RemovedSections removed_count sem_for_sec_remove] ++
              (if bool_decide (0 < removed_comp_count)%nat
               then [AlsoRemovedComponents removed_comp_count
                       sem_for_sec_remove]
               else []))
      else Some (s', warnings ++ [NoSelectedSectionsFound])
    else Some (s, [SelectSectionsToRemove])
  else Some (s, []).

(** The form "Add Class Component", shown while there are semesters.
    [lab_choice] is the entry picked in the box of labs, [component_id] the
    identifier drawn by [uuid.uuid4]. *)
Definition add_component (component_id cc_code cc_title cc_semester : string)
    (cc_sections : list string) (cc_type : ClassType) (lab_choice : string)
    (cc_sessions_per_week cc_duration_minutes : Z) (s : Session.t)
  : Session.t * list Feedback :=
  if negb (list_truthy (Session.semesters s)) then (s, [])
  else
    let assigned_room_option :=
      match cc_type with
      | Lab =>
          if negb (list_truthy (Session.labs s))
          then Some any_available_lab else Some lab_choice
      | Theory => None
      end in
    let errors :=
      (if negb (truthy cc_code) then [CourseCodeRequired] else []) ++
      (if negb (truthy cc_title) then [ComponentTitleRequired] else []) ++
      (if negb (truthy cc_semester) then [SemesterRequired] else []) ++
      (if negb (list_truthy cc_sections) then [SelectAtLeastOneSection]
       else []) in
    let warnings :=
      if bool_decide (cc_type = Lab)
         && bool_decide (assigned_room_option = Some any_available_lab)
         && negb (list_truthy (Session.labs s))
      then [AnyLabButNoLabs] else [] in
    if list_truthy errors then (s, errors ++ warnings)
    else
      let comp :=
        {| Component.id := component_id;
           Component.course_code := cc_code;
           Component.component_title := cc_title;
           Component.semester := cc_semester;
           Component.sections := cc_sections;
           Component.class_type := cc_type;
           Component.sessions_per_week := cc_sessions_per_week;
           Component.duration_minutes := cc_duration_minutes;
           Component.assigned_room :=
             match cc_type with
             | Lab => assigned_room_option
             | Theory => None
             end |} in
      (Session.set_schedule_df None
         (Session.set_class_components
            (Session.class_components s ++ [comp]) s),
       errors ++ warnings ++ [AddedComponent comp]).

(** The name under which the list of components offers a component for
    removal. *)
Definition component_display_name (comp : Component.t) : string :=
  Component.component_title comp +:+ " (" +:+ Component.course_code comp
  +:+ ") - " +:+ String.concat ", " (Component.sections comp)
  +:+ " (" +:+ Component.semester comp +:+ ")".

Definition remove_placeholder : string := "Select component to remove...".

(** The button "Confirm Remove" of the list of components: the display
    name picked is looked up in [comp_options_for_removal], and every
    component with the identifier found there goes. *)
Definition remove_component (comp_display_name_to_remove : string)
    (s : Session.t) : option (Session.t * list Feedback) :=
  if negb (list_truthy (Session.class_components s)) then Some (s, [])
  else
    let comp_options_for_removal :=
      dict_of_list
        ((λ comp, (component_display_name comp, Component.id comp))
           <$> Session.class_components s) in
    if negb (String.eqb comp_display_name_to_remove remove_placeholder) then
      comp_id_to_remove_val ←
        comp_options_for_removal !! comp_display_name_to_remove;
      Some (Session.set_schedule_df None
              (Session.set_class_components
                 (filter (λ comp, Component.id comp ≠ comp_id_to_remove_val)
                    (Session.class_components s)) s),
            [ComponentRemoved])
    else Some (s, []).

(** The button "Create Routine", enabled while [ready_to_generate] holds. *)
Definition create_routine (shuffle : list Task.t → list Task.t)
    (s : Session.t) : option (Session.t * list Feedback) :=
  if (pre_generation_checks (Session.class_components s)
        (Session.working_days_config s) (Session.classrooms s)
        (Session.labs s)).1
  then
    out ← generate_schedule_from_components shuffle
             (Session.class_components s) (Session.classrooms s)
             (Session.labs s) (Session.working_days_config s)
             (Session.start_time_config s) (Session.end_time_config s);
    Some (Session.set_schedule_df (Some (schedule out)) s,
          (FromGenerator <$> messages out) ++
          (if list_truthy (schedule out) then [RoutineGenerated] else []))
  else Some (s, []).

(** The widgets of the sidebar, read on every run of the script. *)
Definition configure (working_days : list string)
    (start_time end_time : option Time) (s : Session.t)
  : Session.t * list Feedback :=
  (Session.set_config working_days start_time end_time s, []).

(** *** Runs of the script

    One run of the script with one form submitted, or the widgets of the
    sidebar read. *)
Inductive Event :=
| Configure (working_days : list string) (start_time end_time : option Time)
| AddClassrooms (new_classrooms_str : string)
| RemoveClassroom (room_to_remove : string)
| AddLabs (new_labs_str : string)
| RemoveLab (lab_to_remove : string)
| ClearAll
| AddSemester (new_semester : string)
| RemoveSemester (sem_to_remove : string)
| AddSections (sel_sem_for_sec new_sec_name : string)
| RemoveSections (sem_for_sec_remove : string) (secs_to_remove : list string)
| AddComponent (component_id cc_code cc_title cc_semester : string)
    (cc_sections : list string) (cc_type : ClassType) (lab_choice : string)
    (cc_sessions_per_week cc_duration_minutes : Z)
| RemoveComponent (comp_display_name_to_remove : string)
| CreateRoutine (shuffle : list Task.t → list Task.t).

Definition handle (strip : string → string) (e : Event) (s : Session.t)
  : option (Session.t * list Feedback) :=
  match e with
  | Configure working_days start_time end_time =>
      Some (configure working_days start_time end_time s)
  | AddClassrooms new_classrooms_str =>
      Some (add_classrooms strip new_classrooms_str s)
  | RemoveClassroom room_to_remove => remove_classroom room_to_remove s
  | AddLabs new_labs_str => Some (add_labs strip new_labs_str s)
  | RemoveLab lab_to_remove => remove_lab lab_to_remove s
  | ClearAll => Some (clear_all s)
  | AddSemester new_semester => Some (add_semester new_semester s)
  | RemoveSemester sem_to_remove => remove_semester sem_to_remove s
  | AddSections sel_sem_for_sec new_sec_name =>
      add_sections strip sel_sem_for_sec new_sec_name s
  | RemoveSections sem_for_sec_remove secs_to_remove =>
      remove_sections sem_for_sec_remove secs_to_remove s
  | AddComponent component_id cc_code cc_title cc_semester cc_sections
      cc_type lab_choice cc_sessions_per_week cc_duration_minutes =>
      Some (add_component component_id cc_code cc_title cc_semester
              cc_sections cc_type lab_choice cc_sessions_per_week
              cc_duration_minutes s)
  | RemoveComponent comp_display_name_to_remove =>
      remove_component comp_display_name_to_remove s
  | CreateRoutine shuffle => create_routine shuffle s
  end.

(** What the widgets guarantee of the values they hand to a form: a select
    box returns one of its options, a multiselect some of its options, each
    once, a number input a number from its minimum on; [random.shuffle]
    permutes. *)
Definition possible (s : Session.t) (e : Event) : Prop :=
  match e with
  | RemoveClassroom room_to_remove =>
      room_to_remove ∈ select_placeholder :: Session.classrooms s
  | RemoveLab lab_to_remove =>
      lab_to_remove ∈ select_placeholder :: Session.labs s
  | RemoveSemester sem_to_remove =>
      sem_to_remove ∈ select_placeholder :: Session.semesters s
  | AddSections sel_sem_for_sec _ => sel_sem_for_sec ∈ Session.semesters s
  | RemoveSections sem_for_sec_remove secs_to_remove =>
      sem_for_sec_remove ∈ select_placeholder :: Session.semesters s ∧
      secs_to_remove
        ⊆ default [] (Session.sections s !! sem_for_sec_remove) ∧
      NoDup secs_to_remove
  | AddComponent _ _ _ cc_semester cc_sections _ lab_choice
      cc_sessions_per_week cc_duration_minutes =>
      cc_semester ∈ Session.semesters s ∧
      cc_sections ⊆ default [] (Session.sections s !! cc_semester) ∧
      NoDup cc_sections ∧
      lab_choice ∈ any_available_lab :: Session.labs s ∧
      1 ≤ cc_sessions_per_week ∧ 10 ≤ cc_duration_minutes
  | RemoveComponent comp_display_name_to_remove =>
      comp_display_name_to_remove
      ∈ remove_placeholder
        :: (component_display_name <$> Session.class_components s)
  | CreateRoutine shuffle => is_shuffle shuffle
  | _ => True
  end.

(** The states a session can be in. *)
Inductive reachable (strip : string → string) : Session.t → Prop :=
| reachable_initial : reachable strip Session.initial
| reachable_step s e s' msgs :
    reachable strip s → possible s e → handle strip e s = Some (s', msgs) →
    reachable strip s'.

(** *** The invariant of the catalog *)

Definition string_le (a b : string) : Prop := String.leb a b = true.

(** A list of names: no name twice, none empty. *)
Definition names_ok (l : list string) : Prop := NoDup l ∧ "" ∉ l.

(** A component as the form builds it, for a semester and sections the
    catalog has. *)
Definition component_ok (s : Session.t) (c : Component.t) : Prop :=
  Component.course_code c ≠ "" ∧
  Component.component_title c ≠ "" ∧
  Component.semester c ∈ Session.semesters s ∧
  Component.sections c ≠ [] ∧
  Component.sections c
    ⊆ default [] (Session.sections s !! Component.semester c) ∧
  1 ≤ Component.sessions_per_week c ∧
  10 ≤ Component.duration_minutes c ∧
  match Component.class_type c with
  | Theory => Component.assigned_room c = None
  | Lab => ∃ room, Component.assigned_room c = Some room ∧ room ≠ ""
  end.

Record catalog_ok (s : Session.t) : Prop := {
  semesters_ok : names_ok (Session.semesters s);
  sections_keys :
    ∀ sem, is_Some (Session.sections s !! sem) ↔ sem ∈ Session.semesters s;
  sections_ok :
    ∀ sem l, Session.sections s !! sem = Some l →
      names_ok l ∧ StronglySorted string_le l;
  classrooms_ok : names_ok (Session.classrooms s);
  labs_ok : names_ok (Session.labs s);
  components_ok :
    ∀ c, c ∈ Session.class_components s → component_ok s c
}.

(** The stored routine is a result of the generator for the components and
    the rooms the catalog has now. *)
Definition routine_current (s : Session.t) : Prop :=
  ∀ rows, Session.schedule_df s = Some rows →
    ∃ shuffle working_days start_time end_time out,
      is_shuffle shuffle ∧
      generate_schedule_from_components shuffle (Session.class_components s)
        (Session.classrooms s) (Session.labs s) working_days start_time
        end_time = Some out ∧
      rows = schedule out.

(** The names a form adds to a pool: those of the input that are not empty
    and not in the pool, each once, in the order of the input. *)
Definition new_names (pool names added : list string) : Prop :=
  added `sublist_of` names ∧ NoDup added ∧
  ∀ r, r ∈ added ↔ r ∈ names ∧ r ≠ "" ∧ r ∉ pool.

(** What the removal of sections does to one component; [None] when the
    component goes. *)
Definition without_sections (sem_for_sec_remove : string)
    (secs_to_remove : list string) (comp : Component.t)
  : option Component.t :=
  if bool_decide (Component.semester comp = sem_for_sec_remove) then
    let updated_sections :=
      filter (λ sec, sec ∉ secs_to_remove) (Component.sections comp) in
    if list_truthy updated_sections
    then Some (with_sections updated_sections comp) else None
  else Some comp.

(** A submission clears the stored routine, or leaves the components, the
    rooms and the routine as they are. *)
Definition keeps_or_invalidates (s s' : Session.t) : Prop :=
  Session.schedule_df s' = None ∨
  (Session.class_components s' = Session.class_components s ∧
   Session.classrooms s' = Session.classrooms s ∧
   Session.labs s' = Session.labs s ∧
   Session.schedule_df s' = Session.schedule_df s).

(** ** Example sessions *)

(** [strip] for names that have no blanks around them. *)
Definition no_strip (s : string) : string := s.

(** A session after a semester, its sections, a classroom and two lectures
    were entered. *)
Definition spring_catalog : Session.t :=
  {| Session.semesters := ["Spring"];
     Session.sections := {["Spring" := ["A"; "B"]]};
     Session.class_components :=
       [lecture "c1" "CSE101" ["A"; "B"] 1 50; lecture "c2" "MAT101" ["A"] 2 50];
     Session.classrooms := ["C101"];
     Session.labs := [];
     Session.schedule_df := None;
     Session.working_days_config :=
       ["Sunday"; "Monday"; "Tuesday"; "Wednesday"; "Thursday"];
     Session.start_time_config := Some {| hour := 8; minute := 0 |};
     Session.end_time_config := Some {| hour := 17; minute := 0 |} |}.

(** The routine the button stores for it when the shuffle leaves the tasks
    in their order. *)
Definition spring_routine : list Row :=
  default []
    (schedule <$>
       generate_schedule_from_components in_order
         (Session.class_components spring_catalog)
         (Session.classrooms spring_catalog) (Session.labs spring_catalog)
         (Session.working_days_config spring_catalog)
         (Session.start_time_config spring_catalog)
         (Session.end_time_config spring_catalog)).

(** ** The grid of the third tab

    One table for each semester: a line for each day and time slot of the
    semester, a column for each section of the routine. *)

(** [Series.unique()]: the values in the order of their first
    appearance. *)
Fixpoint unique (l : list string) : list string :=
  match l with
  | [] => []
  | x :: rest => x :: filter (λ y, y ≠ x) (unique rest)
  end.

(** [sorted(l, key=key)] for keys that are integers: elements with equal
    keys keep their order. *)
Fixpoint insert_by_key (key : string → Z) (x : string) (l : list string)
  : list string :=
  match l with
  | [] => [x]
  | y :: rest =>
      if (key x <=? key y)%Z then x :: y :: rest
      else y :: insert_by_key key x rest
  end.

Definition sorted_by_key (key : string → Z) (l : list string) : list string :=
  foldr (insert_by_key key) [] l.

(** [day_order_map.get(day, len(day_order_map))] *)
Definition day_order (working_days_config : list string) (day : string) : Z :=
  default (Z.of_nat (size (day_order_map working_days_config)))
          (day_order_map working_days_config !! day).

(** [sorted(l, key=lambda ts: parse_time_slot(ts)[0])]: once there are two
    elements their keys are compared, and a key [None] raises
    [TypeError]. *)
Definition sorted_by_start (py_int : string → option Z) (l : list string)
  : option (list string) :=
  match l with
  | [] | [_] => Some l
  | _ =>
      if forallb (λ ts, bool_decide (is_Some (parse_time_slot py_int ts))) l
      then Some (sorted_by_key
                   (λ ts, default 0 (fst <$> parse_time_slot py_int ts)) l)
      else None
  end.

(** [df.groupby('Semester', sort=False)]: the groups in the order in which
    their semesters first appear, the rows of a group in their order. *)
Definition groupby_semester (rows : list Row) : list (string * list Row) :=
  (λ semester_val, (semester_val, filter (λ r, Semester r = semester_val) rows))
    <$> unique (Semester <$> rows).

(** The text of a cell. *)
Definition cell_text (entry : Row) : string :=
  Course_Code entry +:+ " - " +:+ Component_Title entry
  +:+ " (" +:+ Room_Lab entry +:+ ")".

(** The rows of the group for a day, a time slot and a section. *)
Definition class_entry (sem_group : list Row)
    (day_val time_slot_val section_val : string) : list Row :=
  filter (λ r, Day r = day_val ∧ Time_Slot r = time_slot_val ∧
               Section_ r = section_val) sem_group.

(** The cell of a section shows the first entry found, or nothing. *)
Definition cell (sem_group : list Row)
    (day_val time_slot_val section_val : string) : string :=
  match class_entry sem_group day_val time_slot_val section_val with
  | entry :: _ => cell_text entry
  | [] => ""
  end.

(** One line of a table, a dictionary from the names of the columns. *)
Definition row_data (sem_group : list Row)
    (all_scheduled_sections : list string) (day_val time_slot_val : string)
  : gmap string string :=
  foldl (λ row_data section_val,
           <[section_val := cell sem_group day_val time_slot_val section_val]>
             row_data)
        (<["Time Slot" := time_slot_val]> (<["Day" := day_val]> ∅))
        all_scheduled_sections.

Record SemesterTable := {
  table_semester : string;
  table_columns : list string;
  table_rows : list (gmap string string)
}.

(** The table of one semester. The columns are "Day", "Time Slot" and the
    sections of the routine: when a section has one of these two names the
    list repeats a name, and [st.dataframe] raises on a data frame with
    duplicate column names. *)

Definition semester_table (py_int : string → option Z)
    (working_days_config all_scheduled_sections : list string)
    (semester_val : string) (sem_group : list Row) : option SemesterTable :=
  let unique_days_in_sem := unique (Day <$> sem_group) in
  let sorted_unique_days_in_sem :=
    sorted_by_key (day_order working_days_config) unique_days_in_sem in
  semester_table_data ←
    mapM (λ day_val,
            unique_time_slots_on_day ←
              sorted_by_start py_int
                (unique (Time_Slot
                           <$> filter (λ r, Day r = day_val) sem_group));
            Some (row_data sem_group all_scheduled_sections day_val
                    <$> (unique_time_slots_on_day : list string)))
         sorted_unique_days_in_sem;
  let display_cols_sem_table :=
    ["Day"; "Time Slot"] ++ all_scheduled_sections in
  if bool_decide (NoDup display_cols_sem_table)
  then Some {| table_semester := semester_val;
               table_columns := display_cols_sem_table;
               table_rows := mjoin semester_table_data |}
  else None.

(** The tables shown for a stored routine that is not empty. *)
Definition display_grid (py_int : string → option Z)
    (working_days_config : list string) (schedule_df : list Row)
  : option (list SemesterTable) :=
  let df_display := sort_for_display working_days_config schedule_df in
  unique_time_slots ←
    sorted_by_start py_int (unique (Time_Slot <$> df_display));
  let all_scheduled_sections :=
    sort_strings (unique (Section_ <$> df_display)) in
  mapM (λ group,
          semester_table py_int working_days_config all_scheduled_sections
            group.1 group.2)
       (groupby_semester df_display).

(** A row is shown: the table of its semester has a line for its day and
    time slot whose cell for its section shows it. *)
Definition shown_in (tables : list SemesterTable) (r : Row) : Prop :=
  ∃ table line,
    table ∈ tables ∧ table_semester table = Semester r ∧
    line ∈ table_rows table ∧
    line !! "Day" = Some (Day r) ∧
    line !! "Time Slot" = Some (Time_Slot r) ∧
    line !! Section_ r = Some (cell_text r).

(** ** Two runs on one input *)

(** The slot of a row: its day and its minutes, without the task. *)
Definition slot_of (r : Row) : string * string * Z * Z :=
  (Day r, Time_Slot r, Start_Minute r, End_Minute r).

(** Two messages are the same but for the task a warning about an unplaced
    task names. *)
Definition same_message (m1 m2 : Msg) : Prop :=
  match m1, m2 with
  | WarnCouldNotPlace _ _ _, WarnCouldNotPlace _ _ _ => True
  | _, _ => m1 = m2
  end.

(** Two states of the loop that differ in the tasks only: the same cursors
    and counters, the same slots in the order in which they were filled,
    the same messages. *)
Definition same_slots (st1 st2 : State) : Prop :=
  current_slot_time_per_day st1 = current_slot_time_per_day st2 ∧
  day_index_counter st1 = day_index_counter st2 ∧
  slot_of <$> schedule_entries st1 = slot_of <$> schedule_entries st2 ∧
  Forall2 same_message (shown st1) (shown st2).

(** * Properties *)

(** Case analysis on membership in a list given by its elements. *)
Ltac members H :=
  repeat (apply elem_of_cons in H as [->|H]);
  try (by apply elem_of_nil in H).

(** ** Python primitives *)

Lemma list_getitem_elem_of {A} (l : list A) i x :
  list_getitem l i = Some x → x ∈ l.
Proof.
  unfold list_getitem. intros H.
  repeat case_bool_decide; try done; by eapply list_elem_of_lookup_2.
Qed.

Lemma list_getitem_in_range {A} (l : list A) i :
  0 ≤ i < len l → is_Some (list_getitem l i).
Proof.
  unfold list_getitem, len. intros Hi.
  rewrite bool_decide_eq_true_2 by lia.
  apply lookup_lt_is_Some. lia.
Qed.

Lemma list_getitem_mod {A} (l : list A) c :
  l ≠ [] → ∃ i x, py_mod c (len l) = Some i ∧ list_getitem l i = Some x.
Proof.
  intros Hl. assert (0 < len l).
  { unfold len. destruct l; [done | simpl; lia]. }
  unfold py_mod. rewrite bool_decide_eq_false_2 by lia.
  destruct (list_getitem_in_range l (c `mod` len l)) as [x Hx].
  { apply Z.mod_pos_bound. lia. }
  eauto.
Qed.

Lemma list_truthy_spec {A} (l : list A) : list_truthy l = true ↔ l ≠ [].
Proof. by destruct l. Qed.

Lemma list_truthy_false {A} (l : list A) : list_truthy l = false ↔ l = [].
Proof. by destruct l. Qed.

Lemma truthy_spec s : truthy s = true ↔ s ≠ "".
Proof.
  unfold truthy. destruct (String.eqb_spec s ""); simpl; naive_solver.
Qed.

Lemma dict_of_list_const_lookup {V} (l : list string) (v : V) k :
  dict_of_list ((λ d, (d, v)) <$> l) !! k
  = if decide (k ∈ l) then Some v else None.
Proof.
  unfold dict_of_list.
  assert (∀ m : gmap string V,
    foldl (λ m kv, <[kv.1 := kv.2]> m) m ((λ d, (d, v)) <$> l) !! k
    = if decide (k ∈ l) then Some v else m !! k) as Hgen.
  { induction l as [|d l IH]; intros m; [done|].
    rewrite fmap_cons. cbn [foldl fst snd]. rewrite IH.
    destruct (decide (k ∈ l)) as [Hin|Hin].
    - rewrite decide_True; [done | set_solver].
    - destruct (decide (k = d)) as [->|Hne].
      + rewrite lookup_insert_eq. rewrite decide_True; [done | set_solver].
      + rewrite lookup_insert_ne; [|done].
        rewrite decide_False; [done | by intros [?|?]%elem_of_cons]. }
  rewrite Hgen. by rewrite lookup_empty.
Qed.

(** ** One pass through the loop body *)

Section placement_facts.
Variables classrooms labs working_days : list string.
Variables start_minutes_val end_minutes_val : Z.

Abbreviation attempt_ :=
  (attempt classrooms labs working_days start_minutes_val end_minutes_val).
Abbreviation try_days_ :=
  (try_days classrooms labs working_days start_minutes_val end_minutes_val).
Abbreviation place_task_ :=
  (place_task classrooms labs working_days start_minutes_val end_minutes_val).
Abbreviation place_tasks_ :=
  (place_tasks classrooms labs working_days start_minutes_val end_minutes_val).
Abbreviation choose_room_ := (choose_room classrooms labs).
Abbreviation attempt_result_ :=
  (attempt_result classrooms labs working_days start_minutes_val
     end_minutes_val).
Abbreviation wf_ := (wf working_days).

Lemma attempt_inv task st st' broke :
  attempt_ task st = Some (st', broke) → attempt_result_ task st st' broke.
Proof.
  unfold attempt, next_slot. intros H.
  destruct (list_getitem working_days 0) as [first_day|] eqn:Hfirst;
    simpl in H; [|done].
  destruct (day_index_counter st !! first_day) as [c0|] eqn:Hc0;
    simpl in H; [|done].
  destruct (py_mod c0 (len working_days)) as [day_idx|] eqn:Hidx;
    simpl in H; [|done].
  destruct (list_getitem working_days day_idx) as [current_day|] eqn:Hday;
    simpl in H; [|done].
  destruct (current_slot_time_per_day st !! current_day) as [slot_start|]
    eqn:Hslot; simpl in H; [|done].
  case_bool_decide as Hfit.
  - destruct (choose_room_ task _ current_day) as [room|] eqn:Hroom;
      simpl in H; [|done].
    destruct room as [room|].
    + destruct (truthy room) eqn:Htruthy.
      * injection H as <- <-. by eapply attempt_placed.
      * unfold reset_if_overflow in H.
        rewrite bool_decide_eq_false_2 in H by lia.
        injection H as <- <-. by eapply attempt_no_room.
    + unfold reset_if_overflow in H.
      rewrite bool_decide_eq_false_2 in H by lia.
      injection H as <- <-. by eapply attempt_no_room.
  - unfold reset_if_overflow in H.
    rewrite bool_decide_eq_true_2 in H by lia.
    injection H as <- <-. eapply attempt_overflow; eauto. lia.
Qed.

(** *** The generator raises nothing *)

Lemma choose_room_returns task (counter : gmap string Z) current_day :
  is_Some (counter !! current_day) →
  is_Some (choose_room_ task counter current_day).
Proof.
  intros [c Hc]. unfold choose_room.
  destruct (Task.class_type task).
  - destruct (list_truthy classrooms) eqn:Hrooms; [|done].
    apply list_truthy_spec in Hrooms.
    destruct (list_getitem_mod classrooms c Hrooms) as (i & r & Hi & Hr).
    rewrite Hc. simpl. rewrite Hi. simpl. by rewrite Hr.
  - destruct (names_specific_room _); [done|].
    destruct (list_truthy labs) eqn:Hlabs; [|done].
    apply list_truthy_spec in Hlabs.
    destruct (list_getitem_mod labs c Hlabs) as (i & r & Hi & Hr).
    rewrite Hc. simpl. rewrite Hi. simpl. by rewrite Hr.
Qed.

Lemma attempt_returns task st :
  working_days ≠ [] → wf_ st → is_Some (attempt_ task st).
Proof.
  intros Hdays Hwf. unfold attempt, next_slot.
  destruct (list_getitem_in_range working_days 0) as [first_day Hfirst].
  { unfold len. destruct working_days; [done | simpl; lia]. }
  rewrite Hfirst. simpl.
  destruct (Hwf first_day) as [_ [c0 Hc0]];
    [by eapply list_getitem_elem_of|].
  rewrite Hc0. simpl.
  destruct (list_getitem_mod working_days c0 Hdays)
    as (day_idx & current_day & Hidx & Hday).
  rewrite Hidx. simpl. rewrite Hday. simpl.
  apply list_getitem_elem_of in Hday.
  destruct (Hwf current_day Hday) as [[slot_start Hslot] [c Hc]].
  rewrite Hslot. simpl.
  case_bool_decide; [|done].
  destruct (choose_room_returns task
              (<[first_day := c0 + 1]> (day_index_counter st)) current_day)
    as [room Hroom].
  { destruct (decide (first_day = current_day)) as [->|Hne].
    - rewrite lookup_insert_eq. done.
    - rewrite lookup_insert_ne; [|done]. by rewrite Hc. }
  rewrite Hroom. simpl.
  destruct room as [room|]; [destruct (truthy room)|]; done.
Qed.

Lemma is_Some_lookup_insert (m : gmap string Z) d k v :
  is_Some (m !! k) → is_Some (<[d := v]> m !! k).
Proof.
  intros Hk. destruct (decide (d = k)) as [->|Hne].
  - by rewrite lookup_insert_eq.
  - by rewrite lookup_insert_ne.
Qed.

Lemma attempt_result_wf task st st' broke :
  attempt_result_ task st st' broke → wf_ st → wf_ st'.
Proof.
  intros Hres Hwf d Hd. destruct (Hwf d Hd) as [Hslot Hcount].
  destruct Hres; simpl; auto using is_Some_lookup_insert.
Qed.

Lemma try_days_returns n task st :
  working_days ≠ [] → wf_ st →
  ∃ st' assigned, try_days_ n task st = Some (st', assigned) ∧ wf_ st'.
Proof.
  intros Hdays. revert st.
  induction n as [|n IH]; intros st Hwf; simpl; [by eauto|].
  destruct (attempt_returns task st Hdays Hwf) as [[st1 broke] Hatt].
  rewrite Hatt. simpl.
  assert (wf_ st1) by eauto using attempt_result_wf, attempt_inv.
  destruct broke; eauto.
Qed.

Lemma place_task_returns task st :
  working_days ≠ [] → wf_ st →
  ∃ st', place_task_ task st = Some st' ∧ wf_ st'.
Proof.
  intros Hdays Hwf. unfold place_task.
  destruct (try_days_returns (length working_days) task st Hdays Hwf)
    as (st1 & assigned & Htry & Hwf1).
  rewrite Htry. simpl. destruct assigned; eauto.
Qed.

Lemma place_tasks_returns tasks st :
  working_days ≠ [] → wf_ st →
  ∃ st', place_tasks_ tasks st = Some st' ∧ wf_ st'.
Proof.
  intros Hdays. revert st.
  induction tasks as [|task rest IH]; intros st Hwf; simpl; [by eauto|].
  destruct (place_task_returns task st Hdays Hwf) as (st1 & Hplace & Hwf1).
  rewrite Hplace. simpl. eauto.
Qed.

Lemma initial_state_wf : wf_ (initial_state working_days start_minutes_val).
Proof.
  intros d Hd. unfold initial_state. simpl.
  rewrite !dict_of_list_const_lookup.
  rewrite !decide_True; done.
Qed.

(** *** Invariants of the loops *)

(** A property of the state kept by every pass through the loop body, and
    indifferent to the messages shown, holds when the loops are over. *)
Lemma try_days_invariant (I : State → Prop) task :
  (∀ st st' broke, I st → attempt_result_ task st st' broke → I st') →
  ∀ n st st' assigned,
    I st → try_days_ n task st = Some (st', assigned) → I st'.
Proof.
  intros Hstep. induction n as [|n IH]; intros st st' assigned HI Htry.
  - simpl in Htry. by injection Htry as <- <-.
  - simpl in Htry.
    destruct (attempt_ task st) as [[st1 broke]|] eqn:Hatt; [|done].
    simpl in Htry. apply attempt_inv in Hatt.
    assert (I st1) by eauto.
    destruct broke; [by injection Htry as <- <- | eauto].
Qed.

Lemma place_tasks_invariant (I : State → Prop) tasks :
  (∀ task st st' broke,
     task ∈ tasks → I st → attempt_result_ task st st' broke → I st') →
  (∀ m st, I st → I (show m st)) →
  ∀ st st', I st → place_tasks_ tasks st = Some st' → I st'.
Proof.
  intros Hstep Hshow.
  induction tasks as [|task rest IH]; intros st st' HI Hplace.
  - simpl in Hplace. by injection Hplace as <-.
  - simpl in Hplace.
    destruct (place_task_ task st) as [st1|] eqn:Htask; [|done].
    simpl in Hplace. apply (IH ltac:(set_solver) st1); [|done].
    unfold place_task in Htask.
    destruct (try_days_ _ task st) as [[st2 assigned]|] eqn:Htry; [|done].
    simpl in Htask.
    assert (I st2).
    { eapply (try_days_invariant I task); [|done..].
      intros. eapply (Hstep task); [set_solver|done..]. }
    destruct assigned; injection Htask as <-; auto.
Qed.
End placement_facts.

(** ** Sorting keeps the rows *)

Lemma insert_row_perm working_days r rows :
  insert_row working_days r rows ≡ₚ r :: rows.
Proof.
  induction rows as [|r' rest IH]; simpl; [done|].
  destruct (key_leb _ _); [done|].
  rewrite IH. apply Permutation_swap.
Qed.

Lemma sort_values_perm working_days rows :
  sort_values working_days rows ≡ₚ rows.
Proof.
  induction rows as [|r rest IH]; simpl; [done|].
  rewrite insert_row_perm. by rewrite IH.
Qed.

Lemma elem_of_sort_values working_days rows r :
  r ∈ sort_values working_days rows ↔ r ∈ rows.
Proof. by rewrite sort_values_perm. Qed.

(** ** The shape of a call *)

Lemma elem_of_expand_tasks class_components task :
  task ∈ expand_tasks class_components ↔
  ∃ comp section session_num,
    comp ∈ class_components ∧ section ∈ Component.sections comp ∧
    (session_num < Z.to_nat (Component.sessions_per_week comp))%nat ∧
    task = make_task comp section session_num.
Proof.
  unfold expand_tasks, expand_component.
  rewrite list_elem_of_bind. split.
  - intros (comp & Htask & Hcomp).
    apply list_elem_of_bind in Htask as (section & Htask & Hsec).
    apply list_elem_of_bind in Htask as (n & Htask & Hn).
    apply list_elem_of_singleton in Htask.
    apply elem_of_seq in Hn. exists comp, section, n. repeat split; [done..|lia|done].
  - intros (comp & section & n & Hcomp & Hsec & Hn & ->).
    exists comp. split; [|done].
    apply list_elem_of_bind. exists section. split; [|done].
    apply list_elem_of_bind. exists n. split; [set_solver|].
    apply elem_of_seq. lia.
Qed.

(** A call either stops at one of its three input checks, or runs the
    placement loop to its end and sorts what was placed. *)
Lemma generate_inv shuffle class_components classrooms labs working_days
    start_time_obj end_time_obj :
  let call := generate_schedule_from_components shuffle class_components
                classrooms labs working_days start_time_obj end_time_obj in
  ((class_components = [] ∨ working_days = []) ∧
     call = Some (error_output ErrMissingInput))
  ∨ (class_components ≠ [] ∧ working_days ≠ [] ∧
     needs_theory_room class_components = true ∧ classrooms = [] ∧
     call = Some (error_output ErrNoClassrooms))
  ∨ (class_components ≠ [] ∧ working_days ≠ [] ∧
     (needs_theory_room class_components = true → classrooms ≠ []) ∧
     needs_lab_room_any class_components = true ∧ labs = [] ∧
     call = Some (error_output ErrNoLabs))
  ∨ (class_components ≠ [] ∧ working_days ≠ [] ∧
     (needs_theory_room class_components = true → classrooms ≠ []) ∧
     (needs_lab_room_any class_components = true → labs ≠ []) ∧
     ∃ st,
       place_tasks classrooms labs working_days
         (time_to_minutes start_time_obj) (time_to_minutes end_time_obj)
         (shuffle (expand_tasks class_components))
         (initial_state working_days (time_to_minutes start_time_obj))
       = Some st ∧
       call = Some
         {| messages :=
              shown st ++
              (if list_truthy (schedule_entries st) then [] else [InfoNoEntries]);
            schedule := sort_values working_days (schedule_entries st) |}).
Proof.
  intros call. unfold call, generate_schedule_from_components.
  destruct (list_truthy class_components) eqn:Hcomps; simpl;
    [|left; apply list_truthy_false in Hcomps; auto].
  destruct (list_truthy working_days) eqn:Hdays; simpl;
    [|left; apply list_truthy_false in Hdays; auto].
  apply list_truthy_spec in Hcomps, Hdays.
  right.
  destruct (place_tasks_returns classrooms labs working_days
              (time_to_minutes start_time_obj) (time_to_minutes end_time_obj)
              (shuffle (expand_tasks class_components))
              (initial_state working_days (time_to_minutes start_time_obj))
              Hdays (initial_state_wf working_days _)) as (st & Hst & _).
  rewrite Hst. simpl.
  assert (∀ P : option Output → Prop,
    P (Some {| messages :=
                 shown st ++
                 (if list_truthy (schedule_entries st) then []
                  else [InfoNoEntries]);
               schedule := sort_values working_days (schedule_entries st) |}) →
    P (if list_truthy (schedule_entries st)
       then Some {| messages := shown st;
                    schedule := sort_values working_days (schedule_entries st) |}
       else Some {| messages := shown st ++ [InfoNoEntries];
                    schedule := [] |})) as Hfinal.
  { intros P. destruct (schedule_entries st); simpl; [done|].
    by rewrite app_nil_r. }
  destruct (needs_theory_room class_components),
    (list_truthy classrooms) eqn:Hrooms,
    (needs_lab_room_any class_components),
    (list_truthy labs) eqn:Hlabs; simpl;
    try apply list_truthy_spec in Hrooms;
    try apply list_truthy_spec in Hlabs;
    try apply list_truthy_false in Hrooms;
    try apply list_truthy_false in Hlabs;
    first [ by left; repeat split
          | by right; left; repeat split
          | right; right; apply Hfinal; repeat split; eauto; done ].
Qed.

(** ** What the loop writes *)

Section placed_rows.
Variables classrooms labs working_days : list string.
Variables start_minutes_val end_minutes_val : Z.

Abbreviation place_tasks' :=
  (place_tasks classrooms labs working_days start_minutes_val end_minutes_val).
Abbreviation rows_justified_ :=
  (rows_justified classrooms labs working_days end_minutes_val).
Abbreviation starts_in_window_ := (starts_in_window start_minutes_val).
Abbreviation after_buffer_ := (after_buffer start_minutes_val).
Abbreviation buffered_ := (buffered start_minutes_val).

Lemma place_tasks_rows_justified tasks st st' :
  rows_justified_ tasks st →
  place_tasks' tasks st = Some st' →
  rows_justified_ tasks st'.
Proof.
  apply (place_tasks_invariant _ _ _ _ _ (rows_justified_ tasks)); [|done].
  intros task s s' broke Htask Hinv Hres r Hr.
  destruct Hres; simpl in Hr; auto.
  apply elem_of_app in Hr as [Hr|Hr]; [auto|].
  apply list_elem_of_singleton in Hr as ->.
  eexists task, _. simpl.
  repeat split; [done| |done|done].
  by eapply list_getitem_elem_of.
Qed.

Lemma place_tasks_starts_in_window tasks st st' :
  (∀ t, t ∈ tasks → 0 ≤ Task.duration_minutes t) →
  starts_in_window_ st →
  place_tasks' tasks st = Some st' →
  starts_in_window_ st'.
Proof.
  intros Hdur.
  apply (place_tasks_invariant _ _ _ _ _ starts_in_window_); [|done].
  intros task s s' broke Htask [Hcur Hrows] Hres.
  specialize (Hdur task Htask).
  destruct Hres as [first_day c0 day_idx current_day slot_start room
                      _ _ _ _ Hslot _ _ _
                   |first_day c0 day_idx current_day slot_start room
                      _ _ _ _ Hslot _ _ _
                   |first_day c0 day_idx current_day slot_start
                      _ _ _ _ Hslot _]; split; simpl; auto.
  - intros d v Hv. apply Hcur in Hslot.
    destruct (decide (current_day = d)) as [->|Hne].
    + rewrite lookup_insert_eq in Hv. injection Hv as <-. lia.
    + rewrite lookup_insert_ne in Hv; eauto.
  - intros r Hr. apply elem_of_app in Hr as [Hr|Hr]; [auto|].
    apply list_elem_of_singleton in Hr as ->. simpl. eauto.
  - intros d v Hv.
    destruct (decide (current_day = d)) as [->|Hne].
    + rewrite lookup_insert_eq in Hv. injection Hv as <-. lia.
    + rewrite lookup_insert_ne in Hv; eauto.
Qed.

Lemma initial_state_starts_in_window :
  starts_in_window_ (initial_state working_days start_minutes_val).
Proof.
  split; simpl; [|set_solver].
  intros d v. rewrite dict_of_list_const_lookup.
  case_decide; [|done]. intros [= <-]. lia.
Qed.




(** A task adds at most one row, which carries its identifier. *)
Lemma try_days_entries n task st st' assigned :
  try_days classrooms labs working_days start_minutes_val end_minutes_val
    n task st = Some (st', assigned) →
  if assigned
  then ∃ r, schedule_entries st' = schedule_entries st ++ [r] ∧
            Component_ID r = Task.task_id task
  else schedule_entries st' = schedule_entries st.
Proof.
  revert st. induction n as [|n IH]; intros st Htry; simpl in Htry.
  - by injection Htry as <- <-.
  - destruct (attempt _ _ _ _ _ task st) as [[st1 broke]|] eqn:Hatt; [|done].
    simpl in Htry. apply attempt_inv in Hatt.
    destruct broke.
    + injection Htry as <- <-. inversion Hatt; subst; simpl. eauto.
    + apply IH in Htry.
      assert (schedule_entries st1 = schedule_entries st) as <-
        by (inversion Hatt; by subst).
      done.
Qed.

Lemma place_tasks_entries tasks st st' :
  place_tasks' tasks st = Some st' →
  ∃ placed,
    schedule_entries st' = schedule_entries st ++ placed ∧
    Component_ID <$> placed `sublist_of` Task.task_id <$> tasks.
Proof.
  revert st. induction tasks as [|task rest IH]; intros st Hplace;
    simpl in Hplace.
  - injection Hplace as <-. exists []. by rewrite app_nil_r.
  - destruct (place_task _ _ _ _ _ task st) as [st1|] eqn:Htask; [|done].
    simpl in Hplace. apply IH in Hplace as (placed & Hentries & Hsub).
    unfold place_task in Htask.
    destruct (try_days _ _ _ _ _ _ task st) as [[st2 assigned]|] eqn:Htry;
      [|done].
    simpl in Htask. apply try_days_entries in Htry.
    destruct assigned; injection Htask as <-.
    + destruct Htry as (r & Hst2 & Hid).
      exists (r :: placed). rewrite Hentries, Hst2, <-app_assoc.
      split; [done|]. rewrite !fmap_cons, Hid. by apply sublist_skip.
    + exists placed. rewrite Hentries. simpl. rewrite Htry.
      split; [done|]. by apply sublist_cons.
Qed.

(** The loop shows nothing but one warning for each task it could not
    place; every task is placed or warned about. *)
Lemma try_days_shown n task st st' assigned :
  try_days classrooms labs working_days start_minutes_val end_minutes_val
    n task st = Some (st', assigned) →
  shown st' = shown st.
Proof.
  revert st. induction n as [|n IH]; intros st Htry; simpl in Htry.
  - by injection Htry as <- <-.
  - destruct (attempt _ _ _ _ _ task st) as [[st1 broke]|] eqn:Hatt; [|done].
    simpl in Htry. apply attempt_inv in Hatt.
    assert (shown st1 = shown st) as <- by (inversion Hatt; by subst).
    destruct broke; [by injection Htry as <- <- | eauto].
Qed.

Lemma place_tasks_shown tasks st st' :
  place_tasks' tasks st = Some st' →
  ∃ warnings,
    shown st' = shown st ++ warnings ∧
    Forall (λ m, is_unplaced m = true) warnings ∧
    (length (schedule_entries st') + length warnings
     = length (schedule_entries st) + length tasks)%nat.
Proof.
  revert st. induction tasks as [|task rest IH]; intros st Hplace;
    simpl in Hplace.
  - injection Hplace as <-. exists []. by rewrite app_nil_r.
  - destruct (place_task _ _ _ _ _ task st) as [st1|] eqn:Htask; [|done].
    simpl in Hplace. apply IH in Hplace as (warnings & Hshown & Hall & Hlen).
    unfold place_task in Htask.
    destruct (try_days _ _ _ _ _ _ task st) as [[st2 assigned]|] eqn:Htry;
      [|done].
    simpl in Htask.
    pose proof (try_days_shown _ _ _ _ _ Htry) as Hshown2.
    apply try_days_entries in Htry.
    destruct assigned; injection Htask as <-.
    + destruct Htry as (r & Hst2 & _). exists warnings.
      rewrite Hshown, Hshown2. split_and!; [done..|].
      rewrite Hst2, length_app in Hlen. simpl in *. lia.
    + simpl in *. eexists (_ :: warnings).
      rewrite Hshown, Hshown2, <-app_assoc. split_and!; [done| |].
      * by constructor.
      * rewrite Htry in Hlen. simpl. lia.
Qed.

Lemma choose_room_eligible t counter day room :
  (Task.class_type t = Lab →
   names_specific_room (Task.assigned_room t) = true →
   ∀ name, Task.assigned_room t = Some name → name ∈ labs) →
  choose_room classrooms labs t counter day = Some (Some room) →
  eligible classrooms labs t room.
Proof.
  unfold choose_room, eligible. intros Hpool Hroom.
  destruct (Task.class_type t); [|specialize (Hpool eq_refl)].
  - destruct (list_truthy classrooms); [|done].
    destruct (counter !! day) as [c|]; simpl in Hroom; [|done].
    destruct (py_mod c (len classrooms)) as [i|]; simpl in Hroom; [|done].
    destruct (list_getitem classrooms i) as [x|] eqn:Hx; simpl in Hroom;
      [|done].
    injection Hroom as <-. by eapply list_getitem_elem_of.
  - destruct (names_specific_room (Task.assigned_room t)) eqn:Hspecific.
    + injection Hroom as Hroom. split; [done|]. by eapply Hpool.
    + destruct (list_truthy labs); [|done].
      destruct (counter !! day) as [c|]; simpl in Hroom; [|done].
      destruct (py_mod c (len labs)) as [i|]; simpl in Hroom; [|done].
      destruct (list_getitem labs i) as [x|] eqn:Hx; simpl in Hroom; [|done].
      injection Hroom as <-. by eapply list_getitem_elem_of.
Qed.
End placed_rows.

(** ** Properties of the returned schedule *)

(** To show that a call returns an output with a property, it is enough to
    consider the output of a failed input check and the output built from
    the final state of the placement loop. *)
Lemma generate_returns (Q : Output → Prop) shuffle class_components
    classrooms labs working_days start_time_obj end_time_obj :
  (∀ e, is_error e = true → Q (error_output e)) →
  (∀ st,
     class_components ≠ [] → working_days ≠ [] →
     place_tasks classrooms labs working_days
       (time_to_minutes start_time_obj) (time_to_minutes end_time_obj)
       (shuffle (expand_tasks class_components))
       (initial_state working_days (time_to_minutes start_time_obj))
     = Some st →
     Q {| messages :=
            shown st ++
            (if list_truthy (schedule_entries st) then [] else [InfoNoEntries]);
          schedule := sort_values working_days (schedule_entries st) |}) →
  returns (generate_schedule_from_components shuffle class_components
             classrooms labs working_days start_time_obj end_time_obj) Q.
Proof.
  intros Herr Hrun.
  destruct (generate_inv shuffle class_components classrooms labs working_days
              start_time_obj end_time_obj)
    as [[_ ->]|[(_ & _ & _ & _ & ->)|[(_ & _ & _ & _ & _ & ->)
       |(? & ? & _ & _ & st & Hst & ->)]]];
    eexists; (split; [done|]); auto.
Qed.

Lemma initial_state_rows_justified classrooms labs working_days
    start_minutes_val end_minutes_val tasks :
  rows_justified classrooms labs working_days end_minutes_val tasks
    (initial_state working_days start_minutes_val).
Proof. intros r Hr. simpl in Hr. set_solver. Qed.

Lemma is_shuffle_elem_of shuffle (tasks : list Task.t) t :
  is_shuffle shuffle → t ∈ shuffle tasks → t ∈ tasks.
Proof. intros Hshuffle. by rewrite (Hshuffle tasks). Qed.

Lemma expand_tasks_duration class_components t :
  (∀ c, c ∈ class_components → 0 ≤ Component.duration_minutes c) →
  t ∈ expand_tasks class_components → 0 ≤ Task.duration_minutes t.
Proof.
  intros Hdur (comp & section & n & Hcomp & _ & _ & ->)%elem_of_expand_tasks.
  simpl. auto.
Qed.

(** C3 (window containment). Whatever order the shuffle produces, and
    provided no component has a negative duration, every row of the returned
    schedule was written for an expanded task, starts no earlier than the
    daily window and, lasting that task's duration, ends no later than the
    window does. Runs in which a day's cursor was reset are included. *)
Theorem window_containment shuffle class_components classrooms labs
    working_days start_time_obj end_time_obj :
  is_shuffle shuffle →
  (∀ c, c ∈ class_components → 0 ≤ Component.duration_minutes c) →
  returns (generate_schedule_from_components shuffle class_components
             classrooms labs working_days start_time_obj end_time_obj)
    (λ out, ∀ r, r ∈ schedule out →
       ∃ t, t ∈ expand_tasks class_components ∧ row_of_task t r ∧
         time_to_minutes start_time_obj ≤ Start_Minute r ∧
         Start_Minute r + Task.duration_minutes t
           ≤ time_to_minutes end_time_obj).
Proof.
  intros Hshuffle Hdur. apply generate_returns.
  - intros e _ r Hr. simpl in Hr. set_solver.
  - intros st _ _ Hst r Hr. simpl in Hr.
    apply elem_of_sort_values in Hr.
    pose proof (place_tasks_rows_justified _ _ _ _ _ _ _ _
                  (initial_state_rows_justified _ _ _ _ _ _) Hst) as Hrows.
    assert (∀ t, t ∈ shuffle (expand_tasks class_components) →
                 0 ≤ Task.duration_minutes t) as Hdur'.
    { intros t Ht. eapply expand_tasks_duration;
        eauto using is_shuffle_elem_of. }
    pose proof (place_tasks_starts_in_window _ _ _ _ _ _ _ _ Hdur'
                  (initial_state_starts_in_window _ _) Hst) as [_ Hstart].
    destruct (Hrows r Hr) as (t & counter & Ht & Hrow & _ & Hend & _).
    exists t. apply is_shuffle_elem_of in Ht; [|done].
    split_and!; [done..|auto|].
    destruct Hrow as (_ & _ & _ & _ & _ & _ & Hlen). lia.
Qed.

(** C7 (eligibility). When every Lab component that names a room names a
    member of the lab pool, every row of the returned schedule is in a room
    that fits its task: a classroom for a Theory task, the named room for a
    Lab task that names one, a member of the lab pool for a Lab task that
    asks for any available lab. *)
Theorem eligibility shuffle class_components classrooms labs working_days
    start_time_obj end_time_obj :
  is_shuffle shuffle →
  (∀ c name, c ∈ class_components → Component.class_type c = Lab →
     names_specific_room (Component.assigned_room c) = true →
     Component.assigned_room c = Some name → name ∈ labs) →
  returns (generate_schedule_from_components shuffle class_components
             classrooms labs working_days start_time_obj end_time_obj)
    (λ out, ∀ r, r ∈ schedule out →
       ∃ t, t ∈ expand_tasks class_components ∧ row_of_task t r ∧
            eligible classrooms labs t (Room_Lab r)).
Proof.
  intros Hshuffle Hpool. apply generate_returns.
  - intros e _ r Hr. simpl in Hr. set_solver.
  - intros st _ _ Hst r Hr. simpl in Hr.
    apply elem_of_sort_values in Hr.
    pose proof (place_tasks_rows_justified _ _ _ _ _ _ _ _
                  (initial_state_rows_justified _ _ _ _ _ _) Hst) as Hrows.
    destruct (Hrows r Hr) as (t & counter & Ht & Hrow & _ & _ & Hroom).
    exists t. apply is_shuffle_elem_of in Ht; [|done].
    split_and!; [done..|].
    eapply choose_room_eligible; [|done].
    apply elem_of_expand_tasks in Ht
      as (comp & section & n & Hcomp & _ & _ & ->).
    simpl. eauto.
Qed.

(** ** Counting *)

Lemma submseteq_filter_length {A} (P : A → Prop) `{!∀ x, Decision (P x)}
    (l1 l2 : list A) :
  l1 ⊆+ l2 → (length (filter P l1) ≤ length (filter P l2))%nat.
Proof.
  induction 1 as [|x l1 l2 _ IH|x y l|x l1 l2 _ IH|l1 l2 l3 _ IH1 _ IH2].
  - done.
  - rewrite !filter_cons. destruct (decide (P x)); simpl; lia.
  - rewrite !filter_cons.
    destruct (decide (P x)), (decide (P y)); simpl; lia.
  - rewrite filter_cons. destruct (decide (P x)); simpl; lia.
  - lia.
Qed.

Lemma length_filter_fmap {A B} (f : A → B) (P : B → Prop)
    `{!∀ y, Decision (P y)} (l : list A) :
  length (filter P (f <$> l)) = length (filter (λ x, P (f x)) l).
Proof.
  induction l as [|x l IH]; [done|].
  rewrite fmap_cons, !filter_cons.
  destruct (decide (P (f x))); simpl; by rewrite IH.
Qed.

(** C10 (at most one placement per task). In the returned schedule, a task
    identifier appears on no more rows than there are expanded tasks with
    that identifier; so a task whose identifier is its own has at most one
    row. *)
Theorem at_most_one_row_per_task shuffle class_components classrooms labs
    working_days start_time_obj end_time_obj :
  is_shuffle shuffle →
  returns (generate_schedule_from_components shuffle class_components
             classrooms labs working_days start_time_obj end_time_obj)
    (λ out,
       (∀ tid, rows_of_id tid (schedule out)
               ≤ tasks_of_id tid (expand_tasks class_components))%nat ∧
       (∀ t, tasks_of_id (Task.task_id t) (expand_tasks class_components) = 1%nat →
             rows_of_id (Task.task_id t) (schedule out) ≤ 1)%nat).
Proof.
  intros Hshuffle. apply generate_returns.
  - intros e _. simpl. unfold rows_of_id. simpl. split; intros; lia.
  - intros st _ _ Hst. simpl.
    assert (∀ tid, rows_of_id tid (sort_values working_days (schedule_entries st))
                   ≤ tasks_of_id tid (expand_tasks class_components))%nat
      as Hcount.
    { intros tid. unfold rows_of_id, tasks_of_id.
      apply place_tasks_entries in Hst as (placed & Hentries & Hsub).
      simpl in Hentries. subst placed.
      pose proof (length_filter_fmap Component_ID (λ i, i = tid)
                    (sort_values working_days (schedule_entries st))) as Hrows.
      pose proof (length_filter_fmap Task.task_id (λ i, i = tid)
                    (expand_tasks class_components)) as Htasks.
      simpl in Hrows, Htasks. rewrite <-Hrows, <-Htasks.
      apply submseteq_filter_length.
      rewrite (sort_values_perm working_days (schedule_entries st)).
      rewrite <-(Hshuffle (expand_tasks class_components)).
      by apply sublist_submseteq. }
    split; [done|]. intros t <-. apply Hcount.
Qed.


(** ** Relations between any two elements of a list *)

Lemma ForallOrdPairs_snoc {A} (R : A → A → Prop) l x :
  ForallOrdPairs R l → Forall (λ y, R y x) l → ForallOrdPairs R (l ++ [x]).
Proof.
  induction 1 as [|a l Ha _ IH]; intros Hx; simpl.
  - repeat constructor.
  - apply Forall_cons in Hx as [Hax Hx]. constructor; [|auto].
    apply Forall_app. split; [done|]. by constructor.
Qed.

Lemma ForallOrdPairs_perm {A} (R : A → A → Prop) `{!Symmetric R} l l' :
  l ≡ₚ l' → ForallOrdPairs R l → ForallOrdPairs R l'.
Proof.
  induction 1 as [|x l l' Hperm IH|x y l|l1 l2 l3 _ IH1 _ IH2];
    intros Hl; [done| | |auto].
  - inversion Hl as [|? ? Hx Hrest]; subst.
    constructor; [by rewrite <-Hperm | auto].
  - inversion Hl as [|? ? Hy Hrest]; subst.
    inversion Hrest as [|? ? Hx Hrest']; subst.
    apply Forall_cons in Hy as [Hyx Hy].
    constructor; [constructor; [by symmetry | done]|].
    by constructor.
Qed.

Lemma ForallOrdPairs_pairwise {A} (R : A → A → Prop) `{!Symmetric R} l :
  ForallOrdPairs R l → pairwise R l.
Proof.
  induction 1 as [|a l Ha _ IH]; intros i j x y Hij Hi Hj; [done|].
  rewrite Forall_forall in Ha.
  destruct i as [|i], j as [|j]; simpl in Hi, Hj; [done| | |].
  - injection Hi as <-. apply Ha. by eapply list_elem_of_lookup_2.
  - injection Hj as <-. symmetry. apply Ha. by eapply list_elem_of_lookup_2.
  - eapply (IH i j); [lia|done..].
Qed.

Lemma pairwise_ForallOrdPairs {A} (R : A → A → Prop) l :
  pairwise R l → ForallOrdPairs R l.
Proof.
  induction l as [|a l IH]; intros Hl; constructor.
  - apply Forall_forall. intros y Hy.
    apply list_elem_of_lookup_1 in Hy as [j Hj].
    by apply (Hl 0%nat (S j)).
  - apply IH. intros i j x y Hij Hi Hj.
    apply (Hl (S i) (S j)); [lia|done..].
Qed.

#[global] Instance day_overlap_symmetric :
  Symmetric (λ r1 r2 : Row, Day r1 = Day r2 → ¬ overlap r1 r2).
Proof. intros r1 r2 H Hday [? ?]. apply H; [done|]. by split. Qed.

Lemma day_exclusive_room_exclusive rows :
  day_exclusive rows → room_exclusive rows.
Proof. intros H i j r1 r2 Hij Hi Hj _. by apply (H i j). Qed.

Lemma day_exclusive_perm rows rows' :
  rows ≡ₚ rows' → day_exclusive rows → day_exclusive rows'.
Proof.
  unfold day_exclusive. intros Hperm H%pairwise_ForallOrdPairs.
  apply ForallOrdPairs_pairwise; [apply _|].
  apply (ForallOrdPairs_perm _ rows rows' Hperm H).
Qed.

(** ** Runs that never overflow the window *)

Section no_overflow.
Variables classrooms labs working_days : list string.
Variables start_minutes_val end_minutes_val : Z.

Lemma next_slot_eq st first_day c0 day_idx current_day slot_start :
  list_getitem working_days 0 = Some first_day →
  day_index_counter st !! first_day = Some c0 →
  py_mod c0 (len working_days) = Some day_idx →
  list_getitem working_days day_idx = Some current_day →
  current_slot_time_per_day st !! current_day = Some slot_start →
  next_slot working_days st
  = Some (current_day, <[first_day := c0 + 1]> (day_index_counter st),
          slot_start).
Proof.
  intros Hfirst Hc0 Hidx Hday Hslot. unfold next_slot.
  rewrite Hfirst. simpl. rewrite Hc0. simpl. rewrite Hidx. simpl.
  rewrite Hday. simpl. by rewrite Hslot.
Qed.

Lemma attempt_result_packed task st st' broke :
  0 ≤ Task.duration_minutes task →
  fits working_days end_minutes_val task st = true →
  attempt_result classrooms labs working_days start_minutes_val
    end_minutes_val task st st' broke →
  day_packed st → day_packed st'.
Proof.
  intros Hdur Hfits Hres [Hcur Hrows].
  destruct Hres as [first_day c0 day_idx current_day slot_start room
                      Hfirst Hc0 Hidx Hday Hslot Hend _ _
                   |first_day c0 day_idx current_day slot_start room
                      _ _ _ _ _ _ _ _
                   |first_day c0 day_idx current_day slot_start
                      Hfirst Hc0 Hidx Hday Hslot Hend]; [|done|].
  - split; simpl.
    + intros d v r Hv Hr Hd. destruct (decide (current_day = d)) as [->|Hne].
      * rewrite lookup_insert_eq in Hv. injection Hv as <-.
        apply elem_of_app in Hr as [Hr|Hr].
        -- specialize (Hcur _ _ _ Hslot Hr Hd). lia.
        -- apply list_elem_of_singleton in Hr as ->. simpl. lia.
      * rewrite lookup_insert_ne in Hv; [|done].
        apply elem_of_app in Hr as [Hr|Hr]; [eauto|].
        apply list_elem_of_singleton in Hr as ->. done.
    + apply ForallOrdPairs_snoc; [done|].
      apply Forall_forall. intros r Hr Hd [_ Hlt]. simpl in *.
      specialize (Hcur _ _ _ Hslot Hr Hd). lia.
  - unfold fits in Hfits.
    rewrite (next_slot_eq _ _ _ _ _ _ Hfirst Hc0 Hidx Hday Hslot) in Hfits.
    apply bool_decide_eq_true in Hfits. lia.
Qed.

Lemma try_days_fit_packed n task st st' assigned :
  0 ≤ Task.duration_minutes task →
  try_days_fit classrooms labs working_days start_minutes_val end_minutes_val
    n task st = true →
  try_days classrooms labs working_days start_minutes_val end_minutes_val
    n task st = Some (st', assigned) →
  day_packed st → day_packed st'.
Proof.
  intros Hdur. revert st.
  induction n as [|n IH]; intros st Hfit Htry Hpacked; simpl in Hfit, Htry.
  - by injection Htry as <- <-.
  - apply andb_true_iff in Hfit as [Hfits Hfit].
    destruct (attempt _ _ _ _ _ task st) as [[st1 broke]|] eqn:Hatt; [|done].
    simpl in Htry.
    assert (day_packed st1)
      by eauto using attempt_result_packed, attempt_inv.
    destruct broke; [by injection Htry as <- <- | eauto].
Qed.

Lemma all_fit_packed tasks st st' :
  (∀ t, t ∈ tasks → 0 ≤ Task.duration_minutes t) →
  all_fit classrooms labs working_days start_minutes_val end_minutes_val
    tasks st = true →
  place_tasks classrooms labs working_days start_minutes_val end_minutes_val
    tasks st = Some st' →
  day_packed st → day_packed st'.
Proof.
  revert st.
  induction tasks as [|task rest IH]; intros st Hdur Hfit Hplace Hpacked;
    simpl in Hfit, Hplace.
  - by injection Hplace as <-.
  - apply andb_true_iff in Hfit as [Hfit1 Hfit].
    destruct (place_task _ _ _ _ _ task st) as [st1|] eqn:Htask; [|done].
    simpl in Hplace. apply (IH st1); [set_solver|done..|].
    unfold place_task in Htask.
    destruct (try_days _ _ _ _ _ _ task st) as [[st2 assigned]|] eqn:Htry;
      [|done].
    simpl in Htask.
    assert (day_packed st2).
    { eapply try_days_fit_packed; [|done..]. apply Hdur. set_solver. }
    by destruct assigned; injection Htask as <-.
Qed.

Lemma initial_state_packed :
  day_packed (initial_state working_days start_minutes_val).
Proof. split; simpl; [set_solver | constructor]. Qed.
End no_overflow.

(** C1, as the code has it (room exclusivity of a run without overflow).
    Provided no component has a negative duration, in every schedule
    returned by a run in which every slot tried ends within the daily
    window, so that no cursor is reset, no two rows of one room on one day
    overlap. *)
Theorem room_exclusivity_without_overflow shuffle class_components classrooms
    labs working_days start_time_obj end_time_obj :
  is_shuffle shuffle →
  (∀ c, c ∈ class_components → 0 ≤ Component.duration_minutes c) →
  all_fit classrooms labs working_days
    (time_to_minutes start_time_obj) (time_to_minutes end_time_obj)
    (shuffle (expand_tasks class_components))
    (initial_state working_days (time_to_minutes start_time_obj)) = true →
  returns (generate_schedule_from_components shuffle class_components
             classrooms labs working_days start_time_obj end_time_obj)
    (λ out, room_exclusive (schedule out)).
Proof.
  intros Hshuffle Hdur Hfit. apply generate_returns.
  - intros e _ i j r1 r2 _ Hi. done.
  - intros st _ _ Hst. simpl.
    apply day_exclusive_room_exclusive.
    apply (day_exclusive_perm (schedule_entries st));
      [by rewrite sort_values_perm|].
    apply ForallOrdPairs_pairwise; [apply _|].
    eapply all_fit_packed; [|done..|apply initial_state_packed].
    intros t Ht. eapply expand_tasks_duration; eauto using is_shuffle_elem_of.
Qed.

(** ** The order of the rows *)

Lemma cmp_refl `{Comparison A cmp} x : cmp x x = Eq.
Proof. pose proof (cmp_antisym x x). by destruct (cmp x x). Qed.

Lemma ascii_compare_lt_trans a b c :
  Ascii.compare a b = Lt → Ascii.compare b c = Lt → Ascii.compare a c = Lt.
Proof.
  unfold Ascii.compare. rewrite !N.compare_lt_iff. lia.
Qed.

Lemma string_compare_lt_trans s1 s2 s3 :
  String.compare s1 s2 = Lt → String.compare s2 s3 = Lt →
  String.compare s1 s3 = Lt.
Proof.
  revert s2 s3. induction s1 as [|a s1 IH]; intros [|b s2] [|c s3];
    simpl; try done.
  destruct (Ascii.compare a b) eqn:Hab; [|clear IH|done];
    (destruct (Ascii.compare b c) eqn:Hbc; [| |done]); intros H12 H23.
  - apply Ascii.compare_eq_iff in Hab as ->. rewrite Hbc. eauto.
  - apply Ascii.compare_eq_iff in Hab as ->. by rewrite Hbc.
  - apply Ascii.compare_eq_iff in Hbc as <-. by rewrite Hab.
  - by rewrite (ascii_compare_lt_trans a b c).
Qed.

#[global] Instance string_comparison : Comparison String.compare.
Proof.
  split.
  - apply String.compare_eq_iff.
  - intros x y. apply String.compare_antisym.
  - apply string_compare_lt_trans.
Qed.

#[global] Instance Z_comparison : Comparison Z.compare.
Proof.
  split.
  - apply Z.compare_eq.
  - intros x y. apply Z.compare_antisym.
  - intros x y z. rewrite !Z.compare_lt_iff. lia.
Qed.

#[global] Instance prod_comparison {A B} (cmpA : A → A → comparison)
    (cmpB : B → B → comparison) `{!Comparison cmpA, !Comparison cmpB} :
  Comparison (prod_compare cmpA cmpB).
Proof.
  split; unfold prod_compare, lex.
  - intros [a1 b1] [a2 b2]. simpl.
    destruct (cmpA a1 a2) eqn:Ha; [|done..].
    intros Hb. by rewrite (cmp_eq _ _ Ha), (cmp_eq _ _ Hb).
  - intros [a1 b1] [a2 b2]. simpl.
    rewrite (cmp_antisym (cmp:=cmpA) a1 a2), (cmp_antisym (cmp:=cmpB) b1 b2).
    by destruct (cmpA a1 a2).
  - intros [a1 b1] [a2 b2] [a3 b3]. simpl.
    destruct (cmpA a1 a2) eqn:H12; [| |done];
      (destruct (cmpA a2 a3) eqn:H23; [| |done]); intros Hb12 Hb23.
    + apply cmp_eq in H12 as ->. rewrite H23. eauto using cmp_lt_trans.
    + apply cmp_eq in H12 as ->. by rewrite H23.
    + apply cmp_eq in H23 as <-. by rewrite H12.
    + by rewrite (cmp_lt_trans _ _ _ H12 H23).
Qed.

#[global] Instance key_comparison : Comparison key_compare.
Proof. unfold key_compare. apply _. Qed.

Lemma key_le_total working_days r1 r2 :
  key_le working_days r1 r2 ∨ key_le working_days r2 r1.
Proof.
  unfold key_le, key_leb.
  rewrite (cmp_antisym (cmp:=key_compare)
             (sort_key working_days r1) (sort_key working_days r2)).
  destruct (key_compare _ _); auto.
Qed.

Lemma key_le_trans working_days r1 r2 r3 :
  key_le working_days r1 r2 → key_le working_days r2 r3 →
  key_le working_days r1 r3.
Proof.
  unfold key_le, key_leb.
  destruct (key_compare (sort_key working_days r1) (sort_key working_days r2))
    eqn:H12; [| |done];
    (destruct (key_compare (sort_key working_days r2)
                 (sort_key working_days r3)) eqn:H23; [| |done]); intros _ _.
  - apply cmp_eq in H12 as ->. by rewrite H23.
  - apply cmp_eq in H12 as ->. by rewrite H23.
  - apply cmp_eq in H23 as <-. by rewrite H12.
  - by rewrite (cmp_lt_trans _ _ _ H12 H23).
Qed.

Lemma key_le_same_key working_days r1 r2 :
  sort_key working_days r1 = sort_key working_days r2 →
  key_le working_days r1 r2.
Proof.
  unfold key_le, key_leb. intros ->. by rewrite (cmp_refl (cmp:=key_compare)).
Qed.

Lemma insert_row_sorted working_days r rows :
  StronglySorted (key_le working_days) rows →
  StronglySorted (key_le working_days) (insert_row working_days r rows).
Proof.
  induction 1 as [|r' rest Hrest IH Hr']; simpl.
  - repeat constructor.
  - destruct (key_leb _ _) eqn:Hle.
    + constructor; [by constructor|].
      constructor; [done|].
      eapply Forall_impl; [done|]. intros r'' ?. by eapply key_le_trans.
    + constructor; [done|].
      rewrite insert_row_perm. constructor; [|done].
      destruct (key_le_total working_days r r'); [|done].
      unfold key_le in *. congruence.
Qed.

Lemma sort_values_sorted working_days rows :
  StronglySorted (key_le working_days) (sort_values working_days rows).
Proof.
  induction rows as [|r rest IH]; simpl; [constructor|].
  by apply insert_row_sorted.
Qed.

(** Rows with the same key keep the order they had. *)
Lemma insert_row_stable working_days k r rows :
  filter (λ r', sort_key working_days r' = k) (insert_row working_days r rows)
  = filter (λ r', sort_key working_days r' = k) (r :: rows).
Proof.
  induction rows as [|r' rest IH]; simpl; [done|].
  destruct (key_leb _ _) eqn:Hle; [done|].
  rewrite (filter_cons _ r'), IH, !filter_cons.
  destruct (decide (sort_key working_days r' = k)) as [Hr'|];
    destruct (decide (sort_key working_days r = k)) as [Hr|]; try done.
  rewrite (key_le_same_key working_days r r') in Hle; [done | congruence].
Qed.

Lemma sort_values_stable working_days k rows :
  filter (λ r, sort_key working_days r = k) (sort_values working_days rows)
  = filter (λ r, sort_key working_days r = k) rows.
Proof.
  induction rows as [|r rest IH]; simpl; [done|].
  by rewrite insert_row_stable, !filter_cons, IH.
Qed.

(** C9, as the code has it (result ordering). The returned schedule is
    sorted by the key (semester, working-day order, start minute, section,
    course code). The task identifier is no part of the key: unless an input
    check failed, rows with the same key come in the order in which the
    loop placed them. *)
Theorem sorted_by_key_stable shuffle class_components classrooms labs
    working_days start_time_obj end_time_obj :
  returns (generate_schedule_from_components shuffle class_components
             classrooms labs working_days start_time_obj end_time_obj)
    (λ out,
       StronglySorted (key_le working_days) (schedule out) ∧
       ((∃ m, m ∈ messages out ∧ is_error m = true) ∨
        ∀ k, filter (λ r, sort_key working_days r = k) (schedule out)
             = filter (λ r, sort_key working_days r = k)
                 (placement_order shuffle class_components classrooms labs
                    working_days start_time_obj end_time_obj))).
Proof.
  apply generate_returns.
  - intros e He. simpl. split; [constructor|].
    left. exists e. split; [set_solver | done].
  - intros st _ _ Hst. simpl. split; [apply sort_values_sorted|].
    right. intros k. unfold placement_order. rewrite Hst.
    apply sort_values_stable.
Qed.

(** ** The input checks *)

Lemma needs_theory_room_spec class_components :
  needs_theory_room class_components = true ↔
  ∃ c, c ∈ class_components ∧ Component.class_type c = Theory.
Proof.
  unfold needs_theory_room. rewrite existsb_exists.
  split; intros (c & Hc & Htheory); exists c.
  - apply list_elem_of_In in Hc. by apply bool_decide_eq_true in Htheory.
  - apply list_elem_of_In in Hc. by rewrite bool_decide_eq_true.
Qed.

Lemma needs_lab_room_any_spec class_components :
  needs_lab_room_any class_components = true ↔
  ∃ c, c ∈ class_components ∧ Component.class_type c = Lab ∧
       Component.assigned_room c = Some any_available_lab.
Proof.
  unfold needs_lab_room_any. rewrite existsb_exists.
  split.
  - intros (c & Hc & [Hlab Hany]%andb_true_iff). exists c.
    apply list_elem_of_In in Hc.
    by apply bool_decide_eq_true in Hlab, Hany.
  - intros (c & Hc & Hlab & Hany). exists c.
    apply list_elem_of_In in Hc. split; [done|].
    apply andb_true_iff. by rewrite !bool_decide_eq_true.
Qed.

(** C5 (input errors short-circuit). With class components present, when no
    working day is configured, or a Theory component exists and the classroom
    pool is empty, or a Lab component asks for any available lab and the lab
    pool is empty, the call shows one error after its opening warning and
    returns an empty data frame; the placement loop is not entered, so no
    task is placed or reported as unplaced. *)
Theorem input_error_short_circuit shuffle class_components classrooms labs
    working_days start_time_obj end_time_obj :
  class_components ≠ [] →
  working_days = [] ∨
  ((∃ c, c ∈ class_components ∧ Component.class_type c = Theory) ∧
     classrooms = []) ∨
  ((∃ c, c ∈ class_components ∧ Component.class_type c = Lab ∧
         Component.assigned_room c = Some any_available_lab) ∧
     labs = []) →
  ∃ e, is_error e = true ∧
    generate_schedule_from_components shuffle class_components classrooms
      labs working_days start_time_obj end_time_obj
    = Some {| messages := [PlaceholderWarning; e]; schedule := [] |}.
Proof.
  intros Hcomps Hbad.
  destruct (generate_inv shuffle class_components classrooms labs working_days
              start_time_obj end_time_obj)
    as [[_ ->]|[(_ & _ & _ & _ & ->)|[(_ & _ & _ & _ & _ & ->)
       |(_ & Hdays & Hrooms & Hlabs & _)]]];
    [eexists; (split; [|reflexivity]); reflexivity..|].
  rewrite needs_theory_room_spec in Hrooms.
  rewrite needs_lab_room_any_spec in Hlabs.
  destruct Hbad as [?|[[Htheory ?]|[Hlab ?]]]; [done|..].
  - by apply Hrooms in Htheory.
  - by apply Hlabs in Hlab.
Qed.

Lemma choose_room_named classrooms labs t counter day room :
  Task.class_type t = Lab →
  names_specific_room (Task.assigned_room t) = true →
  choose_room classrooms labs t counter day = Some (Some room) →
  Task.assigned_room t = Some room.
Proof.
  unfold choose_room. intros -> ->. by intros [= ->].
Qed.

(** C6, as the code has it (no check of a named room). The call checks its
    input in three ways only: an error is shown exactly when components or
    working days are missing, or a Theory component meets an empty classroom
    pool, or a request for any available lab meets an empty lab pool. The
    lab pool is never searched for a room that a Lab component names: the
    rows of such a component are in the room it names, in the pool or not. *)
Theorem named_room_not_checked shuffle class_components classrooms labs
    working_days start_time_obj end_time_obj :
  is_shuffle shuffle →
  returns (generate_schedule_from_components shuffle class_components
             classrooms labs working_days start_time_obj end_time_obj)
    (λ out,
       ((∃ m, m ∈ messages out ∧ is_error m = true) ↔
        class_components = [] ∨ working_days = [] ∨
        (needs_theory_room class_components = true ∧ classrooms = []) ∨
        (needs_lab_room_any class_components = true ∧ labs = [])) ∧
       (∀ r, r ∈ schedule out →
          ∃ t, t ∈ expand_tasks class_components ∧ row_of_task t r ∧
               (Task.class_type t = Lab →
                names_specific_room (Task.assigned_room t) = true →
                Task.assigned_room t = Some (Room_Lab r)))).
Proof.
  intros Hshuffle.
  destruct (generate_inv shuffle class_components classrooms labs working_days
              start_time_obj end_time_obj)
    as [[Hmissing ->]|[(_ & _ & Htheory & Hrooms & ->)
       |[(_ & _ & _ & Hlab & Hlabs & ->)
       |(Hcomps & Hdays & Hrooms & Hlabs & st & Hst & ->)]]];
    eexists; (split; [done|]); simpl.
  - split; [|by intros r ?%elem_of_nil]. split.
    + intros _. destruct Hmissing; auto.
    + intros _. exists ErrMissingInput. split; [|done]. repeat constructor.
  - split; [|by intros r ?%elem_of_nil]. split.
    + intros _. auto.
    + intros _. exists ErrNoClassrooms. split; [|done]. repeat constructor.
  - split; [|by intros r ?%elem_of_nil]. split.
    + intros _. auto 6.
    + intros _. exists ErrNoLabs. split; [|done]. repeat constructor.
  - split.
    + split.
      * intros (m & Hm & Herr). exfalso.
        apply place_tasks_shown in Hst as (warnings & Hshown & Hall & _).
        rewrite Hshown in Hm. simpl in Hm.
        rewrite Forall_forall in Hall.
        apply elem_of_cons in Hm as [->|Hm]; [done|].
        apply elem_of_app in Hm as [Hm%Hall|Hm]; [by destruct m|].
        destruct (list_truthy (schedule_entries st));
          [by apply elem_of_nil in Hm|].
        by apply list_elem_of_singleton in Hm as ->.
      * intros [?|[?|[[Htheory ?]|[Hlab ?]]]]; [done|done|..].
        -- by apply Hrooms in Htheory.
        -- by apply Hlabs in Hlab.
    + intros r Hr%elem_of_sort_values.
      pose proof (place_tasks_rows_justified _ _ _ _ _ _ _ _
                    (initial_state_rows_justified _ _ _ _ _ _) Hst) as Hrows.
      destruct (Hrows r Hr) as (t & counter & Ht & Hrow & _ & _ & Hroom).
      exists t. apply is_shuffle_elem_of in Ht; [|done].
      split_and!; [done..|]. intros. by eapply choose_room_named.
Qed.

(** * Examples *)

Lemma in_order_is_shuffle : is_shuffle in_order.
Proof. by intros tasks. Qed.

Lemma reversed_is_shuffle : is_shuffle reversed.
Proof. intros tasks. symmetry. apply Permutation_rev. Qed.

(** Scenario A of the specification: one lecture, one classroom, one day. *)
Example scenario_A :
  generate_schedule_from_components in_order
    [lecture "c1" "CSE101" ["A"] 1 50] ["C101"] [] ["Mon"] at_8_00 at_17_00
  = Some {| messages := [PlaceholderWarning];
            schedule :=
              [{| Day := "Mon"; Time_Slot := "08:00-08:50";
                  Start_Minute := 480; End_Minute := 530;
                  Semester := "Spring"; Section_ := "A";
                  Course_Code := "CSE101"; Component_Title := "Lecture";
                  Room_Lab := "C101"; Type_ := Theory;
                  Component_ID := "c1_A_0" |}] |}.
Proof. vm_compute. reflexivity. Qed.

(** C1, counterexample. One classroom, one day, a window of an hour and
    three sections with a 50-minute lecture each: the first lecture is
    placed at 08:00, the second overflows the window and resets the cursor,
    the third is placed at 08:00 again, in the same classroom. *)
Lemma room_double_booked :
  ∃ out,
    generate_schedule_from_components in_order
      [lecture "c1" "CSE101" ["A"; "B"; "C"] 1 50]
      ["C101"] [] ["Mon"] at_8_00 at_9_00 = Some out ∧
    ¬ room_exclusive (schedule out).
Proof.
  eexists. split; [vm_compute; reflexivity|].
  intros Hexclusive.
  eapply (Hexclusive 0%nat 1%nat); [done|reflexivity..|].
  split; simpl; lia.
Qed.

(** C2, counterexample. Two lectures of 50 and 30 minutes: with the tasks
    in order the first starts at 08:00 and the second at 08:55; with the
    tasks reversed the second starts at 08:00 and the first at 08:35. *)
Lemma shuffle_changes_schedule :
  is_shuffle in_order ∧ is_shuffle reversed ∧
  generate_schedule_from_components in_order
    [lecture "c1" "CSE101" ["A"] 1 50; lecture "c2" "CSE102" ["A"] 1 30]
    ["C101"] [] ["Mon"] at_8_00 at_17_00
  ≠ generate_schedule_from_components reversed
      [lecture "c1" "CSE101" ["A"] 1 50; lecture "c2" "CSE102" ["A"] 1 30]
      ["C101"] [] ["Mon"] at_8_00 at_17_00.
Proof.
  split; [apply in_order_is_shuffle|].
  split; [apply reversed_is_shuffle|].
  vm_compute. discriminate.
Qed.

(** C6, counterexample. A lab session asks for room L501 while the lab pool
    holds L101 only: no error is shown and the session is placed in L501. *)
Lemma unknown_lab_is_scheduled :
  ∃ out r,
    generate_schedule_from_components in_order
      [lab_session "p1" "PHY110" ["A"] 1 120 "L501"]
      [] ["L101"] ["Mon"] at_8_00 at_17_00 = Some out ∧
    ("L501" ∉ ["L101"]) ∧
    (∀ m, m ∈ messages out → is_error m = false) ∧
    schedule out = [r] ∧ Component_ID r = "p1_A_0" ∧ Room_Lab r = "L501".
Proof.
  eexists _, _. split; [vm_compute; reflexivity|].
  split_and!; [|
    |reflexivity..].
  - by intros ?%list_elem_of_singleton.
  - simpl. by intros m ->%list_elem_of_singleton.
Qed.


(** C9, counterexample. Three weekly sessions of one lecture in a window of
    an hour: sessions 0 and 2 are placed, both on Monday at 08:00, and have
    the same key. With the tasks reversed session 2 is placed first and comes
    first in the data frame; with the tasks in order it comes last. *)
Lemma ties_keep_placement_order :
  ∃ out out',
    generate_schedule_from_components reversed
      [lecture "c1" "CSE101" ["A"] 3 50]
      ["C101"] [] ["Mon"] at_8_00 at_9_00 = Some out ∧
    generate_schedule_from_components in_order
      [lecture "c1" "CSE101" ["A"] 3 50]
      ["C101"] [] ["Mon"] at_8_00 at_9_00 = Some out' ∧
    Component_ID <$> schedule out = ["c1_A_2"; "c1_A_0"] ∧
    Component_ID <$> schedule out' = ["c1_A_0"; "c1_A_2"] ∧
    schedule out ≡ₚ schedule out' ∧
    ¬ ties_broken_by_task_id ["Mon"] (schedule out).
Proof.
  eexists _, _. split; [vm_compute; reflexivity|].
  split; [vm_compute; reflexivity|].
  split_and!; [reflexivity..| |].
  - simpl. apply Permutation_swap.
  - intros Hties.
    by eapply (Hties 0%nat 1%nat); [lia|reflexivity..|vm_compute].
Qed.

(** ** Partial infeasibility *)

Lemma choose_room_truthy classrooms labs t counter day room :
  room_available classrooms labs (Task.class_type t) (Task.assigned_room t) →
  choose_room classrooms labs t counter day = Some room →
  truthy_opt room = true.
Proof.
  unfold choose_room, room_available. intros Havail Hroom.
  assert (∀ pool : list string, "" ∉ pool →
    (c ← counter !! day; i ← py_mod c (len pool);
     r ← list_getitem pool i; Some (Some r)) = Some room →
    truthy_opt room = true) as Hpool.
  { intros pool Hpool Hpick.
    destruct (counter !! day) as [c|]; simpl in Hpick; [|done].
    destruct (py_mod c (len pool)) as [i|]; simpl in Hpick; [|done].
    destruct (list_getitem pool i) as [r|] eqn:Hr; simpl in Hpick; [|done].
    injection Hpick as <-. simpl. apply truthy_spec.
    intros ->. by apply list_getitem_elem_of in Hr. }
  destruct (Task.class_type t).
  - destruct Havail as [Hne Hempty].
    apply list_truthy_spec in Hne. rewrite Hne in Hroom. eauto.
  - destruct (names_specific_room (Task.assigned_room t)) eqn:Hnamed.
    + injection Hroom as <-.
      unfold names_specific_room in Hnamed.
      by apply andb_true_iff in Hnamed as [? _].
    + destruct Havail as [?|[Hne Hempty]]; [done|].
      apply list_truthy_spec in Hne. rewrite Hne in Hroom. eauto.
Qed.






(** ** The theorems at concrete inputs *)

Lemma two_lectures_duration c :
  c ∈ two_lectures → 0 ≤ Component.duration_minutes c.
Proof. intros Hc. unfold two_lectures in Hc. members Hc; simpl; lia. Defined.

Lemma lectures_of_section_A_duration c :
  c ∈ lectures_of_section_A → 0 ≤ Component.duration_minutes c.
Proof.
  intros Hc. unfold lectures_of_section_A in Hc. members Hc; simpl; lia.
Qed.

(** One day and one classroom: both lectures are placed on Monday in C101,
    from 08:00 to 08:50 and from 08:55 to 09:45. *)
Example one_room_one_day :
  (λ r, (Day r, Room_Lab r, Start_Minute r, End_Minute r))
    <$> default []
          (schedule
             <$> generate_schedule_from_components reversed
                   lectures_of_section_A ["C101"] [] ["Mon"]
                   at_8_00 at_17_00)
  = [("Mon", "C101", 480, 530); ("Mon", "C101", 535, 585)].
Proof. vm_compute. reflexivity. Qed.

Lemma room_exclusivity_without_overflow_witness :
  returns (generate_schedule_from_components reversed lectures_of_section_A
             ["C101"] [] ["Mon"] at_8_00 at_17_00)
    (λ out, room_exclusive (schedule out)).
Proof.
  apply (room_exclusivity_without_overflow reversed lectures_of_section_A
           ["C101"] [] ["Mon"] at_8_00 at_17_00).
  - apply reversed_is_shuffle.
  - apply lectures_of_section_A_duration.
  - vm_compute. reflexivity.
Defined.

Lemma window_containment_witness :
  returns (generate_schedule_from_components reversed two_lectures
             ["C101"] [] ["Mon"] at_8_00 at_9_00)
    (λ out, ∀ r, r ∈ schedule out →
       ∃ t, t ∈ expand_tasks two_lectures ∧ row_of_task t r ∧
         time_to_minutes at_8_00 ≤ Start_Minute r ∧
         Start_Minute r + Task.duration_minutes t ≤ time_to_minutes at_9_00).
Proof.
  apply (window_containment reversed two_lectures ["C101"] [] ["Mon"]
           at_8_00 at_9_00).
  - apply reversed_is_shuffle.
  - apply two_lectures_duration.
Defined.


Lemma input_error_short_circuit_witness :
  ∃ e, is_error e = true ∧
    generate_schedule_from_components in_order two_lectures ["C101"] [] []
      at_8_00 at_17_00
    = Some {| messages := [PlaceholderWarning; e]; schedule := [] |}.
Proof.
  apply (input_error_short_circuit in_order two_lectures ["C101"] [] []
           at_8_00 at_17_00).
  - discriminate.
  - left. reflexivity.
Defined.

Lemma named_room_not_checked_witness :
  returns (generate_schedule_from_components in_order
             [lab_session "p1" "PHY110" ["A"] 1 120 "L501"]
             [] ["L101"] ["Mon"] at_8_00 at_17_00)
    (λ out,
       ((∃ m, m ∈ messages out ∧ is_error m = true) ↔
        [lab_session "p1" "PHY110" ["A"] 1 120 "L501"] = [] ∨
        ["Mon"] = @nil string ∨
        (needs_theory_room [lab_session "p1" "PHY110" ["A"] 1 120 "L501"]
         = true ∧ @nil string = []) ∨
        (needs_lab_room_any [lab_session "p1" "PHY110" ["A"] 1 120 "L501"]
         = true ∧ ["L101"] = @nil string)) ∧
       (∀ r, r ∈ schedule out →
          ∃ t, t ∈ expand_tasks [lab_session "p1" "PHY110" ["A"] 1 120 "L501"] ∧
               row_of_task t r ∧
               (Task.class_type t = Lab →
                names_specific_room (Task.assigned_room t) = true →
                Task.assigned_room t = Some (Room_Lab r)))).
Proof.
  apply (named_room_not_checked in_order
           [lab_session "p1" "PHY110" ["A"] 1 120 "L501"]
           [] ["L101"] ["Mon"] at_8_00 at_17_00).
  apply in_order_is_shuffle.
Defined.

Lemma eligibility_witness :
  returns (generate_schedule_from_components in_order
             [lecture "c1" "CSE101" ["A"] 2 50;
              lab_session "p1" "PHY110" ["A"] 1 120 "L101"]
             ["C101"] ["L101"; "L102"] ["Mon"; "Tue"] at_8_00 at_17_00)
    (λ out, ∀ r, r ∈ schedule out →
       ∃ t, t ∈ expand_tasks
                  [lecture "c1" "CSE101" ["A"] 2 50;
                   lab_session "p1" "PHY110" ["A"] 1 120 "L101"] ∧
            row_of_task t r ∧
            eligible ["C101"] ["L101"; "L102"] t (Room_Lab r)).
Proof.
  apply (eligibility in_order
           [lecture "c1" "CSE101" ["A"] 2 50;
            lab_session "p1" "PHY110" ["A"] 1 120 "L101"]
           ["C101"] ["L101"; "L102"] ["Mon"; "Tue"] at_8_00 at_17_00).
  - apply in_order_is_shuffle.
  - intros c name Hc Hlab _ Hname. members Hc; [done|].
    simpl in Hname. injection Hname as <-. apply list_elem_of_here.
Defined.

Lemma at_most_one_row_per_task_witness :
  returns (generate_schedule_from_components reversed
             [lecture "c1" "CSE101" ["A"; "B"; "C"] 1 50]
             ["C101"] [] ["Mon"] at_8_00 at_9_00)
    (λ out,
       (∀ tid, rows_of_id tid (schedule out)
               ≤ tasks_of_id tid
                   (expand_tasks [lecture "c1" "CSE101" ["A"; "B"; "C"] 1 50]))%nat ∧
       (∀ t, tasks_of_id (Task.task_id t)
               (expand_tasks [lecture "c1" "CSE101" ["A"; "B"; "C"] 1 50])
             = 1%nat →
             rows_of_id (Task.task_id t) (schedule out) ≤ 1)%nat).
Proof.
  apply (at_most_one_row_per_task reversed
           [lecture "c1" "CSE101" ["A"; "B"; "C"] 1 50]
           ["C101"] [] ["Mon"] at_8_00 at_9_00).
  apply reversed_is_shuffle.
Defined.

(** * The helper functions *)

(** ** Minutes and times of day *)

Lemma time_to_minutes_range t :
  valid_time t → 0 ≤ time_to_minutes (Some t) < 1440.
Proof. unfold valid_time. simpl. lia. Qed.

(** X1. Converting a time of day to minutes and back gives the time's hour
    and minute again. *)
Theorem minutes_to_time_of_time t :
  valid_time t → minutes_to_time (time_to_minutes (Some t)) = Some t.
Proof.
  intros [Hh Hm]. destruct t as [h m]. simpl in *.
  unfold minutes_to_time, datetime_time.
  assert ((h * 60 + m) `div` 60 = h) as ->
    by (symmetry; apply Z.div_unique with m; lia).
  assert ((h * 60 + m) `mod` 60 = m) as ->
    by (symmetry; apply Z.mod_unique with h; lia).
  rewrite bool_decide_eq_true_2 by lia.
  f_equal. f_equal; lia.
Qed.

(** X2. [minutes_to_time] never raises: out of the day the hour is clamped
    to 0 or 23 while the minute keeps the remainder. So converting minutes
    to a time and back gives the minutes again exactly when they are within
    the day. *)
Theorem minutes_to_time_round_trip total_minutes :
  ∃ t, minutes_to_time total_minutes = Some t ∧ valid_time t ∧
       minute t = total_minutes `mod` 60 ∧
       (total_minutes < 0 → hour t = 0) ∧
       (1440 ≤ total_minutes → hour t = 23) ∧
       (time_to_minutes (Some t) = total_minutes ↔ 0 ≤ total_minutes < 1440).
Proof.
  unfold minutes_to_time, datetime_time.
  pose proof (Z.mod_pos_bound total_minutes 60 ltac:(lia)) as Hmod.
  pose proof (Z.div_mod total_minutes 60 ltac:(lia)) as Hdiv.
  rewrite bool_decide_eq_true_2 by lia.
  eexists. split; [done|]. unfold valid_time. simpl.
  split_and!; lia.
Qed.

(** ** Splitting and reading strings *)

Lemma length_str_split sep s :
  length (str_split sep s) = S (count_char sep s).
Proof.
  induction s as [|c rest IH]; simpl; [done|].
  destruct (Ascii.eqb c sep); simpl; [by rewrite IH|].
  destruct (str_split sep rest); simpl in *; lia.
Qed.

Lemma str_split_none sep s : count_char sep s = 0%nat → str_split sep s = [s].
Proof.
  induction s as [|c rest IH]; simpl; [done|].
  destruct (Ascii.eqb c sep); [done|]. intros Hrest. by rewrite IH.
Qed.

Lemma str_split_app sep a b :
  count_char sep a = 0%nat →
  str_split sep (a +:+ String sep b) = a :: str_split sep b.
Proof.
  induction a as [|c rest IH]; simpl.
  - intros _. by rewrite Ascii.eqb_refl.
  - destruct (Ascii.eqb c sep); [done|]. intros Hrest. by rewrite IH.
Qed.

Lemma count_char_app c a b :
  count_char c (a +:+ b) = (count_char c a + count_char c b)%nat.
Proof.
  induction a as [|c' rest IH]; simpl; [done|].
  destruct (Ascii.eqb c' c); simpl; by rewrite IH.
Qed.

Lemma digits_only_count c s :
  digits_only s = true → digit_value c = None → count_char c s = 0%nat.
Proof.
  intros Hs Hc. induction s as [|c' rest IH]; simpl in *; [done|].
  apply andb_true_iff in Hs as [Hc' Hrest].
  destruct (Ascii.eqb_spec c' c) as [->|_]; [|auto].
  apply bool_decide_eq_true in Hc'. rewrite Hc in Hc'. by destruct Hc'.
Qed.

Lemma digits_only_app a b :
  digits_only (a +:+ b) = digits_only a && digits_only b.
Proof.
  induction a as [|c rest IH]; simpl; [done|].
  by rewrite IH, andb_assoc.
Qed.

Lemma digit_value_pretty_N_char x :
  (x < 10)%N → digit_value (pretty_N_char x) = Some (Z.of_N x).
Proof.
  intros Hx.
  assert (x = 0 ∨ x = 1 ∨ x = 2 ∨ x = 3 ∨ x = 4 ∨ x = 5 ∨ x = 6 ∨ x = 7
          ∨ x = 8 ∨ x = 9)%N as Hcases by lia.
  repeat (destruct Hcases as [->|Hcases]; [done|]). by subst.
Qed.

Lemma digits_only_pretty_N_go x s :
  digits_only s = true → digits_only (pretty_N_go x s) = true.
Proof.
  revert s. induction (N.lt_wf_0 x) as [x _ IH]; intros s Hs.
  destruct (decide (x = 0)%N) as [->|Hx]; [by rewrite pretty_N_go_0|].
  rewrite pretty_N_go_step by lia. apply IH; [apply N.div_lt; lia|].
  simpl. rewrite Hs, andb_true_r. apply bool_decide_eq_true.
  rewrite digit_value_pretty_N_char; [done|]. apply N.mod_lt. lia.
Qed.

Lemma pretty_N_go_nonempty x s :
  s ≠ EmptyString → pretty_N_go x s ≠ EmptyString.
Proof.
  revert s. induction (N.lt_wf_0 x) as [x _ IH]; intros s Hs.
  destruct (decide (x = 0)%N) as [->|Hx]; [by rewrite pretty_N_go_0|].
  rewrite pretty_N_go_step by lia. apply IH; [apply N.div_lt; lia|done].
Qed.

(** Reading the digits of [x] multiplies what was read before by a power
    of ten and adds [x]. *)
Lemma read_digits_pretty_N_go x :
  ∃ scale, ∀ acc s,
    read_digits acc (pretty_N_go x s)
    = read_digits (acc * scale + Z.of_N x) s.
Proof.
  induction (N.lt_wf_0 x) as [x _ IH].
  destruct (decide (x = 0)%N) as [->|Hx].
  - exists 1. intros acc s. rewrite pretty_N_go_0. f_equal. lia.
  - destruct (IH (x `div` 10)%N) as [scale Hscale]; [apply N.div_lt; lia|].
    exists (scale * 10). intros acc s.
    rewrite pretty_N_go_step, Hscale by lia. simpl.
    rewrite digit_value_pretty_N_char by (apply N.mod_lt; lia). simpl.
    f_equal. rewrite N2Z.inj_div, N2Z.inj_mod.
    pose proof (Z.div_mod (Z.of_N x) 10 ltac:(lia)). simpl in *. lia.
Qed.

Lemma pretty_Z_digits n :
  0 ≤ n →
  pretty n ≠ EmptyString ∧ digits_only (pretty n) = true ∧
  read_digits 0 (pretty n) = Some n.
Proof.
  intros Hn. destruct n as [|p|p]; [done| |lia].
  unfold pretty, pretty_Z, pretty, pretty_positive, pretty, pretty_N.
  rewrite decide_False by done.
  destruct (read_digits_pretty_N_go (N.pos p)) as [scale Hscale].
  split_and!.
  - rewrite pretty_N_go_step by lia. by apply pretty_N_go_nonempty.
  - by apply digits_only_pretty_N_go.
  - rewrite Hscale. simpl. done.
Qed.

Lemma fmt_02d_digits n : 0 ≤ n → digits_only (fmt_02d n) = true.
Proof.
  intros Hn. destruct (pretty_Z_digits n Hn) as (_ & Hdigits & _).
  unfold fmt_02d. case_bool_decide; [|done].
  by rewrite digits_only_app, Hdigits.
Qed.

(** The reader of ASCII decimal digits reads back what [{n:02d}] wrote. *)
Lemma read_decimal_fmt_02d : reads_decimal read_decimal.
Proof.
  intros n Hn. destruct (pretty_Z_digits n Hn) as (Hne & _ & Hread).
  unfold fmt_02d. case_bool_decide.
  - change (read_digits 0 (pretty n) = Some n). done.
  - unfold read_decimal. by destruct (pretty n).
Qed.

Lemma string_app_assoc a b c : (a +:+ b) +:+ c = a +:+ b +:+ c.
Proof.
  induction a as [|x a IH]; [done|].
  change (String x ((a +:+ b) +:+ c) = String x (a +:+ b +:+ c)).
  by rewrite IH.
Qed.

Lemma fmt_02d_count c n :
  0 ≤ n → digit_value c = None → count_char c (fmt_02d n) = 0%nat.
Proof. intros. apply digits_only_count; [by apply fmt_02d_digits|done]. Qed.

Lemma fmt_02d_negative n : n < 0 → ∃ rest, fmt_02d n = String "-" rest.
Proof.
  intros Hn. destruct n as [|p|p]; [lia..|].
  destruct (pretty_Z_digits (Z.pos p) ltac:(lia)) as (Hne & _ & _).
  unfold fmt_02d.
  change (pretty (Z.neg p)) with (String "-" (pretty (Z.pos p))).
  destruct (pretty (Z.pos p)) as [|c rest]; [done|].
  rewrite bool_decide_eq_false_2 by (simpl; lia). eauto.
Qed.

Lemma parse_hh_mm_fmt py_int h m :
  reads_decimal py_int → 0 ≤ h → 0 ≤ m →
  parse_hh_mm py_int (fmt_02d h +:+ ":" +:+ fmt_02d m) = Some (h, m).
Proof.
  intros Hint Hh Hm. unfold parse_hh_mm.
  change (":" +:+ fmt_02d m) with (String ":" (fmt_02d m)).
  rewrite str_split_app by (by apply fmt_02d_count).
  rewrite str_split_none by (by apply fmt_02d_count).
  by rewrite !Hint.
Qed.

(** [parse_time_slot] reads back what [format_time_slot] wrote. *)
Lemma parse_time_slot_format py_int start_minute duration_minute :
  reads_decimal py_int →
  0 ≤ start_minute → 0 ≤ start_minute + duration_minute →
  parse_time_slot py_int (format_time_slot start_minute duration_minute)
  = Some (start_minute, start_minute + duration_minute).
Proof.
  intros Hint Hstart Hend. unfold format_time_slot, parse_time_slot.
  set (end_minute := start_minute + duration_minute) in *.
  pose proof (Z.mod_pos_bound start_minute 60 ltac:(lia)).
  pose proof (Z.mod_pos_bound end_minute 60 ltac:(lia)).
  pose proof (Z.div_pos start_minute 60 Hstart ltac:(lia)).
  pose proof (Z.div_pos end_minute 60 Hend ltac:(lia)).
  pose proof (Z.div_mod start_minute 60 ltac:(lia)).
  pose proof (Z.div_mod end_minute 60 ltac:(lia)).
  set (start_str := fmt_02d (start_minute `div` 60) +:+ ":" +:+
                    fmt_02d (start_minute `mod` 60)).
  set (end_str := fmt_02d (end_minute `div` 60) +:+ ":" +:+
                  fmt_02d (end_minute `mod` 60)).
  assert (fmt_02d (start_minute `div` 60) +:+ ":" +:+
          fmt_02d (start_minute `mod` 60) +:+ "-" +:+ end_str
          = start_str +:+ String "-" end_str) as ->.
  { unfold start_str. by rewrite !string_app_assoc. }
  assert (∀ h m, 0 ≤ h → 0 ≤ m →
            count_char "-" (fmt_02d h +:+ ":" +:+ fmt_02d m) = 0%nat)
    as Hdash.
  { intros h m Hh Hm. rewrite !count_char_app.
    by rewrite !fmt_02d_count. }
  rewrite str_split_app, str_split_none by (apply Hdash; lia).
  unfold start_str, end_str. rewrite !parse_hh_mm_fmt by (done || lia).
  simpl. f_equal. f_equal; lia.
Qed.

(** X3. A time slot written by [format_time_slot] for a start and an end
    that are not negative is read back by [parse_time_slot] as that start
    and that end. *)
Theorem parse_format_time_slot py_int start_minute duration_minute :
  reads_decimal py_int →
  0 ≤ start_minute → 0 ≤ start_minute + duration_minute →
  parse_time_slot py_int (format_time_slot start_minute duration_minute)
  = Some (start_minute, start_minute + duration_minute).
Proof. apply parse_time_slot_format. Qed.

(** X4. A time slot whose start or end is negative is written with a minus
    sign, which is the separator of the two times as well: the string has
    more than two fields and [parse_time_slot] returns its pair of [None],
    whatever [int] does. *)
Theorem parse_format_negative py_int start_minute duration_minute :
  start_minute < 0 ∨ start_minute + duration_minute < 0 →
  parse_time_slot py_int (format_time_slot start_minute duration_minute)
  = None.
Proof.
  intros Hneg. unfold parse_time_slot.
  assert (2 ≤ count_char "-"
                (format_time_slot start_minute duration_minute))%nat as Hcount.
  { unfold format_time_slot. rewrite !count_char_app.
    change (count_char "-" "-") with 1%nat.
    destruct Hneg as [Hneg|Hneg].
    - destruct (fmt_02d_negative (start_minute `div` 60)) as [rest ->].
      { apply Z.div_lt_upper_bound; lia. }
      simpl. lia.
    - destruct (fmt_02d_negative
                  ((start_minute + duration_minute) `div` 60)) as [rest ->].
      { apply Z.div_lt_upper_bound; lia. }
      simpl. lia. }
  pose proof (length_str_split "-"
                (format_time_slot start_minute duration_minute)) as Hlen.
  destruct (str_split _ _) as [|a [|b [|c rest]]]; simpl in Hlen; try done; lia.
Qed.

(** * More properties of the generator *)

(** ** The button and the input checks *)

Lemma pre_generation_checks_ready class_components working_days_config
    classrooms labs :
  let checks := pre_generation_checks class_components working_days_config
                  classrooms labs in
  checks.1 =
    list_truthy class_components && list_truthy working_days_config &&
    negb (needs_theory_room class_components && negb (list_truthy classrooms)) &&
    negb (needs_lab_room_any class_components && negb (list_truthy labs)) ∧
  (checks.1 = true ↔ checks.2 = []).
Proof.
  unfold pre_generation_checks.
  destruct (list_truthy class_components), (list_truthy working_days_config),
    (needs_theory_room class_components), (list_truthy classrooms),
    (needs_lab_room_any class_components), (list_truthy labs);
    simpl; split; done.
Qed.

(** The flag of the third tab and the input checks of the generator
    agree. *)
Lemma generate_ready shuffle class_components classrooms labs
    working_days start_time_obj end_time_obj :
  returns (generate_schedule_from_components shuffle class_components
             classrooms labs working_days start_time_obj end_time_obj)
    (λ out,
       let checks := pre_generation_checks class_components working_days
                       classrooms labs in
       (checks.1 = true ↔ ∀ m, m ∈ messages out → is_error m = false) ∧
       (checks.1 = true ↔ checks.2 = [])).
Proof.
  destruct (pre_generation_checks_ready class_components working_days
              classrooms labs) as [Hready Hwarnings].
  destruct (generate_inv shuffle class_components classrooms labs working_days
              start_time_obj end_time_obj)
    as [[Hmissing ->]|[(Hcomps & Hdays & Htheory & Hrooms & ->)
       |[(Hcomps & Hdays & _ & Hlab & Hlabs & ->)
       |(Hcomps & Hdays & Hrooms & Hlabs & st & Hst & ->)]]];
    eexists; (split; [done|]); simpl; (split; [|done]); rewrite Hready.
  - split.
    + intros Htrue. exfalso.
      destruct Hmissing as [-> | ->]; simpl in Htrue; [done|].
      by rewrite andb_false_r in Htrue.
    + intros Hmsgs. specialize (Hmsgs ErrMissingInput). simpl in Hmsgs.
      discriminate Hmsgs. repeat constructor.
  - split.
    + rewrite Htheory, Hrooms. simpl. by rewrite andb_false_r.
    + intros Hmsgs. specialize (Hmsgs ErrNoClassrooms). simpl in Hmsgs.
      discriminate Hmsgs. repeat constructor.
  - split.
    + rewrite Hlab, Hlabs. simpl. by rewrite andb_false_r.
    + intros Hmsgs. specialize (Hmsgs ErrNoLabs). simpl in Hmsgs.
      discriminate Hmsgs. repeat constructor.
  - apply list_truthy_spec in Hcomps, Hdays. rewrite Hcomps, Hdays. simpl.
    split.
    + intros _ m Hm.
      apply place_tasks_shown in Hst as (warnings & Hshown & Hall & _).
      rewrite Hshown in Hm. simpl in Hm. rewrite Forall_forall in Hall.
      apply elem_of_cons in Hm as [->|Hm]; [done|].
      apply elem_of_app in Hm as [Hm%Hall|Hm]; [by destruct m|].
      destruct (list_truthy (schedule_entries st));
        [by apply elem_of_nil in Hm|].
      by apply list_elem_of_singleton in Hm as ->.
    + intros _. apply andb_true_iff. split; apply negb_true_iff.
      * destruct (needs_theory_room class_components); [|done].
        simpl. apply negb_false_iff, list_truthy_spec. by apply Hrooms.
      * destruct (needs_lab_room_any class_components); [|done].
        simpl. apply negb_false_iff, list_truthy_spec. by apply Hlabs.
Qed.

(** X5. The button that calls the generator is enabled exactly when the
    generator, called on the same catalog, stops at none of its input
    checks; and it is enabled exactly when no warning is listed under
    it. *)
Theorem ready_iff_no_input_error shuffle class_components classrooms labs
    working_days start_time_obj end_time_obj :
  returns (generate_schedule_from_components shuffle class_components
             classrooms labs working_days start_time_obj end_time_obj)
    (λ out,
       let checks := pre_generation_checks class_components working_days
                       classrooms labs in
       (checks.1 = true ↔ ∀ m, m ∈ messages out → is_error m = false) ∧
       (checks.1 = true ↔ checks.2 = [])).
Proof. apply generate_ready. Qed.

(** ** Sections and days *)

Lemma day_exclusive_section_exclusive rows :
  day_exclusive rows → section_exclusive rows.
Proof. intros H i j r1 r2 Hij Hi Hj _ _. by apply (H i j). Qed.

(** Without overflow no two rows of a day overlap. *)
Lemma generate_day_exclusive shuffle class_components
    classrooms labs working_days start_time_obj end_time_obj :
  is_shuffle shuffle →
  (∀ c, c ∈ class_components → 0 ≤ Component.duration_minutes c) →
  all_fit classrooms labs working_days
    (time_to_minutes start_time_obj) (time_to_minutes end_time_obj)
    (shuffle (expand_tasks class_components))
    (initial_state working_days (time_to_minutes start_time_obj)) = true →
  returns (generate_schedule_from_components shuffle class_components
             classrooms labs working_days start_time_obj end_time_obj)
    (λ out, day_exclusive (schedule out) ∧ section_exclusive (schedule out)).
Proof.
  intros Hshuffle Hdur Hfit. apply generate_returns.
  - intros e _. split; intros i j r1 r2 _ Hi; done.
  - intros st _ _ Hst. simpl.
    assert (day_exclusive (sort_values working_days (schedule_entries st)))
      as Hdays; [|by auto using day_exclusive_section_exclusive].
    apply (day_exclusive_perm (schedule_entries st));
      [by rewrite sort_values_perm|].
    apply ForallOrdPairs_pairwise; [apply _|].
    eapply all_fit_packed; [|done..|apply initial_state_packed].
    intros t Ht. eapply expand_tasks_duration; eauto using is_shuffle_elem_of.
Qed.

(** X6. Provided no component has a negative duration, in a run in which
    every slot tried ends within the daily window no two rows of one day
    overlap, whatever their rooms and sections; in particular no section of
    a semester has two sessions at once. *)
Theorem section_exclusivity_without_overflow shuffle class_components
    classrooms labs working_days start_time_obj end_time_obj :
  is_shuffle shuffle →
  (∀ c, c ∈ class_components → 0 ≤ Component.duration_minutes c) →
  all_fit classrooms labs working_days
    (time_to_minutes start_time_obj) (time_to_minutes end_time_obj)
    (shuffle (expand_tasks class_components))
    (initial_state working_days (time_to_minutes start_time_obj)) = true →
  returns (generate_schedule_from_components shuffle class_components
             classrooms labs working_days start_time_obj end_time_obj)
    (λ out, day_exclusive (schedule out) ∧ section_exclusive (schedule out)).
Proof. apply generate_day_exclusive. Qed.

(** ** The column of time slots *)

Lemma place_tasks_time_slots classrooms labs working_days start_minutes_val
    end_minutes_val tasks st st' :
  time_slots_formatted st →
  place_tasks classrooms labs working_days start_minutes_val end_minutes_val
    tasks st = Some st' →
  time_slots_formatted st'.
Proof.
  apply (place_tasks_invariant _ _ _ _ _ time_slots_formatted); [|done].
  intros task s s' broke _ Hinv Hres r Hr.
  destruct Hres; simpl in Hr; auto.
  apply elem_of_app in Hr as [Hr|Hr]; [auto|].
  apply list_elem_of_singleton in Hr as ->. simpl. f_equal. lia.
Qed.

(** The time slots of the rows are read back as their minutes. *)
Lemma generate_time_slots py_int shuffle class_components classrooms labs
    working_days start_time_obj end_time_obj :
  reads_decimal py_int →
  is_shuffle shuffle →
  (∀ c, c ∈ class_components → 0 ≤ Component.duration_minutes c) →
  0 ≤ time_to_minutes start_time_obj →
  returns (generate_schedule_from_components shuffle class_components
             classrooms labs working_days start_time_obj end_time_obj)
    (λ out, ∀ r, r ∈ schedule out →
       Time_Slot r
       = format_time_slot (Start_Minute r) (End_Minute r - Start_Minute r) ∧
       parse_time_slot py_int (Time_Slot r)
       = Some (Start_Minute r, End_Minute r)).
Proof.
  intros Hint Hshuffle Hdur Hstart. apply generate_returns.
  - intros e _ r Hr. simpl in Hr. by apply elem_of_nil in Hr.
  - intros st _ _ Hst r Hr. simpl in Hr. apply elem_of_sort_values in Hr.
    assert (time_slots_formatted st) as Hslots.
    { eapply place_tasks_time_slots; [|done].
      intros r' Hr'. simpl in Hr'. by apply elem_of_nil in Hr'. }
    pose proof (place_tasks_rows_justified _ _ _ _ _ _ _ _
                  (initial_state_rows_justified _ _ _ _ _ _) Hst) as Hrows.
    assert (∀ t, t ∈ shuffle (expand_tasks class_components) →
                 0 ≤ Task.duration_minutes t) as Hdur'.
    { intros t Ht. eapply expand_tasks_duration;
        eauto using is_shuffle_elem_of. }
    pose proof (place_tasks_starts_in_window _ _ _ _ _ _ _ _ Hdur'
                  (initial_state_starts_in_window _ _) Hst) as [_ Hwindow].
    destruct (Hrows r Hr) as (t & _ & Ht & Hrow & _).
    destruct Hrow as (_ & _ & _ & _ & _ & _ & Hlen).
    specialize (Hdur' t Ht). specialize (Hwindow r Hr).
    split; [by apply Hslots|]. rewrite (Hslots r Hr).
    rewrite parse_time_slot_format; [|done|lia..].
    do 2 f_equal. lia.
Qed.

(** X7. Provided durations and the start of the window are not negative,
    the text in the column of time slots of every returned row, read by
    [parse_time_slot], gives the row's start and end minute: sorting time
    slots by what [parse_time_slot] reads sorts them by start minute. *)
Theorem time_slot_reads_back py_int shuffle class_components classrooms labs
    working_days start_time_obj end_time_obj :
  reads_decimal py_int →
  is_shuffle shuffle →
  (∀ c, c ∈ class_components → 0 ≤ Component.duration_minutes c) →
  0 ≤ time_to_minutes start_time_obj →
  returns (generate_schedule_from_components shuffle class_components
             classrooms labs working_days start_time_obj end_time_obj)
    (λ out, ∀ r, r ∈ schedule out →
       Time_Slot r
       = format_time_slot (Start_Minute r) (End_Minute r - Start_Minute r) ∧
       parse_time_slot py_int (Time_Slot r)
       = Some (Start_Minute r, End_Minute r)).
Proof. apply generate_time_slots. Qed.

(** ** The rooms of the other days *)

Lemma list_getitem_0 {A} (l : list A) : list_getitem l 0 = l !! 0%nat.
Proof. unfold list_getitem. by rewrite bool_decide_eq_true_2 by lia. Qed.

Lemma place_tasks_other_days_first_room classrooms labs working_days
    start_minutes_val end_minutes_val first_day tasks st st' :
  working_days !! 0%nat = Some first_day →
  other_days_first_room classrooms labs first_day tasks st →
  place_tasks classrooms labs working_days start_minutes_val end_minutes_val
    tasks st = Some st' →
  other_days_first_room classrooms labs first_day tasks st'.
Proof.
  intros Hfirst.
  apply (place_tasks_invariant _ _ _ _ _
           (other_days_first_room classrooms labs first_day tasks)); [|done].
  intros task s s' broke Htask [Hcount Hrows] Hres.
  assert (∀ first_day' c0 d c,
    list_getitem working_days 0 = Some first_day' → d ≠ first_day →
    <[first_day' := c0 + 1]> (day_index_counter s) !! d = Some c → c = 0)
    as Hcount'.
  { intros first_day' c0 d c Hfirst' Hd Hc.
    rewrite list_getitem_0, Hfirst in Hfirst'. injection Hfirst' as <-.
    rewrite lookup_insert_ne in Hc by done. eauto. }
  destruct Hres as [first_day' c0 day_idx current_day slot_start room
                      Hfirst' _ _ _ _ _ Hroom _
                   |first_day' c0 day_idx current_day slot_start room
                      Hfirst' _ _ _ _ _ _ _
                   |first_day' c0 day_idx current_day slot_start
                      Hfirst' _ _ _ _ _]; split; simpl; eauto.
  intros r Hr Hday. apply elem_of_app in Hr as [Hr|Hr]; [auto|].
  apply list_elem_of_singleton in Hr as ->. simpl in *.
  exists task. split; [done|]. split; [by repeat split|].
  assert (∀ pool : list string,
    list_truthy pool = true →
    (c ← <[first_day' := c0 + 1]> (day_index_counter s) !! current_day;
     i ← py_mod c (len pool); r ← list_getitem pool i; Some (Some r))
    = Some (Some room) →
    pool !! 0%nat = Some room) as Hpool.
  { intros pool Hne Hpick.
    destruct (<[first_day' := c0 + 1]> (day_index_counter s) !! current_day)
      as [c|] eqn:Hc; simpl in Hpick; [|done].
    apply Hcount' in Hc as ->; [|done..].
    unfold py_mod in Hpick. case_bool_decide; [done|]. simpl in Hpick.
    rewrite Z.mod_0_l, list_getitem_0 in Hpick by done.
    destruct (pool !! 0%nat); simpl in Hpick; [|done].
    by injection Hpick as ->. }
  unfold first_room, choose_room in *.
  destruct (Task.class_type task).
  - destruct (list_truthy classrooms) eqn:Hne; [eauto|done].
  - intros Hnamed. rewrite Hnamed in Hroom.
    destruct (list_truthy labs) eqn:Hne; [eauto|done].
Qed.

(** X8. The counter that picks a room is kept for each day, but only the
    one of the first working day is ever incremented. So every row on
    another day is in the first room of its pool: the first classroom for a
    Theory task, the first lab for a Lab task that names no room. *)
Theorem other_days_use_first_room shuffle class_components classrooms labs
    working_days start_time_obj end_time_obj first_day :
  is_shuffle shuffle →
  working_days !! 0%nat = Some first_day →
  returns (generate_schedule_from_components shuffle class_components
             classrooms labs working_days start_time_obj end_time_obj)
    (λ out, ∀ r, r ∈ schedule out → Day r ≠ first_day →
       ∃ t, t ∈ expand_tasks class_components ∧ row_of_task t r ∧
            first_room classrooms labs t (Room_Lab r)).
Proof.
  intros Hshuffle Hfirst. apply generate_returns.
  - intros e _ r Hr. simpl in Hr. by apply elem_of_nil in Hr.
  - intros st _ _ Hst r Hr Hday. simpl in Hr.
    apply elem_of_sort_values in Hr.
    eapply place_tasks_other_days_first_room in Hst as [_ Hrows]; [|done|].
    + destruct (Hrows r Hr Hday) as (t & Ht & Hrow & Hroom).
      exists t. eauto using is_shuffle_elem_of.
    + split; simpl.
      * intros d c _. rewrite dict_of_list_const_lookup.
        case_decide; [by intros [= <-]|done].
      * intros r' Hr'. by apply elem_of_nil in Hr'.
Qed.

(** ** The task list *)

Lemma length_bind_const {A B} (f : A → list B) (k : nat) (l : list A) :
  (∀ x, length (f x) = k) → length (l ≫= f) = (length l * k)%nat.
Proof.
  intros Hf. induction l as [|x l IH]; [done|].
  rewrite bind_cons, length_app, IH, Hf. simpl. lia.
Qed.

Lemma length_expand_component comp :
  length (expand_component comp)
  = (length (Component.sections comp)
     * Z.to_nat (Component.sessions_per_week comp))%nat.
Proof.
  unfold expand_component. apply length_bind_const. intros section.
  rewrite (length_bind_const _ 1) by done. rewrite length_seq. lia.
Qed.

(** X9. The expansion yields one task for each section and each weekly
    session of each component, none for a component without sections or
    with a number of sessions that is not positive: as many tasks as the
    sum over the components of sections times sessions, each the copy of
    its component's fields with the section and the session index. *)
Theorem expand_tasks_count class_components :
  length (expand_tasks class_components)
  = sum_list_with
      (λ comp, (length (Component.sections comp)
                * Z.to_nat (Component.sessions_per_week comp))%nat)
      class_components ∧
  ∀ task, task ∈ expand_tasks class_components ↔
    ∃ comp section session_num,
      comp ∈ class_components ∧ section ∈ Component.sections comp ∧
      (session_num < Z.to_nat (Component.sessions_per_week comp))%nat ∧
      task = make_task comp section session_num.
Proof.
  split; [|apply elem_of_expand_tasks].
  unfold expand_tasks.
  induction class_components as [|comp rest IH]; [done|].
  rewrite bind_cons, length_app, IH, length_expand_component. done.
Qed.

Lemma expand_tasks_nil class_components :
  (∀ c, c ∈ class_components →
     Component.sections c = [] ∨ Component.sessions_per_week c ≤ 0) →
  expand_tasks class_components = [].
Proof.
  intros Hnone. apply elem_of_nil_inv. intros t Ht.
  apply elem_of_expand_tasks in Ht as (comp & section & n & Hc & Hs & Hn & _).
  destruct (Hnone comp Hc) as [Hsec|Hspw].
  - rewrite Hsec in Hs. by apply elem_of_nil in Hs.
  - lia.
Qed.

(** X10. When the button is enabled but no component has both a section
    and a positive number of weekly sessions, there is no task: the call
    places nothing, reports nothing as unplaced and returns the empty data
    frame with the notice that no entry was generated. *)
Theorem nothing_to_place shuffle class_components classrooms labs
    working_days start_time_obj end_time_obj :
  is_shuffle shuffle →
  (pre_generation_checks class_components working_days classrooms labs).1
  = true →
  (∀ c, c ∈ class_components →
     Component.sections c = [] ∨ Component.sessions_per_week c ≤ 0) →
  generate_schedule_from_components shuffle class_components classrooms labs
    working_days start_time_obj end_time_obj
  = Some {| messages := [PlaceholderWarning; InfoNoEntries];
            schedule := [] |}.
Proof.
  intros Hshuffle Hready Hnone.
  destruct (pre_generation_checks_ready class_components working_days
              classrooms labs) as [Hchecks _].
  rewrite Hchecks in Hready.
  apply andb_true_iff in Hready as [Hready Hlab].
  apply andb_true_iff in Hready as [Hready Htheory].
  apply andb_true_iff in Hready as [Hcomps Hdays].
  unfold generate_schedule_from_components.
  rewrite Hcomps, Hdays. simpl.
  apply negb_true_iff in Htheory, Hlab. rewrite Htheory, Hlab.
  rewrite (expand_tasks_nil _ Hnone).
  pose proof (Hshuffle []) as Hperm. apply Permutation_nil_r in Hperm.
  by rewrite Hperm.
Qed.

(** ** The order on display *)

Lemma key_le_display working_days r1 r2 :
  key_le working_days r1 r2 →
  display_key_leb (display_key working_days r1) (display_key working_days r2)
  = true.
Proof.
  unfold key_le, key_leb, display_key_leb.
  change (key_compare (sort_key working_days r1) (sort_key working_days r2))
    with (lex (display_key_compare (display_key working_days r1)
                 (display_key working_days r2))
            (String.compare (Course_Code r1) (Course_Code r2))).
  by destruct (display_key_compare _ _).
Qed.

Lemma sort_for_display_sorted working_days rows :
  StronglySorted (key_le working_days) rows →
  sort_for_display working_days rows = rows.
Proof.
  induction 1 as [|r rest Hrest IH Hr]; [done|].
  simpl. rewrite IH. destruct rest as [|r' rest]; [done|]. simpl.
  apply Forall_cons in Hr as [Hr _]. by rewrite key_le_display.
Qed.

(** X11. Sorting the returned data frame again for display and for
    download, by semester, day order, start minute and section with the
    working days of the generation, changes nothing: the rows are shown
    and written in the order in which the generator returned them. *)
Theorem display_keeps_order shuffle class_components classrooms labs
    working_days start_time_obj end_time_obj :
  returns (generate_schedule_from_components shuffle class_components
             classrooms labs working_days start_time_obj end_time_obj)
    (λ out, sort_for_display working_days (schedule out) = schedule out).
Proof.
  apply generate_returns; [done|].
  intros st _ _ _. simpl.
  apply sort_for_display_sorted, sort_values_sorted.
Qed.

(** ** Runs in which every task is placed *)

Lemma total_demand_nonneg tasks :
  (∀ t, t ∈ tasks → 0 ≤ Task.duration_minutes t) → 0 ≤ total_demand tasks.
Proof.
  induction tasks as [|t rest IH]; intros Hdur; simpl; [done|].
  specialize (Hdur t ltac:(left)) as Ht.
  assert (0 ≤ total_demand rest) by (apply IH; intros; apply Hdur; by right).
  lia.
Qed.

Lemma total_demand_perm tasks tasks' :
  tasks ≡ₚ tasks' → total_demand tasks = total_demand tasks'.
Proof.
  induction 1 as [|t l l' _ IH|t1 t2 l|l1 l2 l3 _ IH1 _ IH2]; simpl; lia.
Qed.

Lemma rooms_available_checks classrooms labs class_components :
  rooms_available classrooms labs class_components →
  (needs_theory_room class_components = true → classrooms ≠ []) ∧
  (needs_lab_room_any class_components = true → labs ≠ []).
Proof.
  intros Hrooms. split.
  - intros (c & Hc & Htheory)%needs_theory_room_spec.
    specialize (Hrooms c Hc). rewrite Htheory in Hrooms. by destruct Hrooms.
  - intros (c & Hc & Hlab & Hany)%needs_lab_room_any_spec.
    specialize (Hrooms c Hc). rewrite Hlab, Hany in Hrooms.
    by destruct Hrooms as [?|[? _]].
Qed.

Lemma rooms_available_task shuffle classrooms labs class_components t :
  is_shuffle shuffle →
  rooms_available classrooms labs class_components →
  t ∈ shuffle (expand_tasks class_components) →
  room_available classrooms labs (Task.class_type t) (Task.assigned_room t).
Proof.
  intros Hshuffle Hrooms Ht. apply is_shuffle_elem_of in Ht; [|done].
  apply elem_of_expand_tasks in Ht as (comp & section & n & Hc & _ & _ & ->).
  by apply Hrooms.
Qed.

Section demand.
Variables classrooms labs working_days : list string.
Variables start_minutes_val end_minutes_val : Z.

(** A first pass whose slot fits, with a room available, places the
    task. *)
Lemma place_task_fitting task st st' bound :
  working_days ≠ [] → wf working_days st →
  room_available classrooms labs (Task.class_type task)
    (Task.assigned_room task) →
  cursors_below bound st →
  0 ≤ Task.duration_minutes task →
  bound + Task.duration_minutes task ≤ end_minutes_val →
  place_task classrooms labs working_days start_minutes_val end_minutes_val
    task st = Some st' →
  try_days_fit classrooms labs working_days start_minutes_val end_minutes_val
    (length working_days) task st = true ∧
  wf working_days st' ∧
  cursors_below (bound + Task.duration_minutes task + 5) st' ∧
  shown st' = shown st ∧
  ∃ r, schedule_entries st' = schedule_entries st ++ [r].
Proof.
  intros Hdays Hwf Hroom Hbound Hdur Hfit Hplace.
  unfold place_task in Hplace.
  assert (∃ n, length working_days = S n) as [n Hlen]
    by (destruct working_days; [done|by eexists]).
  rewrite Hlen in Hplace |- *. simpl in Hplace |- *.
  destruct (attempt _ _ _ _ _ task st) as [[st1 broke]|] eqn:Hatt; [|done].
  simpl in Hplace. apply attempt_inv in Hatt as Hres.
  pose proof (attempt_result_wf _ _ _ _ _ _ _ _ _ Hres Hwf) as Hwf1.
  destruct Hres as [first_day c0 day_idx current_day slot_start room
                      Hfirst Hc0 Hidx Hday Hslot Hend _ _
                   |first_day c0 day_idx current_day slot_start room
                      _ _ _ _ _ _ Hnone Hfalsy
                   |first_day c0 day_idx current_day slot_start
                      _ _ _ _ Hslot Hend].
  - simpl in Hplace. injection Hplace as <-.
    split_and!; [|done| |done|by eexists].
    + unfold fits.
      rewrite (next_slot_eq _ _ _ _ _ _ _ Hfirst Hc0 Hidx Hday Hslot).
      by rewrite bool_decide_eq_true_2.
    + intros d v Hv. simpl in Hv. pose proof (Hbound _ _ Hslot).
      destruct (decide (current_day = d)) as [->|Hne].
      * rewrite lookup_insert_eq in Hv. injection Hv as <-. lia.
      * rewrite lookup_insert_ne in Hv by done.
        apply Hbound in Hv. lia.
  - apply (choose_room_truthy _ _ _ _ _ _ Hroom) in Hnone. congruence.
  - apply Hbound in Hslot. lia.
Qed.
End demand.

Lemma place_tasks_within_demand classrooms labs working_days
    start_minutes_val end_minutes_val tasks st st' used :
  working_days ≠ [] → wf working_days st →
  (∀ t, t ∈ tasks →
     0 ≤ Task.duration_minutes t ∧
     room_available classrooms labs (Task.class_type t)
       (Task.assigned_room t)) →
  cursors_below (start_minutes_val + used) st →
  start_minutes_val + used + total_demand tasks ≤ end_minutes_val + 5 →
  place_tasks classrooms labs working_days start_minutes_val end_minutes_val
    tasks st = Some st' →
  all_fit classrooms labs working_days start_minutes_val end_minutes_val
    tasks st = true ∧
  shown st' = shown st ∧
  length (schedule_entries st')
  = (length (schedule_entries st) + length tasks)%nat.
Proof.
  intros Hdays. revert st used.
  induction tasks as [|task rest IH];
    intros st used Hwf Htasks Hbound Hdemand Hplace; simpl in Hplace |- *.
  - injection Hplace as <-. split_and!; [done..|lia].
  - destruct (place_task _ _ _ _ _ task st) as [st1|] eqn:Htask; [|done].
    simpl in Hplace. simpl in Hdemand.
    destruct (Htasks task ltac:(left)) as [Hdur Hroom].
    assert (0 ≤ total_demand rest).
    { apply total_demand_nonneg. intros t Ht. apply Htasks. by right. }
    eapply place_task_fitting in Htask
      as (Hfit & Hwf1 & Hbound1 & Hshown1 & r & Hrows1); [|done..|lia].
    rewrite Hfit. simpl.
    eapply (IH st1 (used + Task.duration_minutes task + 5)) in Hplace
      as (Hfits & Hshown & Hlen); [|done| | |lia].
    + split_and!; [done|congruence|].
      rewrite Hlen, Hrows1, length_app. simpl. lia.
    + intros t Ht. apply Htasks. by right.
    + intros d v Hv. apply Hbound1 in Hv. lia.
Qed.

(** X12. When the whole demand fits one day (the durations of all tasks,
    with five minutes after each but the last, do not exceed the length of
    the window), no duration is negative and a room is available for every
    component, then every task is placed: no slot tried overflows, nothing
    is reported as unplaced, there are as many rows as tasks, and no two
    rows of one day overlap. *)
Theorem all_placed_when_demand_fits shuffle class_components classrooms labs
    working_days start_time_obj end_time_obj :
  is_shuffle shuffle →
  class_components ≠ [] → working_days ≠ [] →
  (∀ c, c ∈ class_components → 0 ≤ Component.duration_minutes c) →
  rooms_available classrooms labs class_components →
  total_demand (expand_tasks class_components) - 5
    ≤ time_to_minutes end_time_obj - time_to_minutes start_time_obj →
  all_fit classrooms labs working_days
    (time_to_minutes start_time_obj) (time_to_minutes end_time_obj)
    (shuffle (expand_tasks class_components))
    (initial_state working_days (time_to_minutes start_time_obj)) = true ∧
  returns (generate_schedule_from_components shuffle class_components
             classrooms labs working_days start_time_obj end_time_obj)
    (λ out,
       (∀ m, m ∈ messages out → is_error m = false ∧ is_unplaced m = false) ∧
       length (schedule out) = length (expand_tasks class_components) ∧
       day_exclusive (schedule out)).
Proof.
  intros Hshuffle Hcomps Hdays Hdur Hrooms Hdemand.
  destruct (rooms_available_checks _ _ _ Hrooms) as [Htheory Hlab].
  destruct (generate_inv shuffle class_components classrooms labs working_days
              start_time_obj end_time_obj)
    as [[[?|?] _]|[(_ & _ & ? & ? & _)|[(_ & _ & _ & ? & ? & _)
       |(_ & _ & _ & _ & st & Hst & ->)]]];
    [done|done|by destruct Htheory|by destruct Hlab|].
  eapply (place_tasks_within_demand _ _ _ _ _ _ _ _ 0) in Hst as Hrun;
    [|done|apply initial_state_wf| | |].
  - destruct Hrun as (Hfit & Hshown & Hlen). split; [done|].
    eexists. split; [done|]. simpl in *.
    split_and!.
    + intros m Hm. rewrite Hshown in Hm.
      apply elem_of_app in Hm as [->%list_elem_of_singleton|Hm]; [done|].
      destruct (list_truthy (schedule_entries st));
        [by apply elem_of_nil in Hm|].
      by apply list_elem_of_singleton in Hm as ->.
    + rewrite (Permutation_length (sort_values_perm _ _)), Hlen.
      apply Permutation_length, Hshuffle.
    + apply (day_exclusive_perm (schedule_entries st));
        [by rewrite sort_values_perm|].
      apply ForallOrdPairs_pairwise; [apply _|].
      eapply all_fit_packed; [|done..|apply initial_state_packed].
      intros t Ht. eapply expand_tasks_duration;
        eauto using is_shuffle_elem_of.
  - intros t Ht. split.
    + eapply expand_tasks_duration; eauto using is_shuffle_elem_of.
    + by eapply rooms_available_task.
  - intros d v. simpl. rewrite dict_of_list_const_lookup.
    case_decide; [|done]. intros [= <-]. lia.
  - rewrite (total_demand_perm _ _ (Hshuffle _)). lia.
Qed.

(** ** Unplaced tasks reset every day *)

Lemma list_getitem_nat {A} (l : list A) (i : nat) :
  list_getitem l (Z.of_nat i) = l !! i.
Proof.
  unfold list_getitem. rewrite bool_decide_eq_true_2 by lia.
  by rewrite Nat2Z.id.
Qed.

Section resets.
Variables classrooms labs working_days : list string.
Variables start_minutes_val end_minutes_val : Z.

(** A task that the loop over the days leaves unassigned has overflowed on
    each of the days tried, one after the other from the day the counter
    pointed at, and has sent the cursor of each back to the opening of the
    window. *)
Lemma try_days_unassigned k task st st' first_day c0 :
  list_getitem working_days 0 = Some first_day →
  day_index_counter st !! first_day = Some c0 →
  room_available classrooms labs (Task.class_type task)
    (Task.assigned_room task) →
  try_days classrooms labs working_days start_minutes_val end_minutes_val
    k task st = Some (st', false) →
  day_index_counter st' !! first_day = Some (c0 + Z.of_nat k) ∧
  (∀ d, current_slot_time_per_day st !! d = Some start_minutes_val →
        current_slot_time_per_day st' !! d = Some start_minutes_val) ∧
  (∀ j d, 0 ≤ j < Z.of_nat k →
     list_getitem working_days ((c0 + j) `mod` len working_days) = Some d →
     current_slot_time_per_day st' !! d = Some start_minutes_val).
Proof.
  intros Hfirst Hc0 Hroom. revert st c0 Hc0.
  induction k as [|k IH]; intros st c0 Hc0 Htry; simpl in Htry.
  - injection Htry as <-. rewrite Z.add_0_r. split_and!; [done..|].
    intros j d Hj. lia.
  - destruct (attempt _ _ _ _ _ task st) as [[st1 broke]|] eqn:Hatt; [|done].
    simpl in Htry. apply attempt_inv in Hatt.
    destruct Hatt as [first_day' c0' day_idx current_day slot_start room
                        _ _ _ _ _ _ _ _
                     |first_day' c0' day_idx current_day slot_start room
                        _ _ _ _ _ _ Hnone Hfalsy
                     |first_day' c0' day_idx current_day slot_start
                        Hfirst' Hc0' Hidx Hday _ _]; [done| |].
    { apply (choose_room_truthy _ _ _ _ _ _ Hroom) in Hnone. congruence. }
    rewrite Hfirst in Hfirst'. injection Hfirst' as <-.
    rewrite Hc0 in Hc0'. injection Hc0' as <-.
    unfold py_mod in Hidx. case_bool_decide; [done|].
    injection Hidx as <-.
    apply (IH _ (c0 + 1)) in Htry as (Hcount & Hkeep & Hreset);
      [|by simpl; rewrite lookup_insert_eq].
    simpl in Hkeep.
    assert (∀ d, current_slot_time_per_day st !! d = Some start_minutes_val ∨
                 d = current_day →
                 current_slot_time_per_day st' !! d = Some start_minutes_val)
      as Hkeep'.
    { intros d Hd. apply Hkeep.
      destruct (decide (current_day = d)) as [->|Hne].
      - by rewrite lookup_insert_eq.
      - rewrite lookup_insert_ne by done. by destruct Hd. }
    split_and!.
    + rewrite Hcount. f_equal. lia.
    + auto.
    + intros j d Hj Hd. destruct (decide (j = 0)) as [->|Hj0].
      * rewrite Z.add_0_r, Hday in Hd. injection Hd as <-. auto.
      * apply (Hreset (j - 1)); [lia|].
        by replace (c0 + 1 + (j - 1)) with (c0 + j) by lia.
Qed.

Lemma place_task_unplaced_resets task st st' :
  working_days ≠ [] → wf working_days st →
  room_available classrooms labs (Task.class_type task)
    (Task.assigned_room task) →
  place_task classrooms labs working_days start_minutes_val end_minutes_val
    task st = Some st' →
  shown st' = shown st ∨
  (shown st' =
     shown st ++ [WarnCouldNotPlace (Task.component_title task)
                    (Task.course_code task) (Task.section task)] ∧
   all_reset working_days start_minutes_val st').
Proof.
  intros Hdays Hwf Hroom Hplace. unfold place_task in Hplace.
  destruct (try_days _ _ _ _ _ _ task st) as [[st1 assigned]|] eqn:Htry;
    [|done].
  simpl in Hplace. pose proof (try_days_shown _ _ _ _ _ _ _ _ _ _ Htry).
  destruct assigned; injection Hplace as <-; [by left|right].
  split; [simpl; congruence|].
  destruct (list_getitem_in_range working_days 0) as [first_day Hfirst].
  { unfold len. destruct working_days; [done|simpl; lia]. }
  destruct (Hwf first_day) as [_ [c0 Hc0]];
    [by eapply list_getitem_elem_of|].
  eapply try_days_unassigned in Htry as (_ & _ & Hreset); [|done..].
  intros d Hd. simpl.
  apply list_elem_of_lookup_1 in Hd as [i Hi].
  pose proof (lookup_lt_Some _ _ _ Hi) as Hlt.
  apply (Hreset ((Z.of_nat i - c0) `mod` len working_days)).
  - unfold len. apply Z.mod_pos_bound. lia.
  - unfold len in *. rewrite Zplus_mod_idemp_r.
    replace (c0 + (Z.of_nat i - c0)) with (Z.of_nat i) by lia.
    rewrite Z.mod_small by lia. by rewrite list_getitem_nat.
Qed.

(** When the cursor of every day is at the opening of the window, a task
    that fits the window and has a room is placed. *)
Lemma place_task_from_reset task st st' :
  working_days ≠ [] → wf working_days st →
  all_reset working_days start_minutes_val st →
  room_available classrooms labs (Task.class_type task)
    (Task.assigned_room task) →
  start_minutes_val + Task.duration_minutes task ≤ end_minutes_val →
  place_task classrooms labs working_days start_minutes_val end_minutes_val
    task st = Some st' →
  shown st' = shown st.
Proof.
  intros Hdays Hwf Hreset Hroom Hfit Hplace. unfold place_task in Hplace.
  assert (∃ n, length working_days = S n) as [n Hlen]
    by (destruct working_days; [done|by eexists]).
  rewrite Hlen in Hplace. simpl in Hplace.
  destruct (attempt _ _ _ _ _ task st) as [[st1 broke]|] eqn:Hatt; [|done].
  simpl in Hplace. apply attempt_inv in Hatt.
  destruct Hatt as [first_day c0 day_idx current_day slot_start room
                      _ _ _ _ _ _ _ _
                   |first_day c0 day_idx current_day slot_start room
                      _ _ _ _ _ _ Hnone Hfalsy
                   |first_day c0 day_idx current_day slot_start
                      _ _ _ Hday Hslot Hend].
  - simpl in Hplace. by injection Hplace as <-.
  - apply (choose_room_truthy _ _ _ _ _ _ Hroom) in Hnone. congruence.
  - apply list_getitem_elem_of, Hreset in Hday.
    rewrite Hday in Hslot. injection Hslot as <-. lia.
Qed.

Lemma place_tasks_half tasks st st' :
  working_days ≠ [] → wf working_days st →
  (∀ t, t ∈ tasks →
     room_available classrooms labs (Task.class_type t)
       (Task.assigned_room t) ∧
     start_minutes_val + Task.duration_minutes t ≤ end_minutes_val) →
  place_tasks classrooms labs working_days start_minutes_val end_minutes_val
    tasks st = Some st' →
  ∃ warnings,
    shown st' = shown st ++ warnings ∧
    (2 * length warnings ≤ length tasks + 1)%nat ∧
    (all_reset working_days start_minutes_val st →
     (2 * length warnings ≤ length tasks)%nat).
Proof.
  intros Hdays. revert st.
  induction tasks as [|task rest IH]; intros st Hwf Htasks Hplace;
    simpl in Hplace.
  - injection Hplace as <-. exists []. rewrite app_nil_r. simpl.
    split_and!; [done|lia|lia].
  - destruct (place_task _ _ _ _ _ task st) as [st1|] eqn:Htask; [|done].
    simpl in Hplace.
    destruct (Htasks task ltac:(left)) as [Hroom Hfit].
    assert (wf working_days st1) as Hwf1.
    { destruct (place_task_returns classrooms labs working_days
                  start_minutes_val end_minutes_val task st Hdays Hwf)
        as (st1' & Hst1' & Hwf1).
      rewrite Htask in Hst1'. by injection Hst1' as <-. }
    apply IH in Hplace as (warnings & Hshown & Hany & Hreset);
      [|done|intros t Ht; apply Htasks; by right].
    destruct (place_task_unplaced_resets _ _ _ Hdays Hwf Hroom Htask)
      as [Hplaced|[Hwarned Hreset1]].
    + exists warnings. rewrite Hshown, Hplaced. simpl.
      split_and!; [done|lia|lia].
    + eexists (_ :: warnings). rewrite Hshown, Hwarned, <-app_assoc. simpl.
      specialize (Hreset Hreset1).
      split_and!; [done|lia|].
      intros Hreset0.
      pose proof (place_task_from_reset _ _ _ Hdays Hwf Hreset0 Hroom Hfit
                    Htask) as Hsame.
      rewrite Hsame in Hwarned.
      apply (f_equal length) in Hwarned. rewrite length_app in Hwarned.
      simpl in Hwarned. lia.
Qed.
End resets.

(** At most half of the tasks are left unplaced when rooms are there and
    every duration fits the window. *)
Lemma generate_places_half shuffle class_components classrooms labs
    working_days start_time_obj end_time_obj :
  is_shuffle shuffle →
  rooms_available classrooms labs class_components →
  (∀ c, c ∈ class_components →
     time_to_minutes start_time_obj + Component.duration_minutes c
     ≤ time_to_minutes end_time_obj) →
  returns (generate_schedule_from_components shuffle class_components
             classrooms labs working_days start_time_obj end_time_obj)
    (λ out,
       (2 * unplaced_count (messages out)
        ≤ length (expand_tasks class_components))%nat ∧
       ((∀ m, m ∈ messages out → is_error m = false) →
        (length (expand_tasks class_components)
         ≤ 2 * length (schedule out))%nat)).
Proof.
  intros Hshuffle Hrooms Hfit. apply generate_returns.
  - intros e He. unfold unplaced_count. simpl.
    rewrite filter_cons_False by done.
    rewrite filter_cons_False by (by destruct e). simpl.
    split; [lia|]. intros Hmsgs.
    specialize (Hmsgs e ltac:(repeat constructor)). congruence.
  - intros st _ Hdays Hst. simpl.
    apply place_tasks_half in Hst as Hhalf;
      [|done|apply initial_state_wf|].
    + destruct Hhalf as (warnings & Hshown & _ & Hhalf).
      apply place_tasks_shown in Hst as (warnings' & Hshown' & Hall & Hlen).
      rewrite Hshown in Hshown'. apply app_inv_head in Hshown' as <-.
      simpl in Hshown, Hlen.
      rewrite (Permutation_length (Hshuffle _)) in Hhalf, Hlen.
      specialize (Hhalf ltac:(intros d Hd; simpl;
        rewrite dict_of_list_const_lookup; by rewrite decide_True)).
      assert (unplaced_count
                (shown st ++
                 (if list_truthy (schedule_entries st) then []
                  else [InfoNoEntries])) = length warnings) as ->.
      { unfold unplaced_count. rewrite Hshown, filter_app, length_app.
        rewrite filter_cons_False by done.
        assert (filter (λ m, is_unplaced m = true) warnings = warnings) as ->.
        { clear -Hall. induction Hall as [|m ms Hm _ IH]; [done|].
          by rewrite filter_cons_True, IH. }
        destruct (list_truthy (schedule_entries st)); simpl; lia. }
      rewrite (Permutation_length (sort_values_perm _ _)).
      split; [done|]. intros _. lia.
    + intros t Ht. split; [by eapply rooms_available_task|].
      apply is_shuffle_elem_of in Ht; [|done].
      apply elem_of_expand_tasks in Ht
        as (comp & section & n & Hc & _ & _ & ->).
      simpl. auto.
Qed.

(** X13. When every component has a room available and a duration that
    fits the daily window, no two tasks in a row are left unplaced, because
    a task that is not placed sends the cursor of every day back to the
    opening of the window: at most half of the tasks are reported as
    unplaced and, unless an input check failed, at least half have their
    row. *)
Theorem at_least_half_placed shuffle class_components classrooms labs
    working_days start_time_obj end_time_obj :
  is_shuffle shuffle →
  rooms_available classrooms labs class_components →
  (∀ c, c ∈ class_components →
     time_to_minutes start_time_obj + Component.duration_minutes c
     ≤ time_to_minutes end_time_obj) →
  returns (generate_schedule_from_components shuffle class_components
             classrooms labs working_days start_time_obj end_time_obj)
    (λ out,
       (2 * unplaced_count (messages out)
        ≤ length (expand_tasks class_components))%nat ∧
       ((∀ m, m ∈ messages out → is_error m = false) →
        (length (expand_tasks class_components)
         ≤ 2 * length (schedule out))%nat)).
Proof. apply generate_places_half. Qed.

(** ** The catalog *)

(** *** Lists of names *)

Lemma list_remove_spec x l l' :
  list_remove x l = Some l' →
  ∃ l1 l2, l = l1 ++ x :: l2 ∧ l' = l1 ++ l2 ∧ x ∉ l1.
Proof.
  revert l'. induction l as [|y l IH]; intros l'; simpl; [done|].
  case_bool_decide as Hy.
  - intros [= <-]. subst y. exists [], l. split_and!; [done..|].
    apply not_elem_of_nil.
  - destruct (list_remove x l) as [rest|] eqn:Hrest; simpl; [|done].
    intros [= <-].
    destruct (IH rest eq_refl) as (l1 & l2 & -> & -> & Hx).
    exists (y :: l1), l2. split_and!; [done..|].
    rewrite elem_of_cons. intros [->|?]; done.
Qed.

Lemma list_remove_is_Some x l : x ∈ l → is_Some (list_remove x l).
Proof.
  induction l as [|y l IH]; simpl; [by intros ?%elem_of_nil|].
  rewrite elem_of_cons. intros Hx. case_bool_decide as Hy; [by eexists|].
  destruct Hx as [->|Hx]; [done|].
  destruct (IH Hx) as [rest ->]. by eexists.
Qed.

Lemma list_remove_elem_of x l l' y :
  list_remove x l = Some l' → y ∈ l' → y ∈ l.
Proof.
  intros (l1 & l2 & -> & -> & _)%list_remove_spec.
  rewrite !elem_of_app, elem_of_cons. tauto.
Qed.

Lemma list_remove_other x l l' y :
  list_remove x l = Some l' → y ∈ l → y ≠ x → y ∈ l'.
Proof.
  intros (l1 & l2 & -> & -> & _)%list_remove_spec.
  rewrite !elem_of_app, elem_of_cons. tauto.
Qed.

Lemma list_remove_NoDup x l l' :
  list_remove x l = Some l' → NoDup l → NoDup l' ∧ x ∉ l'.
Proof.
  intros (l1 & l2 & -> & -> & Hx)%list_remove_spec.
  rewrite !NoDup_app, NoDup_cons, elem_of_app.
  intros (Hl1 & Hdisj & Hx2 & Hl2). split_and!; [done| |done|tauto].
  intros y Hy1 Hy2. apply (Hdisj y Hy1). rewrite elem_of_cons. by right.
Qed.

Lemma list_remove_names_ok x l l' :
  list_remove x l = Some l' → names_ok l → names_ok l' ∧ x ∉ l'.
Proof.
  intros Hremove [Hnodup Hempty].
  destruct (list_remove_NoDup _ _ _ Hremove Hnodup) as [? ?].
  split; [split|]; [done| |done].
  intros ?. apply Hempty. by eapply list_remove_elem_of.
Qed.

Lemma list_remove_sorted {R : string → string → Prop} x l l' :
  list_remove x l = Some l' → StronglySorted R l → StronglySorted R l'.
Proof.
  intros (l1 & l2 & -> & -> & _)%list_remove_spec. revert l2.
  induction l1 as [|y l1 IH]; intros l2; simpl.
  - by intros [? _]%StronglySorted_inv.
  - intros [Hsorted Hall]%StronglySorted_inv. constructor; [by apply IH|].
    rewrite Forall_app in *. rewrite Forall_cons in Hall. tauto.
Qed.

Lemma string_le_total a b : string_le a b ∨ string_le b a.
Proof. apply String.leb_total. Qed.

Lemma string_le_trans a b c : string_le a b → string_le b c → string_le a c.
Proof.
  unfold string_le, String.leb.
  destruct (String.compare a b) eqn:Hab; [| |done];
    (destruct (String.compare b c) eqn:Hbc; [| |done]); intros _ _.
  - apply cmp_eq in Hab as ->. by rewrite Hbc.
  - apply cmp_eq in Hab as ->. by rewrite Hbc.
  - apply cmp_eq in Hbc as <-. by rewrite Hab.
  - by rewrite (cmp_lt_trans _ _ _ Hab Hbc).
Qed.

Lemma insert_string_perm x l : insert_string x l ≡ₚ x :: l.
Proof.
  induction l as [|y l IH]; simpl; [done|].
  destruct (String.leb x y); [done|]. rewrite IH. apply Permutation_swap.
Qed.

Lemma sort_strings_perm l : sort_strings l ≡ₚ l.
Proof.
  induction l as [|x l IH]; simpl; [done|].
  by rewrite insert_string_perm, IH.
Qed.

Lemma insert_string_sorted x l :
  StronglySorted string_le l → StronglySorted string_le (insert_string x l).
Proof.
  induction 1 as [|y rest Hrest IH Hy]; simpl.
  - repeat constructor.
  - destruct (String.leb x y) eqn:Hle.
    + constructor; [by constructor|].
      constructor; [done|].
      eapply Forall_impl; [done|]. intros z ?. by eapply string_le_trans.
    + constructor; [done|].
      rewrite insert_string_perm. constructor; [|done].
      destruct (string_le_total x y) as [Hxy|?]; [|done].
      unfold string_le in Hxy. congruence.
Qed.

Lemma sort_strings_sorted l : StronglySorted string_le (sort_strings l).
Proof.
  induction l as [|x l IH]; simpl; [constructor|].
  by apply insert_string_sorted.
Qed.

Lemma names_ok_perm l1 l2 : l1 ≡ₚ l2 → names_ok l1 → names_ok l2.
Proof. unfold names_ok. by intros ->. Qed.

Lemma names_ok_nil : names_ok [].
Proof. split; [constructor|apply not_elem_of_nil]. Qed.

(** *** The loop that adds names *)

Lemma add_unique_foldl names pool n :
  ∃ added,
    foldl add_unique_step (pool, n) names
    = (pool ++ added, (n + length added)%nat) ∧
    added `sublist_of` names ∧
    NoDup added ∧
    (∀ r, r ∈ added ↔ r ∈ names ∧ r ≠ "" ∧ r ∉ pool).
Proof.
  revert pool n. induction names as [|r names IH]; intros pool n; simpl.
  - exists []. rewrite app_nil_r, Nat.add_0_r. split_and!; [done..|constructor|].
    intros r. split; [by intros ?%elem_of_nil|by intros [?%elem_of_nil _]].
  - destruct (truthy r && negb (bool_decide (r ∈ pool))) eqn:Hr.
    + apply andb_true_iff in Hr as [Hr%truthy_spec Hpool%negb_true_iff].
      apply bool_decide_eq_false in Hpool.
      destruct (IH (pool ++ [r]) (S n)) as (added & -> & Hsub & Hnodup & Hin).
      exists (r :: added). split_and!.
      * rewrite <-app_assoc. simpl. f_equal. lia.
      * by apply sublist_skip.
      * constructor; [|done]. rewrite Hin, elem_of_app, list_elem_of_singleton.
        tauto.
      * intros x. rewrite !elem_of_cons, Hin, elem_of_app,
          list_elem_of_singleton.
        destruct (decide (x = r)) as [->|]; tauto.
    + destruct (IH pool n) as (added & -> & Hsub & Hnodup & Hin).
      exists added. split_and!; [done|by apply sublist_cons|done|].
      intros x. rewrite Hin, elem_of_cons.
      apply andb_false_iff in Hr as [Hr|Hr].
      * assert (r = "") as -> by
          (destruct (decide (r = "")) as [|Hne]; [done|];
           apply truthy_spec in Hne; congruence).
        split; [tauto|]. intros ([->|?] & ? & ?); done.
      * apply negb_false_iff, bool_decide_eq_true in Hr.
        split; [tauto|]. intros ([->|?] & ? & ?); done.
Qed.

Lemma add_unique_names_ok pool added :
  names_ok pool → NoDup added →
  (∀ r, r ∈ added → r ≠ "" ∧ r ∉ pool) →
  names_ok (pool ++ added).
Proof.
  intros [Hnodup Hempty] Hadded Hin. split.
  - apply NoDup_app. split_and!; [done| |done].
    intros r Hr1 Hr2. by apply Hin in Hr2 as [_ ?].
  - rewrite elem_of_app. intros [?|[? _]%Hin]; done.
Qed.

Lemma add_unique_spec pool names :
  ∃ added,
    add_unique pool names = (pool ++ added, length added) ∧
    new_names pool names added.
Proof.
  destruct (add_unique_foldl names pool 0) as (added & ? & ? & ? & ?).
  by exists added.
Qed.

Lemma new_names_ok pool names added :
  new_names pool names added → names_ok pool → names_ok (pool ++ added).
Proof.
  intros (_ & Hnodup & Hin) Hpool. apply add_unique_names_ok; [done..|].
  intros r Hr%Hin. tauto.
Qed.

(** The loop of "Add Section" does to the list of the semester what the
    loop of the rooms does to a pool. *)
Lemma add_sections_foldl sel names sections n :
  ∃ added,
    foldl (add_sections_step sel) (sections, n) names
    = (match added with
       | [] => sections
       | _ => <[sel := default [] (sections !! sel) ++ added]> sections
       end, (n + length added)%nat) ∧
    new_names (default [] (sections !! sel)) names added.
Proof.
  revert sections n. induction names as [|r names IH]; intros sections n;
    simpl.
  - exists []. rewrite Nat.add_0_r. split; [done|].
    split_and!; [done|constructor|].
    intros r. split; [by intros ?%elem_of_nil|by intros [?%elem_of_nil _]].
  - set (current := default [] (sections !! sel)).
    destruct (truthy r && negb (bool_decide (r ∈ current))) eqn:Hr.
    + apply andb_true_iff in Hr as [Hr%truthy_spec Hpool%negb_true_iff].
      apply bool_decide_eq_false in Hpool.
      destruct (IH (<[sel := current ++ [r]]> sections) (S n))
        as (added & -> & Hsub & Hnodup & Hin).
      rewrite lookup_insert_eq in *. simpl in *.
      exists (r :: added). split; [|split_and!].
      * f_equal; [|simpl; lia].
        destruct added; [done|].
        by rewrite insert_insert_eq, <-app_assoc.
      * by apply sublist_skip.
      * constructor; [|done]. rewrite Hin, elem_of_app, list_elem_of_singleton.
        tauto.
      * intros x. rewrite !elem_of_cons, Hin, elem_of_app,
          list_elem_of_singleton.
        destruct (decide (x = r)) as [->|]; tauto.
    + destruct (IH sections n) as (added & -> & Hsub & Hnodup & Hin).
      exists added. split; [done|].
      split_and!; [by apply sublist_cons|done|].
      intros x. rewrite Hin, elem_of_cons. fold current.
      apply andb_false_iff in Hr as [Hr|Hr].
      * assert (r = "") as -> by
          (destruct (decide (r = "")) as [|Hne]; [done|];
           apply truthy_spec in Hne; congruence).
        split; [tauto|]. intros ([->|?] & ? & ?); done.
      * apply negb_false_iff, bool_decide_eq_true in Hr.
        split; [tauto|]. intros ([->|?] & ? & ?); done.
Qed.

(** The loop of "Remove Selected Section(s)": what is left of the list of
    the semester, and how many sections went. *)
Lemma remove_sections_foldl sem secs sections n current :
  sections !! sem = Some current →
  ∃ current' n',
    foldl (remove_sections_step sem) (Some (sections, n)) secs
    = Some (<[sem := current']> sections, n') ∧
    (n ≤ n')%nat ∧
    ((∃ sec, sec ∈ secs ∧ sec ∈ current) → (n < n')%nat) ∧
    (∀ sec, sec ∈ current' → sec ∈ current) ∧
    (∀ sec, sec ∈ current → sec ∉ secs → sec ∈ current') ∧
    (NoDup current → NoDup current' ∧ ∀ sec, sec ∈ secs → sec ∉ current') ∧
    (StronglySorted string_le current → StronglySorted string_le current').
Proof.
  revert sections n current.
  induction secs as [|sec secs IH]; intros sections n current Hcurrent; simpl.
  - exists current, n. rewrite insert_id by done.
    split_and!; [done|lia| |done|done| |done].
    + by intros (? & ?%elem_of_nil & _).
    + intros ?. split; [done|]. by intros ? ?%elem_of_nil.
  - rewrite Hcurrent. simpl. case_bool_decide as Hsec.
    + destruct (list_remove_is_Some _ _ Hsec) as [rest Hrest].
      rewrite Hrest. simpl.
      destruct (IH (<[sem := rest]> sections) (S n) rest)
        as (current' & n' & -> & Hn & _ & Hsub & Hkeep & Hnodup & Hsorted);
        [by rewrite lookup_insert_eq|].
      exists current', n'. rewrite insert_insert_eq.
      split_and!; [done|lia|intros; lia| | | |].
      * intros x Hx. eapply list_remove_elem_of; [done|]. by apply Hsub.
      * intros x Hx. rewrite not_elem_of_cons. intros [Hne Hx'].
        apply Hkeep; [|done]. by eapply list_remove_other.
      * intros Hnd. destruct (list_remove_NoDup _ _ _ Hrest Hnd) as [Hnd' Hout].
        destruct (Hnodup Hnd') as [? Hgone]. split; [done|].
        intros x. rewrite elem_of_cons. intros [->|Hx]; [|by apply Hgone].
        intros ?. apply Hout. by apply Hsub.
      * intros Hs. apply Hsorted. by eapply list_remove_sorted.
    + destruct (IH sections n current Hcurrent)
        as (current' & n' & -> & Hn & Hhit & Hsub & Hkeep & Hnodup & Hsorted).
      exists current', n'.
      split_and!; [done|lia| |done| | |done].
      * intros (x & [->|Hx]%elem_of_cons & Hx'); [done|]. apply Hhit. eauto.
      * intros x Hx. rewrite not_elem_of_cons. intros [_ ?]. by apply Hkeep.
      * intros Hnd. destruct (Hnodup Hnd) as [? Hgone]. split; [done|].
        intros x. rewrite elem_of_cons. intros [->|Hx]; [|by apply Hgone].
        intros ?. apply Hsec. by apply Hsub.
Qed.

(** The loop over the components keeps, in their order, what
    [without_sections] leaves of each. *)
Lemma process_components_foldl sem secs comps processed warnings n :
  (foldl (process_components_step sem secs) (processed, warnings, n)
     comps).1.1
  = processed ++ omap (without_sections sem secs) comps.
Proof.
  revert processed warnings n.
  induction comps as [|comp comps IH]; intros processed warnings n; simpl.
  - by rewrite app_nil_r.
  - unfold without_sections at 1. case_bool_decide.
    + destruct (list_truthy _); simpl; rewrite IH; [|done].
      by rewrite <-app_assoc.
    + simpl. rewrite IH. by rewrite <-app_assoc.
Qed.

Lemma process_components_spec sem secs comps :
  (process_components sem secs comps).1.1
  = omap (without_sections sem secs) comps.
Proof. apply process_components_foldl. Qed.

(** *** The invariant of the catalog, form by form *)

Lemma catalog_ok_initial : catalog_ok Session.initial.
Proof.
  split; simpl; try apply names_ok_nil.
  - intros sem. rewrite lookup_empty, elem_of_nil. split; [by intros []|done].
  - intros sem l. by rewrite lookup_empty.
  - intros c. by intros ?%elem_of_nil.
Qed.

Lemma component_ok_weaken s s' c :
  component_ok s c →
  (Component.semester c ∈ Session.semesters s →
   Component.semester c ∈ Session.semesters s') →
  (∀ sec,
     sec ∈ default [] (Session.sections s !! Component.semester c) →
     sec ∈ default [] (Session.sections s' !! Component.semester c)) →
  component_ok s' c.
Proof.
  intros (? & ? & ? & ? & Hsub & ? & ? & ?) Hsem Hsec.
  split_and!; [done|done|by apply Hsem|done| |done..].
  intros sec ?. by apply Hsec, Hsub.
Qed.

Lemma catalog_ok_schedule_df v s :
  catalog_ok s → catalog_ok (Session.set_schedule_df v s).
Proof. intros []. by split. Qed.

Lemma catalog_ok_config days start_time end_time s :
  catalog_ok s → catalog_ok (Session.set_config days start_time end_time s).
Proof. intros []. by split. Qed.

Lemma catalog_ok_classrooms pool s :
  names_ok pool → catalog_ok s → catalog_ok (Session.set_classrooms pool s).
Proof. intros ? []. by split. Qed.

Lemma catalog_ok_labs pool s :
  names_ok pool → catalog_ok s → catalog_ok (Session.set_labs pool s).
Proof. intros ? []. by split. Qed.

Lemma catalog_ok_components comps s :
  (∀ c, c ∈ comps → component_ok s c) →
  catalog_ok s → catalog_ok (Session.set_class_components comps s).
Proof.
  intros Hcomps []. by split.
Qed.

Lemma add_classrooms_ok strip new_classrooms_str s :
  catalog_ok s → catalog_ok (add_classrooms strip new_classrooms_str s).1.
Proof.
  intros Hok. unfold add_classrooms.
  destruct (truthy new_classrooms_str); [|done].
  destruct (add_unique_spec (Session.classrooms s)
              (stripped_names strip new_classrooms_str))
    as (added & -> & Hnew).
  simpl. apply catalog_ok_schedule_df, catalog_ok_classrooms; [|done].
  eapply new_names_ok; [done|]. by destruct Hok.
Qed.

Lemma add_labs_ok strip new_labs_str s :
  catalog_ok s → catalog_ok (add_labs strip new_labs_str s).1.
Proof.
  intros Hok. unfold add_labs.
  destruct (truthy new_labs_str); [|done].
  destruct (add_unique_spec (Session.labs s)
              (stripped_names strip new_labs_str))
    as (added & -> & Hnew).
  simpl. apply catalog_ok_schedule_df, catalog_ok_labs; [|done].
  eapply new_names_ok; [done|]. by destruct Hok.
Qed.

Lemma remove_classroom_ok room_to_remove s :
  catalog_ok s → possible s (RemoveClassroom room_to_remove) →
  ∃ s' msgs,
    remove_classroom room_to_remove s = Some (s', msgs) ∧ catalog_ok s'.
Proof.
  intros Hok Hroom. simpl in Hroom. unfold remove_classroom.
  destruct (negb (list_truthy _)); [by eauto|].
  destruct (String.eqb_spec room_to_remove select_placeholder) as [|Hne];
    simpl; [by eauto|].
  apply elem_of_cons in Hroom as [|Hroom]; [done|].
  destruct (list_remove_is_Some _ _ Hroom) as [pool Hpool].
  rewrite Hpool. simpl. eexists _, _. split; [done|].
  apply catalog_ok_schedule_df, catalog_ok_classrooms; [|done].
  eapply list_remove_names_ok; [done|]. by destruct Hok.
Qed.

Lemma remove_lab_ok lab_to_remove s :
  catalog_ok s → possible s (RemoveLab lab_to_remove) →
  ∃ s' msgs, remove_lab lab_to_remove s = Some (s', msgs) ∧ catalog_ok s'.
Proof.
  intros Hok Hroom. simpl in Hroom. unfold remove_lab.
  destruct (negb (list_truthy _)); [by eauto|].
  destruct (String.eqb_spec lab_to_remove select_placeholder) as [|Hne];
    simpl; [by eauto|].
  apply elem_of_cons in Hroom as [|Hroom]; [done|].
  destruct (list_remove_is_Some _ _ Hroom) as [pool Hpool].
  rewrite Hpool. simpl. eexists _, _. split; [done|].
  apply catalog_ok_schedule_df, catalog_ok_labs; [|done].
  eapply list_remove_names_ok; [done|]. by destruct Hok.
Qed.

Lemma clear_all_ok s : catalog_ok (clear_all s).1.
Proof.
  split; simpl; try apply names_ok_nil.
  - intros sem. rewrite lookup_empty, elem_of_nil. split; [by intros []|done].
  - intros sem l. by rewrite lookup_empty.
  - intros c. by intros ?%elem_of_nil.
Qed.

Lemma add_semester_ok new_semester s :
  catalog_ok s → catalog_ok (add_semester new_semester s).1.
Proof.
  intros Hok. unfold add_semester.
  destruct (truthy new_semester
            && negb (bool_decide (new_semester ∈ Session.semesters s)))
    eqn:Hnew; [|by destruct (negb (truthy new_semester))].
  apply andb_true_iff in Hnew as [Hne%truthy_spec Hnew%negb_true_iff].
  apply bool_decide_eq_false in Hnew.
  destruct Hok as [[Hnodup Hempty] Hkeys Hsecs Hcl Hlabs Hcomps].
  split; simpl; try done.
  - split.
    + apply NoDup_app. split_and!; [done| |apply NoDup_singleton].
      intros x ? ->%list_elem_of_singleton. done.
    + rewrite elem_of_app, list_elem_of_singleton. intros [?|?]; done.
  - intros sem. rewrite lookup_insert_is_Some, elem_of_app,
      list_elem_of_singleton, Hkeys.
    destruct (decide (new_semester = sem)); intuition congruence.
  - intros sem l [[_ <-]|[_ ?]]%lookup_insert_Some; [|by eapply Hsecs].
    split; [apply names_ok_nil|constructor].
  - intros c Hc. eapply component_ok_weaken; [by apply Hcomps|..]; simpl.
    + rewrite elem_of_app. by left.
    + intros sec. rewrite lookup_insert_ne; [done|].
      intros ->. by destruct (Hcomps c Hc) as (_ & _ & ? & _).
Qed.

Lemma remove_semester_ok sem_to_remove s :
  catalog_ok s → possible s (RemoveSemester sem_to_remove) →
  ∃ s' msgs,
    remove_semester sem_to_remove s = Some (s', msgs) ∧ catalog_ok s'.
Proof.
  intros Hok Hsem. simpl in Hsem. unfold remove_semester.
  destruct (negb (list_truthy _)); [by eauto|].
  destruct (String.eqb_spec sem_to_remove select_placeholder) as [|Hne];
    simpl; [by eauto|].
  apply elem_of_cons in Hsem as [|Hsem]; [done|].
  destruct (list_remove_is_Some _ _ Hsem) as [semesters Hsemesters].
  rewrite Hsemesters. simpl. eexists _, _. split; [done|].
  destruct Hok as [Hnames Hkeys Hsecs Hcl Hlabs Hcomps].
  destruct (list_remove_names_ok _ _ _ Hsemesters Hnames) as [? Hgone].
  split; simpl; try done.
  - intros sem. rewrite lookup_delete. destruct (decide (sem_to_remove = sem))
      as [<-|Hother].
    + split; [by intros []|done].
    + rewrite Hkeys. split.
      * intros ?. by eapply list_remove_other.
      * by eapply list_remove_elem_of.
  - intros sem l [_ ?]%lookup_delete_Some. by eapply Hsecs.
  - intros c [Hc1 Hc2]%list_elem_of_filter.
    eapply component_ok_weaken; [by apply Hcomps|..]; simpl.
    + intros ?. by eapply list_remove_other.
    + intros sec. by rewrite lookup_delete_ne.
Qed.

Lemma current_sections_ok s sem :
  catalog_ok s → names_ok (default [] (Session.sections s !! sem)).
Proof.
  intros Hok. destruct (Session.sections s !! sem) as [l|] eqn:Hl; simpl.
  - by eapply sections_ok.
  - apply names_ok_nil.
Qed.

Lemma add_sections_ok strip sel_sem_for_sec new_sec_name s :
  catalog_ok s → possible s (AddSections sel_sem_for_sec new_sec_name) →
  ∃ s' msgs,
    add_sections strip sel_sem_for_sec new_sec_name s = Some (s', msgs) ∧
    catalog_ok s'.
Proof.
  intros Hok Hsel. simpl in Hsel. unfold add_sections.
  destruct (negb (list_truthy _)); [by eauto|].
  destruct (truthy sel_sem_for_sec && truthy new_sec_name);
    [|destruct (negb (truthy new_sec_name)); by eauto].
  destruct (list_truthy (stripped_names strip new_sec_name)); [|by eauto].
  destruct (add_sections_foldl sel_sem_for_sec
              (stripped_names strip new_sec_name) (Session.sections s) 0)
    as (added & -> & Hnew).
  pose proof (current_sections_ok s sel_sem_for_sec Hok) as Hcurrent.
  pose proof (new_names_ok _ _ _ Hnew Hcurrent) as Hnames.
  case_bool_decide as Hcount.
  - destruct added as [|sec added]; [simpl in Hcount; lia|].
    rewrite lookup_insert_eq. simpl. eexists _, _. split; [done|].
    rewrite insert_insert_eq. apply catalog_ok_schedule_df.
    destruct Hok as [? Hkeys Hsecs Hcl Hlabs Hcomps].
    split; simpl; try done.
    + intros sem. rewrite lookup_insert_is_Some, Hkeys.
      destruct (decide (sel_sem_for_sec = sem)) as [<-|]; tauto.
    + intros sem l [[_ <-]|[_ ?]]%lookup_insert_Some; [|by eapply Hsecs].
      split; [|apply sort_strings_sorted].
      eapply names_ok_perm; [|done]. by rewrite sort_strings_perm.
    + intros c Hc. eapply component_ok_weaken; [by apply Hcomps|done|]; simpl.
      intros x Hx.
      destruct (decide (sel_sem_for_sec = Component.semester c)) as [Heq|].
      * rewrite <-Heq in Hx |- *. rewrite lookup_insert_eq. simpl.
        rewrite sort_strings_perm, elem_of_app. by left.
      * by rewrite lookup_insert_ne.
  - destruct added as [|sec added]; [|simpl in Hcount; lia].
    eexists _, _. split; [done|]. destruct Hok. by split.
Qed.

Lemma elem_of_without_sections sem secs (comps : list Component.t) c' :
  c' ∈ omap (without_sections sem secs) comps ↔
  ∃ c, c ∈ comps ∧
       ((Component.semester c ≠ sem ∧ c' = c) ∨
        (Component.semester c = sem ∧
         filter (λ sec, sec ∉ secs) (Component.sections c) ≠ [] ∧
         c' = with_sections
                (filter (λ sec, sec ∉ secs) (Component.sections c)) c)).
Proof.
  rewrite list_elem_of_omap. unfold without_sections.
  split; intros (c & Hc & Hc'); exists c; (split; [done|]).
  - case_bool_decide as Hsem.
    + destruct (list_truthy _) eqn:Htruthy; [|done].
      apply list_truthy_spec in Htruthy. injection Hc' as <-. by right.
    + injection Hc' as <-. by left.
  - destruct Hc' as [[? ->]|(? & Hne%list_truthy_spec & ->)].
    + by rewrite bool_decide_eq_false_2.
    + rewrite bool_decide_eq_true_2 by done. by rewrite Hne.
Qed.

Lemma remove_sections_fate sem_for_sec_remove secs_to_remove s :
  catalog_ok s →
  possible s (RemoveSections sem_for_sec_remove secs_to_remove) →
  ∃ s' msgs,
    remove_sections sem_for_sec_remove secs_to_remove s = Some (s', msgs) ∧
    catalog_ok s' ∧
    (Session.schedule_df s' = None ∨ s' = s).
Proof.
  intros Hok (_ & Hoptions & _). unfold remove_sections.
  destruct (negb (existsb _ _)); [by eauto 10|].
  destruct (negb (String.eqb sem_for_sec_remove select_placeholder)
            && list_truthy _) eqn:Hshown; [|by eauto 10].
  apply andb_true_iff in Hshown as [_ Hcurrent%list_truthy_spec].
  destruct (Session.sections s !! sem_for_sec_remove) as [current|]
    eqn:Hlookup; [|done].
  simpl in Hoptions.
  destruct secs_to_remove as [|sec_to_remove secs_to_remove'] eqn:Hselected;
    [by eauto 10|].
  rewrite <-Hselected in *. replace (list_truthy secs_to_remove) with true
    by by rewrite Hselected.
  destruct (remove_sections_foldl sem_for_sec_remove secs_to_remove
              (Session.sections s) 0 current Hlookup)
    as (current' & n' & -> & _ & Hhit & Hsub & Hkeep & Hnodup & Hsorted).
  simpl.
  pose proof (process_components_spec sem_for_sec_remove secs_to_remove
                (Session.class_components s)) as Hprocessed.
  destruct (process_components _ _ _) as [[processed warnings] k].
  simpl in Hprocessed. subst processed.
  assert (catalog_ok
            (Session.set_class_components
               (omap (without_sections sem_for_sec_remove secs_to_remove)
                  (Session.class_components s))
               (Session.set_sections
                  (<[sem_for_sec_remove := current']> (Session.sections s))
                  s))) as Hok'.
  { destruct Hok as [? Hkeys Hsecs Hcl Hlabs Hcomps].
    destruct (Hsecs _ _ Hlookup) as [[Hnd Hempty] Hsrt].
    split; simpl; try done.
    - intros sem. rewrite lookup_insert_is_Some, <-Hkeys.
      destruct (decide (sem_for_sec_remove = sem)) as [<-|]; [|tauto].
      rewrite Hlookup. split; eauto.
    - intros sem l [[_ <-]|[_ ?]]%lookup_insert_Some; [|by eapply Hsecs].
      split; [split|]; [by apply Hnodup| |by apply Hsorted].
      intros ?. by apply Hempty, Hsub.
    - intros c' (c & Hc & Hc')%elem_of_without_sections.
      pose proof (Hcomps c Hc) as Hcok.
      destruct Hc' as [[Hother ->]|(Hsame & Hleft & ->)].
      + eapply component_ok_weaken; [done..|]; simpl.
        intros sec. by rewrite lookup_insert_ne.
      + destruct Hcok as (? & ? & ? & ? & Hin & ? & ? & ?).
        split_and!; simpl; [done..| |done|done|done].
        rewrite Hsame, lookup_insert_eq. simpl.
        intros sec [Hsec1 Hsec2]%list_elem_of_filter.
        apply Hkeep; [|done]. specialize (Hin sec Hsec2).
        by rewrite Hsame, Hlookup in Hin. }
  case_bool_decide as Hcount; eexists _, _; (split; [done|]).
  - split; [by apply catalog_ok_schedule_df|]. by left.
  - destruct Hcount. apply Hhit. exists sec_to_remove.
    assert (sec_to_remove ∈ secs_to_remove) as Hsec
      by (rewrite Hselected; apply elem_of_cons; by left).
    split; [done|]. by apply Hoptions.
Qed.

Lemma add_component_ok component_id cc_code cc_title cc_semester cc_sections
    cc_type lab_choice cc_sessions_per_week cc_duration_minutes s :
  catalog_ok s →
  possible s (AddComponent component_id cc_code cc_title cc_semester
                cc_sections cc_type lab_choice cc_sessions_per_week
                cc_duration_minutes) →
  catalog_ok (add_component component_id cc_code cc_title cc_semester
                cc_sections cc_type lab_choice cc_sessions_per_week
                cc_duration_minutes s).1.
Proof.
  intros Hok (Hsem & Hsecs & _ & Hlab & Hsessions & Hduration).
  unfold add_component.
  destruct (negb (list_truthy (Session.semesters s))) eqn:Hshown; [done|].
  destruct (truthy cc_code) eqn:Hcode, (truthy cc_title) eqn:Htitle,
    (truthy cc_semester) eqn:Hsemester, (list_truthy cc_sections) eqn:Hsections;
    simpl; try done.
  apply catalog_ok_schedule_df, catalog_ok_components; [|done].
  intros c [Hc| ->%list_elem_of_singleton]%elem_of_app;
    [by apply (components_ok s)|].
  apply truthy_spec in Hcode, Htitle. apply list_truthy_spec in Hsections.
  split_and!; simpl; [done..|].
  destruct cc_type; [done|].
  destruct (negb (list_truthy (Session.labs s))); [by eexists|].
  exists lab_choice. split; [done|].
  apply elem_of_cons in Hlab as [->|Hlab]; [done|].
  intros ->. by destruct (labs_ok s Hok).
Qed.

Lemma dict_of_list_foldl_is_Some {V} (kvs : list (string * V))
    (m : gmap string V) k :
  is_Some (m !! k) ∨ k ∈ kvs.*1 →
  is_Some (foldl (λ m kv, <[kv.1 := kv.2]> m) m kvs !! k).
Proof.
  revert m. induction kvs as [|[k' v'] kvs IH]; intros m; simpl.
  - intros [?|?%elem_of_nil]; done.
  - intros Hk. apply IH. rewrite lookup_insert_is_Some.
    rewrite elem_of_cons in Hk. simpl in Hk.
    destruct (decide (k' = k)); intuition congruence.
Qed.

Lemma dict_of_list_foldl_Some {V} (kvs : list (string * V))
    (m : gmap string V) k v :
  foldl (λ m kv, <[kv.1 := kv.2]> m) m kvs !! k = Some v →
  m !! k = Some v ∨ (k, v) ∈ kvs.
Proof.
  revert m. induction kvs as [|[k' v'] kvs IH]; intros m; simpl; [by left|].
  intros [[[-> ->]|[_ ?]]%lookup_insert_Some|?]%IH.
  - right. apply elem_of_cons. by left.
  - by left.
  - right. apply elem_of_cons. by right.
Qed.

Lemma remove_component_ok comp_display_name_to_remove s :
  catalog_ok s → possible s (RemoveComponent comp_display_name_to_remove) →
  ∃ s' msgs,
    remove_component comp_display_name_to_remove s = Some (s', msgs) ∧
    catalog_ok s'.
Proof.
  intros Hok Hname. simpl in Hname. unfold remove_component.
  destruct (negb (list_truthy _)); [by eauto|].
  destruct (String.eqb_spec comp_display_name_to_remove remove_placeholder)
    as [|Hne]; simpl; [by eauto|].
  apply elem_of_cons in Hname as [|Hname]; [done|].
  destruct (dict_of_list_foldl_is_Some
              ((λ comp, (component_display_name comp, Component.id comp))
                 <$> Session.class_components s) ∅
              comp_display_name_to_remove) as [id Hid].
  { right. by rewrite <-list_fmap_compose. }
  unfold dict_of_list. rewrite Hid. simpl. eexists _, _. split; [done|].
  apply catalog_ok_schedule_df, catalog_ok_components; [|done].
  intros c [_ Hc]%list_elem_of_filter. by apply (components_ok s).
Qed.

Lemma create_routine_ok shuffle s :
  catalog_ok s →
  ∃ s' msgs, create_routine shuffle s = Some (s', msgs) ∧ catalog_ok s'.
Proof.
  intros Hok. unfold create_routine.
  destruct (pre_generation_checks _ _ _ _).1; [|by eauto].
  destruct (generate_returns (λ _, True) shuffle (Session.class_components s)
              (Session.classrooms s) (Session.labs s)
              (Session.working_days_config s) (Session.start_time_config s)
              (Session.end_time_config s)) as (out & -> & _); [done..|].
  simpl. eexists _, _. split; [done|]. by apply catalog_ok_schedule_df.
Qed.

(** Every submission keeps the invariant and raises nothing. *)
Lemma handle_catalog_ok strip e s :
  catalog_ok s → possible s e →
  ∃ s' msgs, handle strip e s = Some (s', msgs) ∧ catalog_ok s'.
Proof.
  intros Hok Hpossible. destruct e; simpl.
  - eexists _, _. split; [done|]. by apply catalog_ok_config.
  - pose proof (add_classrooms_ok strip new_classrooms_str s Hok) as Hok'.
    destruct (add_classrooms _ _ _). by eexists _, _.
  - by apply remove_classroom_ok.
  - pose proof (add_labs_ok strip new_labs_str s Hok) as Hok'.
    destruct (add_labs _ _ _). by eexists _, _.
  - by apply remove_lab_ok.
  - eexists _, _. split; [done|]. apply clear_all_ok.
  - pose proof (add_semester_ok new_semester s Hok) as Hok'.
    destruct (add_semester _ _). by eexists _, _.
  - by apply remove_semester_ok.
  - by apply add_sections_ok.
  - destruct (remove_sections_fate _ _ _ Hok Hpossible)
      as (s' & msgs & ? & ? & _). eauto.
  - pose proof (add_component_ok _ _ _ _ _ _ _ _ _ s Hok Hpossible) as Hok'.
    destruct (add_component _ _ _ _ _ _ _ _ _ _). by eexists _, _.
  - by apply remove_component_ok.
  - by apply create_routine_ok.
Qed.

Lemma reachable_catalog_ok strip s : reachable strip s → catalog_ok s.
Proof.
  induction 1 as [|s e s' msgs _ IH Hpossible Hhandle];
    [apply catalog_ok_initial|].
  destruct (handle_catalog_ok strip e s IH Hpossible) as (? & ? & Heq & ?).
  rewrite Hhandle in Heq. by injection Heq as <- <-.
Qed.

(** *** The stored routine *)

Lemma keeps_or_invalidates_refl s : keeps_or_invalidates s s.
Proof. by right. Qed.

Lemma handle_fate strip e s s' msgs :
  catalog_ok s → possible s e → handle strip e s = Some (s', msgs) →
  (∀ shuffle, e ≠ CreateRoutine shuffle) →
  keeps_or_invalidates s s'.
Proof.
  intros Hok Hpossible Hhandle Hother. destruct e; simpl in Hhandle.
  - injection Hhandle as <- <-. by right.
  - unfold add_classrooms in Hhandle. repeat case_match; simplify_eq/=;
      (by left) || by right.
  - unfold remove_classroom in Hhandle.
    repeat case_match; simplify_option_eq; (by left) || by right.
  - unfold add_labs in Hhandle. repeat case_match; simplify_eq/=;
      (by left) || by right.
  - unfold remove_lab in Hhandle.
    repeat case_match; simplify_option_eq; (by left) || by right.
  - injection Hhandle as <- <-. by left.
  - unfold add_semester in Hhandle. repeat case_match; simplify_eq/=;
      (by left) || by right.
  - unfold remove_semester in Hhandle.
    repeat case_match; simplify_option_eq; (by left) || by right.
  - unfold add_sections in Hhandle.
    repeat case_match; simplify_option_eq; (by left) || by right.
  - destruct (remove_sections_fate _ _ _ Hok Hpossible)
      as (s'' & msgs' & Heq & _ & Hfate).
    rewrite Hhandle in Heq. injection Heq as <- <-.
    destruct Hfate as [?| ->]; [by left|by right].
  - unfold add_component in Hhandle. repeat case_match; simplify_eq/=;
      (by left) || by right.
  - unfold remove_component in Hhandle.
    repeat case_match; simplify_option_eq; (by left) || by right.
  - by destruct (Hother shuffle).
Qed.

Lemma keeps_or_invalidates_current s s' :
  keeps_or_invalidates s s' → routine_current s → routine_current s'.
Proof.
  intros [Hnone|(Hcomps & Hcl & Hlabs & Hdf)] Hcurrent rows Hrows.
  - congruence.
  - rewrite Hcomps, Hcl, Hlabs. apply Hcurrent. congruence.
Qed.

Lemma create_routine_current shuffle s s' msgs :
  is_shuffle shuffle → routine_current s →
  create_routine shuffle s = Some (s', msgs) → routine_current s'.
Proof.
  intros Hshuffle Hcurrent. unfold create_routine.
  destruct (pre_generation_checks _ _ _ _).1; [|by intros [= <- <-]].
  destruct (generate_schedule_from_components _ _ _ _ _ _ _) as [out|]
    eqn:Hout; [|done].
  simpl. intros [= <- <-] rows [= <-]. simpl. by eexists _, _, _, _, _.
Qed.

Lemma reachable_routine_current strip s :
  reachable strip s → routine_current s.
Proof.
  induction 1 as [|s e s' msgs Hreach IH Hpossible Hhandle]; [by intros ?|].
  pose proof (reachable_catalog_ok _ _ Hreach) as Hok.
  destruct e;
    try (by eapply keeps_or_invalidates_current;
            [eapply handle_fate; [done..|intros ?; discriminate]|]).
  by eapply create_routine_current.
Qed.

(** X14. In every state a session can reach, the catalog is consistent:
    no semester, section, classroom or lab is listed twice or has an empty
    name, the sections of a semester are sorted, and every component has a
    code, a title, a semester of the catalog, at least one section, all of
    them sections of that semester, at least one session a week and at
    least ten minutes. No submission the widgets allow raises an
    exception. *)
Theorem session_invariant strip s :
  reachable strip s →
  catalog_ok s ∧
  ∀ e, possible s e →
    ∃ s' msgs, handle strip e s = Some (s', msgs) ∧ reachable strip s'.
Proof.
  intros Hreach. pose proof (reachable_catalog_ok _ _ Hreach) as Hok.
  split; [done|]. intros e Hpossible.
  destruct (handle_catalog_ok strip e s Hok Hpossible) as (s' & msgs & ? & _).
  exists s', msgs. split; [done|]. by eapply reachable_step.
Qed.

(** X15. A routine that is stored was generated from the components, the
    classrooms and the labs the catalog has now: every form that changes
    one of them clears the stored routine. The working days and the hours
    may have changed since. *)
Theorem stored_routine_is_current strip s rows :
  reachable strip s → Session.schedule_df s = Some rows →
  ∃ shuffle working_days start_time end_time out,
    is_shuffle shuffle ∧
    generate_schedule_from_components shuffle (Session.class_components s)
      (Session.classrooms s) (Session.labs s) working_days start_time
      end_time = Some out ∧
    rows = schedule out.
Proof. intros Hreach. by apply (reachable_routine_current strip s). Qed.

Lemma catalog_rooms_available s :
  catalog_ok s →
  (pre_generation_checks (Session.class_components s)
     (Session.working_days_config s) (Session.classrooms s)
     (Session.labs s)).1 = true →
  Session.class_components s ≠ [] ∧
  Session.working_days_config s ≠ [] ∧
  rooms_available (Session.classrooms s) (Session.labs s)
    (Session.class_components s).
Proof.
  intros Hok.
  destruct (pre_generation_checks_ready (Session.class_components s)
              (Session.working_days_config s) (Session.classrooms s)
              (Session.labs s)) as [-> _].
  rewrite !andb_true_iff, !negb_true_iff, !andb_false_iff, !negb_false_iff,
    !list_truthy_spec.
  intros [[[Hcomps Hdays] Htheory] Hlab]. split_and!; [done..|].
  intros c Hc. destruct (components_ok s Hok c Hc)
    as (_ & _ & _ & _ & _ & _ & _ & Hroom).
  unfold room_available. destruct (Component.class_type c) eqn:Htype.
  - split; [|by destruct (classrooms_ok s Hok)].
    destruct Htheory as [Hnone|?]; [|done].
    assert (needs_theory_room (Session.class_components s) = true)
      by (apply needs_theory_room_spec; eauto).
    congruence.
  - destruct Hroom as (room & Hroom & Hname). rewrite Hroom.
    destruct (decide (room = any_available_lab)) as [->|Hother].
    + right. split; [|by destruct (labs_ok s Hok)].
      destruct Hlab as [Hnone|?]; [|done].
      assert (needs_lab_room_any (Session.class_components s) = true)
        by (apply needs_lab_room_any_spec; eauto).
      congruence.
    + left. unfold names_specific_room. simpl.
      apply andb_true_iff. split; [by apply truthy_spec|].
      apply negb_true_iff, bool_decide_eq_false. congruence.
Qed.

(** X16. In a state a session can reach, when the button "Create Routine"
    is enabled and the duration of every component fits the daily window,
    the button stores a routine that is not empty and has a row for at
    least half of the tasks; the generator reports no input error and the
    success message is shown. *)
Theorem button_gives_routine strip shuffle s :
  reachable strip s → is_shuffle shuffle →
  (pre_generation_checks (Session.class_components s)
     (Session.working_days_config s) (Session.classrooms s)
     (Session.labs s)).1 = true →
  (∀ c, c ∈ Session.class_components s →
     time_to_minutes (Session.start_time_config s)
     + Component.duration_minutes c
     ≤ time_to_minutes (Session.end_time_config s)) →
  ∃ s' msgs rows,
    create_routine shuffle s = Some (s', msgs) ∧
    Session.schedule_df s' = Some rows ∧
    rows ≠ [] ∧
    (length (expand_tasks (Session.class_components s))
     ≤ 2 * length rows)%nat ∧
    RoutineGenerated ∈ msgs ∧
    (∀ m, FromGenerator m ∈ msgs → is_error m = false).
Proof.
  intros Hreach Hshuffle Hready Hfit.
  pose proof (reachable_catalog_ok _ _ Hreach) as Hok.
  destruct (catalog_rooms_available s Hok Hready) as (Hcomps & Hdays & Hrooms).
  unfold create_routine. rewrite Hready.
  destruct (generate_places_half shuffle _ _ _
              (Session.working_days_config s) _ _ Hshuffle Hrooms Hfit)
    as (out & Hout & _ & Hhalf).
  destruct (generate_ready shuffle (Session.class_components s)
              (Session.classrooms s) (Session.labs s)
              (Session.working_days_config s) (Session.start_time_config s)
              (Session.end_time_config s)) as (out' & Hout' & [Herrors _]).
  rewrite Hout in Hout' |- *. injection Hout' as <-. simpl.
  assert (∀ m, m ∈ messages out → is_error m = false) as Hnone
    by by apply Herrors.
  clear Herrors. rename Hnone into Herrors.
  specialize (Hhalf Herrors).
  assert (0 < length (expand_tasks (Session.class_components s)))%nat
    as Htasks.
  { destruct (Session.class_components s) as [|c comps] eqn:Hcs; [done|].
    destruct (components_ok s Hok c) as (_ & _ & _ & Hsecs & _ & Hspw & _).
    { rewrite Hcs. apply elem_of_cons. by left. }
    destruct (Component.sections c) as [|section sections] eqn:Hsections;
      [done|].
    assert (make_task c section 0 ∈ expand_tasks (c :: comps)) as Hin.
    { apply elem_of_expand_tasks. exists c, section, 0%nat.
      split_and!; [apply elem_of_cons; by left| |lia|done].
      rewrite Hsections. apply elem_of_cons. by left. }
    destruct (expand_tasks (c :: comps)); [by apply elem_of_nil in Hin|].
    simpl. lia. }
  assert (schedule out ≠ []) as Hrows
    by (destruct (schedule out); [simpl in Hhalf; lia|done]).
  eexists _, _, (schedule out). split_and!; [done..| |].
  - apply elem_of_app. right.
    destruct (schedule out); [done|]. apply elem_of_cons. by left.
  - intros m [Hm|Hm]%elem_of_app.
    + apply list_elem_of_fmap in Hm as (m' & [= <-] & Hm'). by apply Herrors.
    + destruct (list_truthy (schedule out)); [|by apply elem_of_nil in Hm].
      by apply list_elem_of_singleton in Hm.
Qed.

(** X17. The forms "Add Classrooms" and "Add Labs", submitted with some
    text, append to the pool the names of the text that are not empty and
    not in the pool yet, each once and in the order of the text, report
    how many they added, and clear the stored routine; nothing else
    changes. *)
Theorem add_rooms_appends strip text s :
  truthy text = true →
  (∃ added,
     new_names (Session.classrooms s) (stripped_names strip text) added ∧
     add_classrooms strip text s
     = (Session.set_schedule_df None
          (Session.set_classrooms (Session.classrooms s ++ added) s),
        [if bool_decide (length added ≠ 0%nat) then AddedRooms (length added)
         else NoNewUniqueRooms])) ∧
  (∃ added,
     new_names (Session.labs s) (stripped_names strip text) added ∧
     add_labs strip text s
     = (Session.set_schedule_df None
          (Session.set_labs (Session.labs s ++ added) s),
        [if bool_decide (length added ≠ 0%nat) then AddedRooms (length added)
         else NoNewUniqueRooms])).
Proof.
  intros Htext. unfold add_classrooms, add_labs. rewrite Htext. split.
  - destruct (add_unique_spec (Session.classrooms s)
                (stripped_names strip text)) as (added & -> & Hnew).
    by exists added.
  - destruct (add_unique_spec (Session.labs s) (stripped_names strip text))
      as (added & -> & Hnew).
    by exists added.
Qed.

Lemma any_sections_defined (sections : gmap string (list string)) sem current :
  sections !! sem = Some current → current ≠ [] →
  existsb list_truthy (map_to_list sections).*2 = true.
Proof.
  intros Hlookup Hcurrent. apply existsb_exists. exists current.
  split; [|by apply list_truthy_spec].
  apply list_elem_of_In, list_elem_of_fmap. exists (sem, current).
  split; [done|]. by apply elem_of_map_to_list.
Qed.

(** X18. Removing sections of a semester, when the list of the semester
    names no section twice: the list loses exactly the sections picked;
    a component of the semester loses them too and goes when none of its
    sections is left, so that no component of the semester mentions a
    removed section; the other components stay as they are, in their
    order; the stored routine is cleared. *)
Theorem remove_sections_prunes sem_for_sec_remove secs_to_remove s current :
  sem_for_sec_remove ≠ select_placeholder →
  Session.sections s !! sem_for_sec_remove = Some current →
  NoDup current →
  secs_to_remove ≠ [] → secs_to_remove ⊆ current →
  ∃ s' msgs current',
    remove_sections sem_for_sec_remove secs_to_remove s = Some (s', msgs) ∧
    Session.sections s'
    = <[sem_for_sec_remove := current']> (Session.sections s) ∧
    (∀ sec, sec ∈ current' ↔ sec ∈ current ∧ sec ∉ secs_to_remove) ∧
    Session.class_components s'
    = omap (without_sections sem_for_sec_remove secs_to_remove)
        (Session.class_components s) ∧
    (∀ c sec, c ∈ Session.class_components s' →
       Component.semester c = sem_for_sec_remove →
       sec ∈ secs_to_remove → sec ∉ Component.sections c) ∧
    Session.schedule_df s' = None.
Proof.
  intros Hsem Hlookup Hnodup Hsecs Hoptions.
  assert (current ≠ []) as Hcurrent.
  { destruct secs_to_remove as [|sec secs]; [done|].
    specialize (Hoptions sec ltac:(apply elem_of_cons; by left)).
    intros ->. by apply elem_of_nil in Hoptions. }
  unfold remove_sections.
  rewrite (any_sections_defined _ _ _ Hlookup Hcurrent). simpl.
  apply String.eqb_neq in Hsem. rewrite Hsem, Hlookup. simpl.
  apply list_truthy_spec in Hcurrent as ->.
  apply list_truthy_spec in Hsecs as Hsecs'. rewrite Hsecs'.
  destruct (remove_sections_foldl sem_for_sec_remove secs_to_remove
              (Session.sections s) 0 current Hlookup)
    as (current' & n' & -> & _ & Hhit & Hsub & Hkeep & Hgone & _).
  simpl.
  pose proof (process_components_spec sem_for_sec_remove secs_to_remove
                (Session.class_components s)) as Hprocessed.
  destruct (process_components _ _ _) as [[processed warnings] k].
  simpl in Hprocessed. subst processed.
  rewrite bool_decide_eq_true_2.
  2:{ apply Hhit. destruct secs_to_remove as [|sec secs]; [done|].
      exists sec. split; [apply elem_of_cons; by left|].
      apply Hoptions, elem_of_cons. by left. }
  eexists _, _, current'. split; [done|]. simpl.
  split_and!; [done| |done| |done].
  - intros sec. split.
    + intros Hsec. split; [by apply Hsub|].
      intros ?. by apply (proj2 (Hgone Hnodup) sec).
    + intros [? ?]. by apply Hkeep.
  - intros c' sec (c & Hc & Hc')%elem_of_without_sections Hsame Hsec.
    destruct Hc' as [[Hother ->]|(_ & _ & ->)]; [done|]. simpl.
    rewrite list_elem_of_filter. tauto.
Qed.

Lemma dict_of_list_foldl_notin {V} (kvs : list (string * V))
    (m : gmap string V) k :
  k ∉ kvs.*1 → foldl (λ m kv, <[kv.1 := kv.2]> m) m kvs !! k = m !! k.
Proof.
  revert m. induction kvs as [|[k' v'] kvs IH]; intros m; simpl; [done|].
  rewrite not_elem_of_cons. intros [Hne Hk]. simpl in Hne.
  rewrite IH by done. by rewrite lookup_insert_ne.
Qed.

Lemma dict_of_list_last {V} (kvs1 kvs2 : list (string * V)) k v :
  k ∉ kvs2.*1 → dict_of_list (kvs1 ++ (k, v) :: kvs2) !! k = Some v.
Proof.
  intros Hk. unfold dict_of_list. rewrite foldl_app. simpl.
  rewrite dict_of_list_foldl_notin by done. apply lookup_insert_eq.
Qed.

Lemma last_occurrence {A} (f : A → string) (l : list A) x :
  x ∈ f <$> l →
  ∃ l1 y l2, l = l1 ++ y :: l2 ∧ f y = x ∧ x ∉ f <$> l2.
Proof.
  induction l as [|a l IH]; simpl; [by intros ?%elem_of_nil|].
  intros Hx. destruct (decide (x ∈ f <$> l)) as [Hin|Hout].
  - destruct (IH Hin) as (l1 & y & l2 & -> & ? & ?).
    by exists (a :: l1), y, l2.
  - apply elem_of_cons in Hx as [->|?]; [|done]. by exists [], a, l.
Qed.

Lemma filter_all {A} (P : A → Prop) `{!∀ x, Decision (P x)} (l : list A) :
  (∀ x, x ∈ l → P x) → filter P l = l.
Proof.
  induction l as [|x l IH]; intros Hall; [done|].
  rewrite filter_cons_True by (apply Hall, elem_of_cons; by left).
  rewrite IH; [done|]. intros y Hy. apply Hall, elem_of_cons. by right.
Qed.

(** X19. The button "Confirm Remove", for a display name of the list,
    removes the last component that is shown under this name, when the
    identifiers of the components are distinct: of two components with the
    same code, title, sections and semester the first cannot be removed
    before the second. The stored routine is cleared. *)
Theorem remove_component_removes_last comp_display_name_to_remove s :
  NoDup (Component.id <$> Session.class_components s) →
  comp_display_name_to_remove ≠ remove_placeholder →
  comp_display_name_to_remove
  ∈ component_display_name <$> Session.class_components s →
  ∃ before comp after,
    Session.class_components s = before ++ comp :: after ∧
    component_display_name comp = comp_display_name_to_remove ∧
    (∀ c, c ∈ after →
       component_display_name c ≠ comp_display_name_to_remove) ∧
    remove_component comp_display_name_to_remove s
    = Some (Session.set_schedule_df None
              (Session.set_class_components (before ++ after) s),
            [ComponentRemoved]).
Proof.
  intros Hids Hname Hin.
  destruct (last_occurrence _ _ _ Hin) as (before & comp & after & Hcomps
                                           & Hcomp & Hlast).
  exists before, comp, after. split_and!; [done..| |].
  { intros c Hc Heq. apply Hlast, list_elem_of_fmap. by exists c. }
  unfold remove_component. rewrite Hcomps.
  replace (list_truthy (before ++ comp :: after)) with true
    by by destruct before.
  simpl. apply String.eqb_neq in Hname. rewrite Hname. simpl.
  rewrite fmap_app, fmap_cons, <-Hcomp.
  rewrite dict_of_list_last
    by (rewrite <-list_fmap_compose; by rewrite Hcomp).
  simpl. do 3 f_equal.
  rewrite Hcomps, fmap_app, fmap_cons in Hids.
  apply NoDup_app in Hids as (_ & Hdisjoint & [Hfresh _]%NoDup_cons).
  rewrite filter_app, filter_cons_False by (intros Hne; by apply Hne).
  assert (filter (λ c, Component.id c ≠ Component.id comp) before = before)
    as ->.
  { apply filter_all. intros c Hc Heq. apply (Hdisjoint (Component.id c)).
    - apply list_elem_of_fmap. by exists c.
    - rewrite Heq. apply elem_of_cons. by left. }
  assert (filter (λ c, Component.id c ≠ Component.id comp) after = after)
    as ->; [|done].
  apply filter_all. intros c Hc Heq. apply Hfresh. rewrite <-Heq.
  apply list_elem_of_fmap. by exists c.
Qed.

(** * Instances *)

Lemma two_lectures_rooms :
  rooms_available ["C101"] [] two_lectures.
Proof.
  intros c Hc. unfold two_lectures in Hc. members Hc; simpl;
    (split; [done|by intros ?%list_elem_of_singleton]).
Qed.

Lemma minutes_to_time_of_time_witness :
  minutes_to_time (time_to_minutes (Some {| hour := 8; minute := 30 |}))
  = Some {| hour := 8; minute := 30 |}.
Proof.
  apply (minutes_to_time_of_time {| hour := 8; minute := 30 |}).
  unfold valid_time. simpl. lia.
Defined.

Lemma parse_format_time_slot_witness :
  parse_time_slot read_decimal (format_time_slot 480 50) = Some (480, 480 + 50).
Proof.
  apply (parse_format_time_slot read_decimal 480 50).
  - apply read_decimal_fmt_02d.
  - lia.
  - lia.
Defined.

Lemma parse_format_negative_witness :
  parse_time_slot read_decimal (format_time_slot (-1) 10) = None.
Proof.
  apply (parse_format_negative read_decimal (-1) 10). left. lia.
Defined.

(** Both lectures are for section A of one semester and are placed on
    Monday, see [one_room_one_day]. *)
Lemma section_exclusivity_without_overflow_witness :
  returns (generate_schedule_from_components reversed lectures_of_section_A
             ["C101"] [] ["Mon"] at_8_00 at_17_00)
    (λ out, day_exclusive (schedule out) ∧ section_exclusive (schedule out)).
Proof.
  apply (section_exclusivity_without_overflow reversed lectures_of_section_A
           ["C101"] [] ["Mon"] at_8_00 at_17_00).
  - apply reversed_is_shuffle.
  - apply lectures_of_section_A_duration.
  - vm_compute. reflexivity.
Defined.

Lemma time_slot_reads_back_witness :
  returns (generate_schedule_from_components reversed two_lectures
             ["C101"] [] ["Mon"] at_8_00 at_9_00)
    (λ out, ∀ r, r ∈ schedule out →
       Time_Slot r
       = format_time_slot (Start_Minute r) (End_Minute r - Start_Minute r) ∧
       parse_time_slot read_decimal (Time_Slot r)
       = Some (Start_Minute r, End_Minute r)).
Proof.
  apply (time_slot_reads_back read_decimal reversed two_lectures
           ["C101"] [] ["Mon"] at_8_00 at_9_00).
  - apply read_decimal_fmt_02d.
  - apply reversed_is_shuffle.
  - apply two_lectures_duration.
  - simpl. lia.
Defined.

Lemma other_days_use_first_room_witness :
  returns (generate_schedule_from_components reversed two_lectures
             ["C101"; "C102"] [] ["Mon"; "Tue"] at_8_00 at_17_00)
    (λ out, ∀ r, r ∈ schedule out → Day r ≠ "Mon" →
       ∃ t, t ∈ expand_tasks two_lectures ∧ row_of_task t r ∧
            first_room ["C101"; "C102"] [] t (Room_Lab r)).
Proof.
  apply (other_days_use_first_room reversed two_lectures
           ["C101"; "C102"] [] ["Mon"; "Tue"] at_8_00 at_17_00 "Mon").
  - apply reversed_is_shuffle.
  - reflexivity.
Defined.

Lemma nothing_to_place_witness :
  generate_schedule_from_components in_order
    [lecture "c1" "CSE101" [] 1 50] ["C101"] [] ["Mon"] at_8_00 at_17_00
  = Some {| messages := [PlaceholderWarning; InfoNoEntries];
            schedule := [] |}.
Proof.
  apply (nothing_to_place in_order [lecture "c1" "CSE101" [] 1 50]
           ["C101"] [] ["Mon"] at_8_00 at_17_00).
  - apply in_order_is_shuffle.
  - reflexivity.
  - intros c Hc. members Hc. by left.
Defined.

Lemma all_placed_when_demand_fits_witness :
  all_fit ["C101"] [] ["Mon"]
    (time_to_minutes at_8_00) (time_to_minutes at_17_00)
    (reversed (expand_tasks two_lectures))
    (initial_state ["Mon"] (time_to_minutes at_8_00)) = true ∧
  returns (generate_schedule_from_components reversed two_lectures
             ["C101"] [] ["Mon"] at_8_00 at_17_00)
    (λ out,
       (∀ m, m ∈ messages out → is_error m = false ∧ is_unplaced m = false) ∧
       length (schedule out) = length (expand_tasks two_lectures) ∧
       day_exclusive (schedule out)).
Proof.
  apply (all_placed_when_demand_fits reversed two_lectures
           ["C101"] [] ["Mon"] at_8_00 at_17_00).
  - apply reversed_is_shuffle.
  - discriminate.
  - discriminate.
  - apply two_lectures_duration.
  - apply two_lectures_rooms.
  - vm_compute. discriminate.
Defined.

Lemma at_least_half_placed_witness :
  returns (generate_schedule_from_components reversed two_lectures
             ["C101"] [] ["Mon"] at_8_00 at_9_00)
    (λ out,
       (2 * unplaced_count (messages out)
        ≤ length (expand_tasks two_lectures))%nat ∧
       ((∀ m, m ∈ messages out → is_error m = false) →
        (length (expand_tasks two_lectures)
         ≤ 2 * length (schedule out))%nat)).
Proof.
  apply (at_least_half_placed reversed two_lectures
           ["C101"] [] ["Mon"] at_8_00 at_9_00).
  - apply reversed_is_shuffle.
  - apply two_lectures_rooms.
  - intros c Hc. unfold two_lectures in Hc. members Hc; vm_compute;
      discriminate.
Defined.

(** The example catalog is entered through the forms. *)
Lemma spring_catalog_reachable : reachable no_strip spring_catalog.
Proof.
  pose proof (reachable_initial no_strip) as H0.
  pose proof (reachable_step no_strip _ (AddSemester "Spring") _ _ H0 I
                eq_refl) as H1.
  assert (possible
            (Session.set_schedule_df None
               (Session.set_sections (<["Spring" := []]> ∅)
                  (Session.set_semesters ["Spring"] Session.initial)))
            (AddSections "Spring" "A,B")) as Hsel
    by (unfold possible; compute_done).
  pose proof (reachable_step no_strip _ (AddSections "Spring" "A,B") _ _ H1
                Hsel eq_refl) as H2.
  pose proof (reachable_step no_strip _ (AddClassrooms "C101") _ _ H2 I
                eq_refl) as H3.
  eapply (reachable_step no_strip _
            (AddComponent "c2" "MAT101" "Lecture" "Spring" ["A"] Theory
               any_available_lab 2 50));
    [eapply (reachable_step no_strip _
               (AddComponent "c1" "CSE101" "Lecture" "Spring" ["A"; "B"]
                  Theory any_available_lab 1 50));
       [exact H3| |vm_compute; reflexivity]| |vm_compute; reflexivity].
  - unfold possible. split_and!; compute_done.
  - unfold possible. split_and!; compute_done.
Qed.

(** The routine of the example, stored by the button. *)
Lemma spring_routine_reachable :
  reachable no_strip
    (Session.set_schedule_df (Some spring_routine) spring_catalog).
Proof.
  eapply (reachable_step no_strip spring_catalog (CreateRoutine in_order)).
  - apply spring_catalog_reachable.
  - apply in_order_is_shuffle.
  - vm_compute. reflexivity.
Qed.

Lemma session_invariant_witness :
  catalog_ok spring_catalog ∧
  ∀ e, possible spring_catalog e →
    ∃ s' msgs,
      handle no_strip e spring_catalog = Some (s', msgs) ∧
      reachable no_strip s'.
Proof.
  apply (session_invariant no_strip spring_catalog).
  apply spring_catalog_reachable.
Defined.

Lemma stored_routine_is_current_witness :
  ∃ shuffle working_days start_time end_time out,
    is_shuffle shuffle ∧
    generate_schedule_from_components shuffle
      (Session.class_components spring_catalog)
      (Session.classrooms spring_catalog) (Session.labs spring_catalog)
      working_days start_time end_time = Some out ∧
    spring_routine = schedule out.
Proof.
  apply (stored_routine_is_current no_strip
           (Session.set_schedule_df (Some spring_routine) spring_catalog)
           spring_routine).
  - apply spring_routine_reachable.
  - reflexivity.
Defined.

Lemma button_gives_routine_witness :
  ∃ s' msgs rows,
    create_routine in_order spring_catalog = Some (s', msgs) ∧
    Session.schedule_df s' = Some rows ∧
    rows ≠ [] ∧
    (length (expand_tasks (Session.class_components spring_catalog))
     ≤ 2 * length rows)%nat ∧
    RoutineGenerated ∈ msgs ∧
    (∀ m, FromGenerator m ∈ msgs → is_error m = false).
Proof.
  apply (button_gives_routine no_strip in_order spring_catalog).
  - apply spring_catalog_reachable.
  - apply in_order_is_shuffle.
  - vm_compute. reflexivity.
  - intros c Hc. simpl in Hc. members Hc; vm_compute; discriminate.
Defined.

Lemma add_rooms_appends_witness :
  (∃ added,
     new_names (Session.classrooms spring_catalog)
       (stripped_names no_strip "C101,C102") added ∧
     add_classrooms no_strip "C101,C102" spring_catalog
     = (Session.set_schedule_df None
          (Session.set_classrooms
             (Session.classrooms spring_catalog ++ added) spring_catalog),
        [if bool_decide (length added ≠ 0%nat) then AddedRooms (length added)
         else NoNewUniqueRooms])) ∧
  (∃ added,
     new_names (Session.labs spring_catalog)
       (stripped_names no_strip "C101,C102") added ∧
     add_labs no_strip "C101,C102" spring_catalog
     = (Session.set_schedule_df None
          (Session.set_labs (Session.labs spring_catalog ++ added)
             spring_catalog),
        [if bool_decide (length added ≠ 0%nat) then AddedRooms (length added)
         else NoNewUniqueRooms])).
Proof.
  apply (add_rooms_appends no_strip "C101,C102" spring_catalog).
  reflexivity.
Defined.

Lemma remove_sections_prunes_witness :
  ∃ s' msgs current',
    remove_sections "Spring" ["A"] spring_catalog = Some (s', msgs) ∧
    Session.sections s'
    = <["Spring" := current']> (Session.sections spring_catalog) ∧
    (∀ sec, sec ∈ current' ↔ sec ∈ ["A"; "B"] ∧ sec ∉ ["A"]) ∧
    Session.class_components s'
    = omap (without_sections "Spring" ["A"])
        (Session.class_components spring_catalog) ∧
    (∀ c sec, c ∈ Session.class_components s' →
       Component.semester c = "Spring" →
       sec ∈ ["A"] → sec ∉ Component.sections c) ∧
    Session.schedule_df s' = None.
Proof.
  apply (remove_sections_prunes "Spring" ["A"] spring_catalog ["A"; "B"]).
  - discriminate.
  - vm_compute. reflexivity.
  - compute_done.
  - discriminate.
  - compute_done.
Defined.

Lemma remove_component_removes_last_witness :
  ∃ before comp after,
    Session.class_components spring_catalog = before ++ comp :: after ∧
    component_display_name comp = "Lecture (MAT101) - A (Spring)" ∧
    (∀ c, c ∈ after →
       component_display_name c ≠ "Lecture (MAT101) - A (Spring)") ∧
    remove_component "Lecture (MAT101) - A (Spring)" spring_catalog
    = Some (Session.set_schedule_df None
              (Session.set_class_components (before ++ after) spring_catalog),
            [ComponentRemoved]).
Proof.
  apply (remove_component_removes_last "Lecture (MAT101) - A (Spring)"
           spring_catalog).
  - compute_done.
  - discriminate.
  - compute_done.
Defined.

(** * The grid *)

Lemma elem_of_unique l x : x ∈ unique l ↔ x ∈ l.
Proof.
  induction l as [|y l IH]; simpl; [done|].
  rewrite !elem_of_cons, list_elem_of_filter, IH.
  destruct (decide (x = y)); tauto.
Qed.

Lemma insert_by_key_perm key x l : insert_by_key key x l ≡ₚ x :: l.
Proof.
  induction l as [|y l IH]; simpl; [done|].
  destruct (key x <=? key y)%Z; [done|]. rewrite IH. apply Permutation_swap.
Qed.

Lemma sorted_by_key_perm key l : sorted_by_key key l ≡ₚ l.
Proof.
  induction l as [|x l IH]; simpl; [done|].
  by rewrite insert_by_key_perm, IH.
Qed.

Lemma insert_for_display_perm working_days r rows :
  insert_for_display working_days r rows ≡ₚ r :: rows.
Proof.
  induction rows as [|r' rows IH]; simpl; [done|].
  destruct (display_key_leb _ _); [done|]. rewrite IH.
  apply Permutation_swap.
Qed.

Lemma sort_for_display_perm working_days rows :
  sort_for_display working_days rows ≡ₚ rows.
Proof.
  induction rows as [|r rows IH]; simpl; [done|].
  by rewrite insert_for_display_perm, IH.
Qed.

Lemma sorted_by_start_Some py_int l :
  (∀ ts, ts ∈ l → is_Some (parse_time_slot py_int ts)) →
  ∃ l', sorted_by_start py_int l = Some l' ∧ l' ≡ₚ l.
Proof.
  intros Hall. unfold sorted_by_start.
  destruct l as [|a [|b l]]; [by eexists..|].
  assert (forallb (λ ts, bool_decide (is_Some (parse_time_slot py_int ts)))
            (a :: b :: l) = true) as ->.
  { apply forallb_forall. intros ts Hts%list_elem_of_In.
    apply bool_decide_eq_true. by apply Hall. }
  eexists. split; [done|]. apply sorted_by_key_perm.
Qed.

Lemma mapM_Some_elem {A B} (f : A → option B) (l : list A) :
  (∀ x, x ∈ l → is_Some (f x)) →
  ∃ k, mapM f l = Some k ∧ ∀ x, x ∈ l → ∃ y, y ∈ k ∧ f x = Some y.
Proof.
  intros Hall.
  destruct (mapM_is_Some_2 f l) as [k Hk].
  { apply Forall_forall. intros x Hx. by apply Hall. }
  exists k. split; [done|]. apply mapM_Some_1 in Hk.
  intros x Hx. apply list_elem_of_lookup in Hx as [i Hi].
  destruct (Forall2_lookup_l _ _ _ _ _ Hk Hi) as (y & Hy & Hfx).
  exists y. split; [|done]. by eapply list_elem_of_lookup_2.
Qed.

Lemma row_data_foldl_lookup (f : string → string) sections
    (m : gmap string string) k :
  foldl (λ m k, <[k := f k]> m) m sections !! k
  = if decide (k ∈ sections) then Some (f k) else m !! k.
Proof.
  revert m. induction sections as [|a sections IH]; intros m; simpl.
  - by destruct (decide (k ∈ [])) as [?%elem_of_nil|].
  - rewrite IH. destruct (decide (k ∈ sections)) as [Hin|Hout].
    + rewrite decide_True; [done|]. apply elem_of_cons. by right.
    + destruct (decide (a = k)) as [->|Hne].
      * rewrite lookup_insert_eq, decide_True; [done|].
        apply elem_of_cons. by left.
      * rewrite lookup_insert_ne by done.
        rewrite decide_False; [done|].
        rewrite elem_of_cons. intros [?|?]; done.
Qed.

#[global] Instance section_overlap_symmetric :
  Symmetric (λ r1 r2 : Row,
               Semester r1 = Semester r2 → Section_ r1 = Section_ r2 →
               Day r1 = Day r2 → ¬ overlap r1 r2).
Proof. intros r1 r2 H ? ? ? [? ?]. apply H; [done..|]. by split. Qed.

Lemma section_exclusive_perm rows rows' :
  rows ≡ₚ rows' → section_exclusive rows → section_exclusive rows'.
Proof.
  unfold section_exclusive. intros Hperm H%pairwise_ForallOrdPairs.
  apply ForallOrdPairs_pairwise; [apply _|].
  apply (ForallOrdPairs_perm _ rows rows' Hperm H).
Qed.

(** When no section has two sessions at once, a cell has one row at
    most. *)
Lemma one_row_per_cell py_int rows r r' :
  section_exclusive rows →
  (∀ r, r ∈ rows →
     parse_time_slot py_int (Time_Slot r)
     = Some (Start_Minute r, End_Minute r)) →
  (∀ r, r ∈ rows → Start_Minute r < End_Minute r) →
  r ∈ rows → r' ∈ rows →
  Semester r = Semester r' → Day r = Day r' →
  Time_Slot r = Time_Slot r' → Section_ r = Section_ r' →
  r = r'.
Proof.
  intros Hexclusive Hparse Hlen Hr Hr' Hsem Hday Hslot Hsec.
  pose proof (Hparse r Hr) as Hp. pose proof (Hparse r' Hr') as Hp'.
  rewrite Hslot, Hp' in Hp. injection Hp as Hstart Hend.
  pose proof (Hlen r Hr). pose proof (Hlen r' Hr').
  apply list_elem_of_lookup in Hr as [i Hi].
  apply list_elem_of_lookup in Hr' as [j Hj].
  destruct (decide (i = j)) as [->|Hij]; [congruence|].
  destruct (Hexclusive i j r r' Hij Hi Hj Hsem Hsec Hday).
  split; lia.
Qed.

Lemma NoDup_unique l : NoDup (unique l).
Proof.
  induction l as [|x l IH]; simpl; [constructor|].
  constructor; [|by apply NoDup_filter].
  rewrite list_elem_of_filter. by intros [? _].
Qed.

(** The columns of a table repeat no name exactly when no row is of a
    section named like the first two columns. *)
Lemma columns_NoDup (df : list Row) :
  NoDup (["Day"; "Time Slot"] ++ sort_strings (unique (Section_ <$> df))) ↔
  ∀ r, r ∈ df → Section_ r ≠ "Day" ∧ Section_ r ≠ "Time Slot".
Proof.
  assert (∀ x, x ∈ sort_strings (unique (Section_ <$> df)) ↔
               ∃ r, r ∈ df ∧ Section_ r = x) as Hin.
  { intros x. rewrite sort_strings_perm, elem_of_unique, list_elem_of_fmap.
    split; intros (r & ? & ?); eauto. }
  simpl. rewrite !NoDup_cons, elem_of_cons, !Hin. split.
  - intros (Hday & Hslot & _) r Hr. split; intros Heq.
    + apply Hday. right. eauto.
    + apply Hslot. eauto.
  - intros Hnames. split_and!.
    + intros [?|(r & Hr & Heq)]; [done|]. by destruct (Hnames r Hr).
    + intros (r & Hr & Heq). by destruct (Hnames r Hr).
    + rewrite sort_strings_perm. apply NoDup_unique.
Qed.

Lemma semester_table_dup py_int working_days sections semester_val grp :
  ¬ NoDup (["Day"; "Time Slot"] ++ sections) →
  semester_table py_int working_days sections semester_val grp = None.
Proof.
  intros Hdup. unfold semester_table.
  destruct (mapM _ _); simpl; [|done]. by rewrite bool_decide_eq_false_2.
Qed.

Lemma semester_table_Some py_int working_days sections semester_val grp :
  NoDup (["Day"; "Time Slot"] ++ sections) →
  (∀ r, r ∈ grp → is_Some (parse_time_slot py_int (Time_Slot r))) →
  ∃ table,
    semester_table py_int working_days sections semester_val grp
    = Some table ∧
    table_semester table = semester_val ∧
    ∀ r, r ∈ grp →
      row_data grp sections (Day r) (Time_Slot r) ∈ table_rows table.
Proof.
  intros Hcols Hparse. unfold semester_table.
  destruct (mapM_Some_elem
              (λ day_val,
                 unique_time_slots_on_day ←
                   sorted_by_start py_int
                     (unique (Time_Slot
                                <$> filter (λ r, Day r = day_val) grp));
                 Some (row_data grp sections day_val
                         <$> (unique_time_slots_on_day : list string)))
              (sorted_by_key (day_order working_days)
                 (unique (Day <$> grp))))
    as (data & -> & Hdata).
  { intros day_val _.
    destruct (sorted_by_start_Some py_int
                (unique (Time_Slot
                           <$> filter (λ r, Day r = day_val) grp)))
      as (slots & -> & _); [|by eexists].
    intros ts (r & -> & [_ Hr]%list_elem_of_filter)%elem_of_unique
                                                   %list_elem_of_fmap.
    by apply Hparse. }
  simpl. rewrite bool_decide_eq_true_2 by done.
  eexists. split; [done|]. split; [done|]. simpl.
  intros r Hr.
  destruct (Hdata (Day r)) as (lines & Hlines & Hday).
  { rewrite sorted_by_key_perm. apply elem_of_unique, list_elem_of_fmap.
    by exists r. }
  destruct (sorted_by_start_Some py_int
              (unique (Time_Slot <$> filter (λ r', Day r' = Day r) grp)))
    as (slots & Hslots & Hperm).
  { intros ts (r' & -> & [_ Hr']%list_elem_of_filter)%elem_of_unique
                                                     %list_elem_of_fmap.
    by apply Hparse. }
  rewrite Hslots in Hday. simpl in Hday. injection Hday as <-.
  apply list_elem_of_join. eexists. split; [|done].
  apply list_elem_of_fmap. exists (Time_Slot r). split; [done|].
  rewrite Hperm. apply elem_of_unique, list_elem_of_fmap.
  exists r. split; [done|]. by apply list_elem_of_filter.
Qed.

(** A row of a section named like one of the first two columns makes the
    tables fail. *)
Lemma display_grid_duplicate py_int working_days rows r :
  r ∈ rows → ¬ (Section_ r ≠ "Day" ∧ Section_ r ≠ "Time Slot") →
  display_grid py_int working_days rows = None.
Proof.
  intros Hr Hbad. unfold display_grid.
  set (df := sort_for_display working_days rows).
  assert (df ≡ₚ rows) as Hperm by apply sort_for_display_perm.
  destruct (sorted_by_start _ _); simpl; [|done].
  apply mapM_None_2, Exists_exists.
  exists (Semester r, filter (λ r', Semester r' = Semester r) df). split.
  - apply list_elem_of_fmap. exists (Semester r). split; [done|].
    apply elem_of_unique, list_elem_of_fmap. exists r.
    split; [done|]. by rewrite Hperm.
  - simpl. apply semester_table_dup. rewrite columns_NoDup.
    intros Hnames. apply Hbad, Hnames. by rewrite Hperm.
Qed.

(** The grid is built when the time slots can be read and no section is
    named like a column, and shows every row when no section has two
    sessions at once. *)
Lemma display_grid_complete py_int working_days rows :
  (∀ r, r ∈ rows →
     parse_time_slot py_int (Time_Slot r)
     = Some (Start_Minute r, End_Minute r)) →
  (∀ r, r ∈ rows → Section_ r ≠ "Day" ∧ Section_ r ≠ "Time Slot") →
  ∃ tables,
    display_grid py_int working_days rows = Some tables ∧
    (section_exclusive rows →
     (∀ r, r ∈ rows → Start_Minute r < End_Minute r) →
     ∀ r, r ∈ rows → shown_in tables r).
Proof.
  intros Hparse Hnames. unfold display_grid.
  set (df := sort_for_display working_days rows).
  assert (df ≡ₚ rows) as Hperm by apply sort_for_display_perm.
  assert (NoDup (["Day"; "Time Slot"]
                 ++ sort_strings (unique (Section_ <$> df)))) as Hcols.
  { apply columns_NoDup. intros r Hr. apply Hnames. by rewrite <-Hperm. }
  assert (∀ r, r ∈ df → is_Some (parse_time_slot py_int (Time_Slot r)))
    as Hsome.
  { intros r Hr. rewrite Hperm in Hr. rewrite (Hparse r Hr). by eexists. }
  destruct (sorted_by_start_Some py_int (unique (Time_Slot <$> df)))
    as (slots & -> & _).
  { intros ts (r & -> & Hr)%elem_of_unique%list_elem_of_fmap.
    by apply Hsome. }
  simpl. set (sections := sort_strings (unique (Section_ <$> df))).
  destruct (mapM_Some_elem
              (λ group : string * list Row,
                 semester_table py_int working_days sections group.1 group.2)
              (groupby_semester df)) as (tables & -> & Htables).
  { intros [sem grp] (sem' & [= -> ->] & _)%list_elem_of_fmap. simpl.
    destruct (semester_table_Some py_int working_days sections sem'
                (filter (λ r, Semester r = sem') df)) as (table & -> & _);
      [done| |by eexists].
    intros r [_ Hr]%list_elem_of_filter. by apply Hsome. }
  exists tables. split; [done|].
  intros Hexclusive Hlen r Hr.
  assert (r ∈ df) as Hdf by by rewrite Hperm.
  set (grp := filter (λ r', Semester r' = Semester r) df).
  assert (r ∈ grp) as Hgrp by by apply list_elem_of_filter.
  destruct (Htables (Semester r, grp)) as (table & Htable & Hbuilt).
  { apply list_elem_of_fmap. exists (Semester r). split; [done|].
    apply elem_of_unique, list_elem_of_fmap. by exists r. }
  simpl in Hbuilt.
  destruct (semester_table_Some py_int working_days sections (Semester r) grp)
    as (table' & Hbuilt' & Hsem & Hlines); [done| |].
  { intros r' [_ Hr']%list_elem_of_filter. by apply Hsome. }
  rewrite Hbuilt in Hbuilt'. injection Hbuilt' as <-.
  exists table, (row_data grp sections (Day r) (Time_Slot r)).
  split_and!; [done|done|by apply Hlines|..].
  - unfold row_data.
    rewrite (row_data_foldl_lookup
               (cell grp (Day r) (Time_Slot r))).
    rewrite decide_False; [by rewrite lookup_insert_ne, lookup_insert_eq|].
    unfold sections. rewrite sort_strings_perm.
    intros (r' & Heq & Hr')%elem_of_unique%list_elem_of_fmap.
    rewrite Hperm in Hr'. by destruct (Hnames r' Hr').
  - unfold row_data.
    rewrite (row_data_foldl_lookup
               (cell grp (Day r) (Time_Slot r))).
    rewrite decide_False; [by rewrite lookup_insert_eq|].
    unfold sections. rewrite sort_strings_perm.
    intros (r' & Heq & Hr')%elem_of_unique%list_elem_of_fmap.
    rewrite Hperm in Hr'. by destruct (Hnames r' Hr').
  - unfold row_data.
    rewrite (row_data_foldl_lookup
               (cell grp (Day r) (Time_Slot r))).
    rewrite decide_True.
    2:{ unfold sections. rewrite sort_strings_perm.
        apply elem_of_unique, list_elem_of_fmap. by exists r. }
    f_equal. unfold cell, class_entry.
    assert (r ∈ filter (λ r', Day r' = Day r ∧ Time_Slot r' = Time_Slot r ∧
                              Section_ r' = Section_ r) grp) as Hin
      by by apply list_elem_of_filter.
    destruct (filter _ grp) as [|entry rest] eqn:Hfilter;
      [by apply elem_of_nil in Hin|].
    assert (entry ∈ filter (λ r', Day r' = Day r ∧
                                  Time_Slot r' = Time_Slot r ∧
                                  Section_ r' = Section_ r) grp) as Hentry
      by (rewrite Hfilter; apply elem_of_cons; by left).
    apply list_elem_of_filter in Hentry
      as [(Hday & Hslot & Hsec) [Hsem' Hentry]%list_elem_of_filter].
    f_equal.
    apply (one_row_per_cell py_int rows); try done.
    by rewrite <-Hperm.
Qed.

Lemma generate_rows_of_tasks shuffle class_components classrooms labs
    working_days start_time_obj end_time_obj :
  is_shuffle shuffle →
  returns (generate_schedule_from_components shuffle class_components
             classrooms labs working_days start_time_obj end_time_obj)
    (λ out, ∀ r, r ∈ schedule out →
       ∃ t, t ∈ expand_tasks class_components ∧ row_of_task t r).
Proof.
  intros Hshuffle. apply generate_returns.
  - intros e _ r Hr. simpl in Hr. by apply elem_of_nil in Hr.
  - intros st _ _ Hst r Hr. simpl in Hr. apply elem_of_sort_values in Hr.
    pose proof (place_tasks_rows_justified _ _ _ _ _ _ _ _
                  (initial_state_rows_justified _ _ _ _ _ _) Hst) as Hrows.
    destruct (Hrows r Hr) as (t & counter & Ht & Hrow & _).
    exists t. split; [|done]. by apply is_shuffle_elem_of in Ht.
Qed.

Lemma generate_grid py_int shuffle class_components classrooms labs
    working_days start_time_obj end_time_obj display_days :
  reads_decimal py_int →
  is_shuffle shuffle →
  (∀ c, c ∈ class_components → 0 ≤ Component.duration_minutes c) →
  0 ≤ time_to_minutes start_time_obj →
  returns (generate_schedule_from_components shuffle class_components
             classrooms labs working_days start_time_obj end_time_obj)
    (λ out,
       (is_Some (display_grid py_int display_days (schedule out)) ↔
        ∀ r, r ∈ schedule out →
             Section_ r ≠ "Day" ∧ Section_ r ≠ "Time Slot") ∧
       (all_fit classrooms labs working_days
          (time_to_minutes start_time_obj) (time_to_minutes end_time_obj)
          (shuffle (expand_tasks class_components))
          (initial_state working_days (time_to_minutes start_time_obj))
        = true →
        (∀ c, c ∈ class_components →
           0 < Component.duration_minutes c ∧
           ("Day" ∉ Component.sections c) ∧
           ("Time Slot" ∉ Component.sections c)) →
        ∃ tables,
          display_grid py_int display_days (schedule out) = Some tables ∧
          ∀ r, r ∈ schedule out → shown_in tables r)).
Proof.
  intros Hint Hshuffle Hdur Hstart.
  destruct (generate_time_slots py_int shuffle class_components classrooms
              labs working_days start_time_obj end_time_obj Hint Hshuffle
              Hdur Hstart) as (out & Hout & Hslots).
  exists out. split; [done|].
  assert (∀ r, r ∈ schedule out →
            parse_time_slot py_int (Time_Slot r)
            = Some (Start_Minute r, End_Minute r)) as Hparse
    by (intros r Hr; by apply Hslots).
  split.
  - split.
    + intros [tables Htables] r Hr.
      destruct (decide (Section_ r ≠ "Day" ∧ Section_ r ≠ "Time Slot"))
        as [|Hbad]; [done|].
      by rewrite (display_grid_duplicate py_int display_days _ r Hr Hbad)
        in Htables.
    + intros Hnames.
      destruct (display_grid_complete py_int display_days (schedule out)
                  Hparse Hnames) as (tables & -> & _).
      by eexists.
  - intros Hfit Hcomps.
    destruct (generate_day_exclusive shuffle class_components classrooms labs
                working_days start_time_obj end_time_obj Hshuffle Hdur Hfit)
      as (out' & Hout' & _ & Hexclusive).
    destruct (generate_rows_of_tasks shuffle class_components classrooms labs
                working_days start_time_obj end_time_obj Hshuffle)
      as (out'' & Hout'' & Htasks).
    rewrite Hout in Hout', Hout''.
    injection Hout' as <-. injection Hout'' as <-.
    assert (∀ r, r ∈ schedule out →
              ∃ comp, comp ∈ class_components ∧
                      Section_ r ∈ Component.sections comp ∧
                      End_Minute r
                      = Start_Minute r + Component.duration_minutes comp)
      as Hrows.
    { intros r (t & Ht & Hrow)%Htasks.
      apply elem_of_expand_tasks in Ht as (comp & section & n & Hc & Hsec & _
                                           & ->).
      destruct Hrow as (_ & _ & _ & Hsection & _ & _ & Hlen).
      exists comp. simpl in Hsection, Hlen. by rewrite Hsection. }
    destruct (display_grid_complete py_int display_days (schedule out) Hparse)
      as (tables & Hgrid & Hshown).
    { intros r (comp & Hc & Hsec & _)%Hrows.
      destruct (Hcomps comp Hc) as (_ & ? & ?).
      split; intros Heq; by rewrite Heq in Hsec. }
    exists tables. split; [done|]. apply Hshown; [done|].
    intros r (comp & Hc & _ & Hlen)%Hrows.
    destruct (Hcomps comp Hc) as [? _]. lia.
Qed.

(** X20. Provided durations and the start of the window are not negative
    (and [int] reads what [:02d] writes), the tables of the third tab are
    built for a routine the generator returns exactly when no row of the
    routine is of a section named "Day" or "Time Slot", whatever the
    working days at the time of display. Every time slot can be read, so
    that sorting the time slots by their start never compares [None]; but a
    section named like one of the first two columns repeats a column name,
    and the display raises. *)
Theorem grid_is_built py_int shuffle class_components classrooms labs
    working_days start_time_obj end_time_obj display_days :
  reads_decimal py_int →
  is_shuffle shuffle →
  (∀ c, c ∈ class_components → 0 ≤ Component.duration_minutes c) →
  0 ≤ time_to_minutes start_time_obj →
  returns (generate_schedule_from_components shuffle class_components
             classrooms labs working_days start_time_obj end_time_obj)
    (λ out,
       is_Some (display_grid py_int display_days (schedule out)) ↔
       ∀ r, r ∈ schedule out →
            Section_ r ≠ "Day" ∧ Section_ r ≠ "Time Slot").
Proof.
  intros Hint Hshuffle Hdur Hstart.
  destruct (generate_grid py_int shuffle class_components classrooms labs
              working_days start_time_obj end_time_obj display_days
              Hint Hshuffle Hdur Hstart) as (out & Hout & Hbuilt & _).
  by exists out.
Qed.

(** X21. In a run in which every slot tried ends within the daily window,
    with durations that are positive and no section named like the columns
    "Day" and "Time Slot", the tables show every row of the routine: the
    table of the row's semester has a line for its day and time slot, and
    the cell of its section in this line shows the row's course code,
    title and room. No row is hidden behind another one. *)
Theorem grid_shows_every_row py_int shuffle class_components classrooms labs
    working_days start_time_obj end_time_obj display_days :
  reads_decimal py_int →
  is_shuffle shuffle →
  (∀ c, c ∈ class_components →
     0 < Component.duration_minutes c ∧
     ("Day" ∉ Component.sections c) ∧
     ("Time Slot" ∉ Component.sections c)) →
  0 ≤ time_to_minutes start_time_obj →
  all_fit classrooms labs working_days
    (time_to_minutes start_time_obj) (time_to_minutes end_time_obj)
    (shuffle (expand_tasks class_components))
    (initial_state working_days (time_to_minutes start_time_obj)) = true →
  returns (generate_schedule_from_components shuffle class_components
             classrooms labs working_days start_time_obj end_time_obj)
    (λ out, ∃ tables,
       display_grid py_int display_days (schedule out) = Some tables ∧
       ∀ r, r ∈ schedule out → shown_in tables r).
Proof.
  intros Hint Hshuffle Hcomps Hstart Hfit.
  destruct (generate_grid py_int shuffle class_components classrooms labs
              working_days start_time_obj end_time_obj display_days
              Hint Hshuffle) as (out & Hout & _ & Hshown);
    [|done|].
  { intros c Hc. destruct (Hcomps c Hc) as [? _]. lia. }
  exists out. split; [done|]. by apply Hshown.
Qed.

Lemma grid_is_built_witness :
  returns (generate_schedule_from_components reversed lectures_of_section_A
             ["C101"] [] ["Mon"] at_8_00 at_17_00)
    (λ out,
       is_Some (display_grid read_decimal ["Mon"; "Tue"] (schedule out)) ↔
       ∀ r, r ∈ schedule out →
            Section_ r ≠ "Day" ∧ Section_ r ≠ "Time Slot").
Proof.
  apply (grid_is_built read_decimal reversed lectures_of_section_A
           ["C101"] [] ["Mon"] at_8_00 at_17_00 ["Mon"; "Tue"]).
  - apply read_decimal_fmt_02d.
  - apply reversed_is_shuffle.
  - apply lectures_of_section_A_duration.
  - simpl. lia.
Defined.

Lemma grid_shows_every_row_witness :
  returns (generate_schedule_from_components reversed two_lectures
             ["C101"; "C102"] [] ["Mon"; "Tue"] at_8_00 at_17_00)
    (λ out, ∃ tables,
       display_grid read_decimal ["Mon"; "Tue"] (schedule out) = Some tables ∧
       ∀ r, r ∈ schedule out → shown_in tables r).
Proof.
  apply (grid_shows_every_row read_decimal reversed two_lectures
           ["C101"; "C102"] [] ["Mon"; "Tue"] at_8_00 at_17_00
           ["Mon"; "Tue"]).
  - apply read_decimal_fmt_02d.
  - apply reversed_is_shuffle.
  - intros c Hc. unfold two_lectures in Hc.
    members Hc; (split_and!; [simpl; lia|compute_done..]).
  - simpl. lia.
  - vm_compute. reflexivity.
Defined.

Lemma new_names_nil pool : new_names pool [] [].
Proof.
  split_and!; [done|constructor|].
  intros r. split; [by intros ?%elem_of_nil|by intros [?%elem_of_nil _]].
Qed.

Lemma set_sections_same s : Session.set_sections (Session.sections s) s = s.
Proof. by destruct s. Qed.

(** X22. The form "Add Section", submitted for a semester with some text:
    the names of the text that are not empty and not among the sections of
    the semester yet are added, each once, and the whole list of the
    semester is sorted; the stored routine is cleared. When the text has
    no new name, nothing changes and a single message is shown. *)
Theorem add_sections_sorts strip sel_sem_for_sec new_sec_name s :
  Session.semesters s ≠ [] → sel_sem_for_sec ≠ "" → new_sec_name ≠ "" →
  ∃ added,
    new_names (default [] (Session.sections s !! sel_sem_for_sec))
      (stripped_names strip new_sec_name) added ∧
    let merged :=
      sort_strings
        (default [] (Session.sections s !! sel_sem_for_sec) ++ added) in
    StronglySorted string_le merged ∧
    merged ≡ₚ default [] (Session.sections s !! sel_sem_for_sec) ++ added ∧
    (added ≠ [] →
     add_sections strip sel_sem_for_sec new_sec_name s
     = Some (Session.set_schedule_df None
               (Session.set_sections
                  (<[sel_sem_for_sec := merged]> (Session.sections s)) s),
             [AddedSections (length added) sel_sem_for_sec])) ∧
    (added = [] →
     ∃ msg,
       add_sections strip sel_sem_for_sec new_sec_name s = Some (s, [msg])).
Proof.
  intros Hsemesters%list_truthy_spec Hsel%truthy_spec Hname%truthy_spec.
  unfold add_sections. rewrite Hsemesters, Hsel, Hname. simpl.
  destruct (list_truthy (stripped_names strip new_sec_name)) eqn:Hnames.
  - destruct (add_sections_foldl sel_sem_for_sec
                (stripped_names strip new_sec_name) (Session.sections s) 0)
      as (added & -> & Hnew).
    exists added. split; [done|].
    split; [apply sort_strings_sorted|]. split; [apply sort_strings_perm|].
    split.
    + intros Hadded. destruct added as [|sec added]; [done|].
      rewrite bool_decide_eq_true_2 by (simpl; lia).
      rewrite lookup_insert_eq. simpl. by rewrite insert_insert_eq.
    + intros ->. simpl. rewrite set_sections_same. by eexists.
  - apply list_truthy_false in Hnames. rewrite Hnames.
    exists []. split; [apply new_names_nil|].
    split; [apply sort_strings_sorted|]. split; [apply sort_strings_perm|].
    split; [done|]. intros _. by eexists.
Qed.

(** X23. Removing a semester of a list that names no semester twice takes
    with it the sections of the semester and every component of the
    semester: afterwards the semester is not in the list, it has no entry
    in the sections, and no component belongs to it. The other semesters,
    their sections and their components stay, as do the rooms; the stored
    routine is cleared. *)
Theorem remove_semester_cascades sem_to_remove s :
  NoDup (Session.semesters s) →
  sem_to_remove ≠ select_placeholder →
  sem_to_remove ∈ Session.semesters s →
  ∃ s' msgs,
    remove_semester sem_to_remove s = Some (s', msgs) ∧
    (∀ sem, sem ∈ Session.semesters s' ↔
            sem ∈ Session.semesters s ∧ sem ≠ sem_to_remove) ∧
    Session.sections s' !! sem_to_remove = None ∧
    (∀ sem, sem ≠ sem_to_remove →
            Session.sections s' !! sem = Session.sections s !! sem) ∧
    (∀ c, c ∈ Session.class_components s' ↔
          c ∈ Session.class_components s ∧
          Component.semester c ≠ sem_to_remove) ∧
    Session.class_components s' `sublist_of` Session.class_components s ∧
    Session.classrooms s' = Session.classrooms s ∧
    Session.labs s' = Session.labs s ∧
    Session.schedule_df s' = None.
Proof.
  intros Hnodup Hne Hsem. unfold remove_semester.
  assert (list_truthy (Session.semesters s) = true) as ->.
  { apply list_truthy_spec. intros Hnil. rewrite Hnil in Hsem.
    by apply elem_of_nil in Hsem. }
  apply String.eqb_neq in Hne as Hneb. rewrite Hneb. simpl.
  destruct (list_remove_is_Some _ _ Hsem) as [semesters Hsemesters].
  rewrite Hsemesters. simpl.
  destruct (list_remove_NoDup _ _ _ Hsemesters Hnodup) as [_ Hgone].
  eexists _, _. split; [done|]. simpl.
  split_and!; [|apply lookup_delete_eq| |
               |apply sublist_filter|done..].
  - intros sem. split.
    + intros Hin. split; [by eapply list_remove_elem_of|]. by intros ->.
    + intros [? ?]. by eapply list_remove_other.
  - intros sem ?. by rewrite lookup_delete_ne.
  - intros c. rewrite list_elem_of_filter. tauto.
Qed.

Lemma add_sections_sorts_witness :
  ∃ added,
    new_names (default [] (Session.sections spring_catalog !! "Spring"))
      (stripped_names no_strip "C,A") added ∧
    let merged :=
      sort_strings
        (default [] (Session.sections spring_catalog !! "Spring") ++ added) in
    StronglySorted string_le merged ∧
    merged ≡ₚ default [] (Session.sections spring_catalog !! "Spring")
               ++ added ∧
    (added ≠ [] →
     add_sections no_strip "Spring" "C,A" spring_catalog
     = Some (Session.set_schedule_df None
               (Session.set_sections
                  (<["Spring" := merged]> (Session.sections spring_catalog))
                  spring_catalog),
             [AddedSections (length added) "Spring"])) ∧
    (added = [] →
     ∃ msg,
       add_sections no_strip "Spring" "C,A" spring_catalog
       = Some (spring_catalog, [msg])).
Proof.
  apply (add_sections_sorts no_strip "Spring" "C,A" spring_catalog);
    discriminate.
Defined.

Lemma remove_semester_cascades_witness :
  ∃ s' msgs,
    remove_semester "Spring" spring_catalog = Some (s', msgs) ∧
    (∀ sem, sem ∈ Session.semesters s' ↔
            sem ∈ Session.semesters spring_catalog ∧ sem ≠ "Spring") ∧
    Session.sections s' !! "Spring" = None ∧
    (∀ sem, sem ≠ "Spring" →
            Session.sections s' !! sem
            = Session.sections spring_catalog !! sem) ∧
    (∀ c, c ∈ Session.class_components s' ↔
          c ∈ Session.class_components spring_catalog ∧
          Component.semester c ≠ "Spring") ∧
    Session.class_components s'
      `sublist_of` Session.class_components spring_catalog ∧
    Session.classrooms s' = Session.classrooms spring_catalog ∧
    Session.labs s' = Session.labs spring_catalog ∧
    Session.schedule_df s' = None.
Proof.
  apply (remove_semester_cascades "Spring" spring_catalog).
  - compute_done.
  - discriminate.
  - compute_done.
Defined.

(** * Two runs on one input *)

#[global] Instance same_message_refl : Reflexive same_message.
Proof. intros m. by destruct m. Qed.

Lemma same_slots_refl st : same_slots st st.
Proof. split_and!; [done..|]. by apply Forall_Forall2_diag, Forall_true. Qed.

Lemma Forall2_of_Forall {A} (P Q : A → Prop) (l1 l2 : list A) :
  Forall P l1 → Forall Q l2 → length l1 = length l2 →
  Forall2 (λ x y, P x ∧ Q y) l1 l2.
Proof.
  intros H1. revert l2.
  induction H1 as [|x l1 Hx _ IH]; intros [|y l2] H2 Hlen; try done.
  apply Forall_cons in H2 as [Hy H2]. simpl in Hlen.
  constructor; [done|]. apply IH; [done|lia].
Qed.

Section two_runs.
Variables classrooms labs working_days : list string.
Variables start_minutes_val end_minutes_val : Z.

(** Two tasks of the same duration, with a room available for each, take
    the same way through the body of the loop. *)
Lemma attempt_same_slots t1 t2 st1 st2 st1' broke :
  Task.duration_minutes t1 = Task.duration_minutes t2 →
  room_available classrooms labs (Task.class_type t1)
    (Task.assigned_room t1) →
  room_available classrooms labs (Task.class_type t2)
    (Task.assigned_room t2) →
  wf working_days st2 →
  same_slots st1 st2 →
  attempt classrooms labs working_days start_minutes_val end_minutes_val
    t1 st1 = Some (st1', broke) →
  ∃ st2',
    attempt classrooms labs working_days start_minutes_val end_minutes_val
      t2 st2 = Some (st2', broke) ∧
    same_slots st1' st2' ∧ wf working_days st2'.
Proof.
  intros Hdur Hroom1 Hroom2 Hwf (Hcur & Hcount & Hslots & Hmsgs) Hatt.
  apply attempt_inv in Hatt.
  assert (working_days ≠ []) as Hdays.
  { intros Hnil. rewrite Hnil in Hatt. inversion Hatt; done. }
  destruct (attempt_returns classrooms labs working_days start_minutes_val
              end_minutes_val t2 st2 Hdays Hwf) as [[st2' broke2] Hatt2].
  pose proof (attempt_inv _ _ _ _ _ _ _ _ _ Hatt2) as Hres2.
  pose proof (attempt_result_wf _ _ _ _ _ _ _ _ _ Hres2 Hwf) as Hwf2.
  rewrite Hatt2.
  destruct Hatt as
    [fd c0 idx day s room Hfd Hc0 Hidx Hday Hs Hfit Hroom Htruthy
    |fd c0 idx day s room Hfd Hc0 Hidx Hday Hs Hfit Hroom Htruthy
    |fd c0 idx day s Hfd Hc0 Hidx Hday Hs Hfit].
  2:{ pose proof (choose_room_truthy _ _ _ _ _ _ Hroom1 Hroom). congruence. }
  - destruct Hres2 as
      [fd' c0' idx' day' s' room' Hfd' Hc0' Hidx' Hday' Hs' Hfit' Hroom' Ht'
      |fd' c0' idx' day' s' room' Hfd' Hc0' Hidx' Hday' Hs' Hfit' Hroom' Ht'
      |fd' c0' idx' day' s' Hfd' Hc0' Hidx' Hday' Hs' Hfit'].
    2:{ pose proof (choose_room_truthy _ _ _ _ _ _ Hroom2 Hroom').
        congruence. }
    + assert (fd' = fd) as -> by congruence.
      assert (c0' = c0) as -> by congruence.
      assert (idx' = idx) as -> by congruence.
      assert (day' = day) as -> by congruence.
      assert (s' = s) as -> by congruence.
      eexists. split; [done|]. split; [|done].
      split_and!; simpl; [by rewrite Hcur, Hdur|by rewrite Hcount| |done].
      rewrite !fmap_app, Hslots. simpl. unfold slot_of. simpl.
      by rewrite Hdur.
    + assert (fd' = fd) as -> by congruence.
      assert (c0' = c0) as -> by congruence.
      assert (idx' = idx) as -> by congruence.
      assert (day' = day) as -> by congruence.
      assert (s' = s) as -> by congruence.
      lia.
  - destruct Hres2 as
      [fd' c0' idx' day' s' room' Hfd' Hc0' Hidx' Hday' Hs' Hfit' Hroom' Ht'
      |fd' c0' idx' day' s' room' Hfd' Hc0' Hidx' Hday' Hs' Hfit' Hroom' Ht'
      |fd' c0' idx' day' s' Hfd' Hc0' Hidx' Hday' Hs' Hfit'];
      (assert (fd' = fd) as -> by congruence);
      (assert (c0' = c0) as -> by congruence);
      (assert (idx' = idx) as -> by congruence);
      (assert (day' = day) as -> by congruence);
      (assert (s' = s) as -> by congruence);
      [lia|lia|].
    eexists. split; [done|]. split; [|done].
    split_and!; simpl; [by rewrite Hcur|by rewrite Hcount|done..].
Qed.

Lemma try_days_same_slots n t1 t2 :
  Task.duration_minutes t1 = Task.duration_minutes t2 →
  room_available classrooms labs (Task.class_type t1)
    (Task.assigned_room t1) →
  room_available classrooms labs (Task.class_type t2)
    (Task.assigned_room t2) →
  ∀ st1 st2 st1' assigned,
    wf working_days st2 → same_slots st1 st2 →
    try_days classrooms labs working_days start_minutes_val end_minutes_val
      n t1 st1 = Some (st1', assigned) →
    ∃ st2',
      try_days classrooms labs working_days start_minutes_val end_minutes_val
        n t2 st2 = Some (st2', assigned) ∧
      same_slots st1' st2' ∧ wf working_days st2'.
Proof.
  intros Hdur Hroom1 Hroom2.
  induction n as [|n IH]; intros st1 st2 st1' assigned Hwf Hsame Htry;
    simpl in Htry |- *.
  - injection Htry as <- <-. by exists st2.
  - destruct (attempt _ _ _ _ _ t1 st1) as [[st1a broke]|] eqn:Hatt; [|done].
    simpl in Htry.
    destruct (attempt_same_slots t1 t2 st1 st2 st1a broke Hdur Hroom1 Hroom2
                Hwf Hsame Hatt) as (st2a & -> & Hsame' & Hwf').
    simpl. destruct broke; [|by eapply IH].
    injection Htry as <- <-. by exists st2a.
Qed.

Lemma place_task_same_slots t1 t2 st1 st2 st1' :
  Task.duration_minutes t1 = Task.duration_minutes t2 →
  room_available classrooms labs (Task.class_type t1)
    (Task.assigned_room t1) →
  room_available classrooms labs (Task.class_type t2)
    (Task.assigned_room t2) →
  wf working_days st2 → same_slots st1 st2 →
  place_task classrooms labs working_days start_minutes_val end_minutes_val
    t1 st1 = Some st1' →
  ∃ st2',
    place_task classrooms labs working_days start_minutes_val end_minutes_val
      t2 st2 = Some st2' ∧
    same_slots st1' st2' ∧ wf working_days st2'.
Proof.
  intros Hdur Hroom1 Hroom2 Hwf Hsame. unfold place_task. intros Hplace.
  destruct (try_days _ _ _ _ _ _ t1 st1) as [[st1a assigned]|] eqn:Htry;
    [|done].
  simpl in Hplace.
  destruct (try_days_same_slots _ t1 t2 Hdur Hroom1 Hroom2 st1 st2 st1a
              assigned Hwf Hsame Htry) as (st2a & -> & Hsame' & Hwf').
  simpl. destruct assigned; injection Hplace as <-.
  - by exists st2a.
  - eexists. split; [done|].
    destruct Hsame' as (? & ? & ? & ?).
    split; [|done]. split_and!; simpl; [done..|].
    apply Forall2_app; [done|]. by repeat constructor.
Qed.

Lemma place_tasks_same_slots tasks1 tasks2 :
  Forall2 (λ t1 t2,
             (Task.duration_minutes t1 = Task.duration_minutes t2 ∧
              room_available classrooms labs (Task.class_type t1)
                (Task.assigned_room t1)) ∧
             room_available classrooms labs (Task.class_type t2)
               (Task.assigned_room t2)) tasks1 tasks2 →
  ∀ st1 st2 st1',
    wf working_days st2 → same_slots st1 st2 →
    place_tasks classrooms labs working_days start_minutes_val
      end_minutes_val tasks1 st1 = Some st1' →
    ∃ st2',
      place_tasks classrooms labs working_days start_minutes_val
        end_minutes_val tasks2 st2 = Some st2' ∧
      same_slots st1' st2'.
Proof.
  induction 1 as [|t1 t2 tasks1 tasks2 [[Hdur Hroom1] Hroom2] _ IH];
    intros st1 st2 st1' Hwf Hsame Hplace; simpl in Hplace |- *.
  - injection Hplace as <-. by exists st2.
  - destruct (place_task _ _ _ _ _ t1 st1) as [st1a|] eqn:Htask; [|done].
    simpl in Hplace.
    destruct (place_task_same_slots t1 t2 st1 st2 st1a Hdur Hroom1 Hroom2
                Hwf Hsame Htask) as (st2a & -> & Hsame' & Hwf').
    simpl. by eapply IH.
Qed.
End two_runs.

(** C2, as the code has it. The unseeded [random.shuffle] decides the order
    of the tasks, and two runs on one input may return different schedules.
    What does not depend on the shuffle, when all components have the same
    duration and a room is available for each: the slots. The rows of the
    two schedules have the same days, time slots, start and end minutes, up
    to their order, and the two runs show the same messages but for the
    task that a warning about an unplaced task names. Only which task gets
    which slot depends on the shuffle. *)
Theorem slots_independent_of_shuffle shuffle1 shuffle2 class_components
    classrooms labs working_days start_time_obj end_time_obj duration :
  is_shuffle shuffle1 → is_shuffle shuffle2 →
  rooms_available classrooms labs class_components →
  (∀ c, c ∈ class_components → Component.duration_minutes c = duration) →
  returns (generate_schedule_from_components shuffle1 class_components
             classrooms labs working_days start_time_obj end_time_obj)
    (λ out1,
       returns (generate_schedule_from_components shuffle2 class_components
                  classrooms labs working_days start_time_obj end_time_obj)
         (λ out2,
            slot_of <$> schedule out1 ≡ₚ slot_of <$> schedule out2 ∧
            Forall2 same_message (messages out1) (messages out2))).
Proof.
  intros Hshuffle1 Hshuffle2 Hrooms Hdur.
  assert (∀ out, returns (Some out)
                   (λ out1 : Output, returns (Some out)
                      (λ out2 : Output,
                         slot_of <$> schedule out1 ≡ₚ slot_of <$> schedule out2 ∧
                         Forall2 same_message (messages out1) (messages out2))))
    as Hsame.
  { intros out. exists out. split; [done|]. exists out. split; [done|].
    split; [done|]. by apply Forall_Forall2_diag, Forall_true. }
  unfold generate_schedule_from_components.
  destruct (negb (list_truthy class_components)
            || negb (list_truthy working_days)) eqn:Hmissing; [apply Hsame|].
  destruct (needs_theory_room class_components
            && negb (list_truthy classrooms)); [apply Hsame|].
  destruct (needs_lab_room_any class_components && negb (list_truthy labs));
    [apply Hsame|].
  apply orb_false_iff in Hmissing as [_ Hdays].
  apply negb_false_iff, list_truthy_spec in Hdays.
  set (start_minutes_val := time_to_minutes start_time_obj).
  set (end_minutes_val := time_to_minutes end_time_obj).
  assert (∀ shuffle, is_shuffle shuffle →
            Forall (λ t, Task.duration_minutes t = duration ∧
                         room_available classrooms labs (Task.class_type t)
                           (Task.assigned_room t))
              (shuffle (expand_tasks class_components))) as Htasks.
  { intros shuffle Hshuffle. apply Forall_forall. intros t Ht.
    split; [|by eapply rooms_available_task].
    apply is_shuffle_elem_of in Ht; [|done].
    apply elem_of_expand_tasks in Ht as (comp & section & n & Hc & _ & _
                                         & ->).
    simpl. by apply Hdur. }
  destruct (place_tasks_returns classrooms labs working_days start_minutes_val
              end_minutes_val (shuffle1 (expand_tasks class_components))
              (initial_state working_days start_minutes_val) Hdays
              (initial_state_wf working_days start_minutes_val))
    as (st1 & Hst1 & _).
  destruct (place_tasks_same_slots classrooms labs working_days
              start_minutes_val end_minutes_val
              (shuffle1 (expand_tasks class_components))
              (shuffle2 (expand_tasks class_components)))
    with (st1 := initial_state working_days start_minutes_val)
         (st2 := initial_state working_days start_minutes_val)
         (st1' := st1)
    as (st2 & Hst2 & _ & _ & Hslots & Hmsgs);
    [|apply initial_state_wf|apply same_slots_refl|done|].
  { eapply Forall2_impl.
    - apply Forall2_of_Forall; [by apply Htasks..|].
      by rewrite (Permutation_length (Hshuffle1 _)),
        (Permutation_length (Hshuffle2 _)).
    - intros t1 t2 [[? ?] [? ?]]. split_and!; [congruence|done..]. }
  rewrite Hst1, Hst2. simpl.
  assert (slot_of <$> sort_values working_days (schedule_entries st1)
          ≡ₚ slot_of <$> sort_values working_days (schedule_entries st2))
    as Hsorted by (rewrite !sort_values_perm; by rewrite Hslots).
  destruct (schedule_entries st1) as [|r1 rows1] eqn:Hrows1,
    (schedule_entries st2) as [|r2 rows2] eqn:Hrows2;
    try discriminate Hslots.
  - eexists. split; [reflexivity|]. eexists. split; [reflexivity|].
    split; [done|]. apply Forall2_app; [done|]. by repeat constructor.
  - eexists. split; [reflexivity|]. eexists. split; [reflexivity|].
    split; [exact Hsorted|exact Hmsgs].
Qed.

(** Two lectures of 50 minutes, one classroom, one day: in either order of
    the tasks the slots are 08:00-08:50 and 08:55-09:45, with the lectures
    exchanged. *)
Lemma slots_independent_of_shuffle_witness :
  returns (generate_schedule_from_components in_order lectures_of_section_A
             ["C101"] [] ["Mon"] at_8_00 at_17_00)
    (λ out1,
       returns (generate_schedule_from_components reversed
                  lectures_of_section_A ["C101"] [] ["Mon"]
                  at_8_00 at_17_00)
         (λ out2,
            slot_of <$> schedule out1 ≡ₚ slot_of <$> schedule out2 ∧
            Forall2 same_message (messages out1) (messages out2))).
Proof.
  apply (slots_independent_of_shuffle in_order reversed lectures_of_section_A
           ["C101"] [] ["Mon"] at_8_00 at_17_00 50).
  - apply in_order_is_shuffle.
  - apply reversed_is_shuffle.
  - intros c Hc. unfold lectures_of_section_A in Hc. members Hc; simpl;
      (split; [done|by intros ?%list_elem_of_singleton]).
  - intros c Hc. unfold lectures_of_section_A in Hc. by members Hc.
Defined.
